(** * Webhook ingestion and cache synchronisation of the Stripe SDK

    A shallow embedding of the TypeScript sources
    - [src/core/config.ts] (with the error classes it imports),
      [src/core/types.ts],
    - [src/adapters/memory.ts], [src/adapters/upstash.ts],
    - [src/providers/stripe/api.ts] (the wrappers of the API calls and the
      class [StripeProvider]), [src/providers/stripe/webhooks.ts],
    - [src/next/handlers/webhook.ts],
    - [src/core/provider.ts], [src/next/handlers/checkout.ts] and the
      portal handler that goes with it,
    followed by the properties of the specification that are stated about
    them, and by further properties of the code.

    Conventions.  A JavaScript [Promise<T>] that is awaited at once is a
    computation in the monad [M] below (state, a trace of the effects, and
    exceptions).  [T | undefined] and [T | null] are [option T].  Instants
    ([Date], [Date.now()]) are integers, milliseconds since the epoch.
    Strings are [string]; a template literal is a concatenation. *)

From Stdlib Require Import ZArith String Ascii List Lia Bool.
From stdpp Require Import base option gmap strings list fin_maps pretty.

Set Warnings "-register-all".

Open Scope string_scope.
Open Scope Z_scope.

(** ** JavaScript helpers *)

(** [a ?? b] *)
Definition nullish_or {A : Type} (a b : option A) : option A :=
  match a with
  | Some x => Some x
  | None => b
  end.

(** Truthiness of a possibly absent string: [undefined], [null] and the
    empty string are falsy. *)
Definition truthy_string (s : option string) : bool :=
  match s with
  | Some EmptyString => false
  | Some _ => true
  | None => false
  end.

(** Truthiness of a number: [0] is falsy (integers only, so no [NaN]). *)
Definition truthy_number (z : Z) : bool := negb (z =? 0).

(** The one-character string holding a double quote. *)
Definition dquote : string := String (ascii_of_nat 34) EmptyString.

(** [String.prototype.startsWith] *)
Definition startsWith (s p : string) : bool := String.prefix p s.

(** White space removed by [String.prototype.trim], restricted to the
    ASCII range: space, and the controls tab .. carriage return. *)
Definition is_space (c : ascii) : bool :=
  let n := nat_of_ascii c in
  ((n =? 32) || ((9 <=? n) && (n <=? 13)))%nat.

Fixpoint trimStart (s : string) : string :=
  match s with
  | EmptyString => EmptyString
  | String c s' => if is_space c then trimStart s' else s
  end.

Fixpoint trimEnd (s : string) : string :=
  match s with
  | EmptyString => EmptyString
  | String c s' =>
      match trimEnd s' with
      | EmptyString => if is_space c then EmptyString else String c EmptyString
      | t => String c t
      end
  end.

Definition trim (s : string) : string := trimEnd (trimStart s).

(** ** The error classes ([PaymentError], [WebhookError], [ConfigError]) *)

Module ErrorCodes.
Definition INVALID_CONFIG := "INVALID_CONFIG".
Definition INVALID_REQUEST := "INVALID_REQUEST".
Definition WEBHOOK_SIGNATURE_INVALID := "WEBHOOK_SIGNATURE_INVALID".
Definition PAYMENT_FAILED := "PAYMENT_FAILED".
Definition NOT_FOUND := "NOT_FOUND".
Definition RATE_LIMITED := "RATE_LIMITED".
Definition CUSTOMER_NOT_FOUND := "CUSTOMER_NOT_FOUND".
Definition SUBSCRIPTION_NOT_FOUND := "SUBSCRIPTION_NOT_FOUND".
Definition CHECKOUT_SESSION_NOT_FOUND := "CHECKOUT_SESSION_NOT_FOUND".
End ErrorCodes.

(** What code outside this package can throw: the error classes of the
    [stripe] package, a plain [Error], or a value that is no [Error]. *)
Inductive ForeignError : Type :=
| StripeError (message : string) (statusCode : option Z)
| StripeSignatureVerificationError (message : string)
| PlainError (message : string)
| NonError.

(** Everything a [catch] clause of this package can receive.  The three
    classes of the package keep their constructor arguments. *)
Inductive JsError : Type :=
| PaymentError (message code : string) (statusCode : Z)
| WebhookError (message code : string)
| ConfigError (message : string)
| Foreign (e : ForeignError).

(** [error instanceof Error ? error.message : 'Unknown error'] *)
Definition message_or_unknown (error : JsError) : string :=
  match error with
  | PaymentError m _ _ => m
  | WebhookError m _ => m
  | ConfigError m => m
  | Foreign (StripeError m _) => m
  | Foreign (StripeSignatureVerificationError m) => m
  | Foreign (PlainError m) => m
  | Foreign NonError => "Unknown error"
  end.

(** [error instanceof WebhookError] *)
Definition instanceof_WebhookError (error : JsError) : bool :=
  match error with
  | WebhookError _ _ => true
  | _ => false
  end.

(** [error instanceof PaymentError] *)
Definition instanceof_PaymentError (error : JsError) : bool :=
  match error with
  | PaymentError _ _ _ => true
  | _ => false
  end.

(** The outcome of a call that may throw. *)
Inductive Result (A : Type) : Type :=
| Ok (a : A)
| Throw (error : JsError).
Arguments Ok {A} a.
Arguments Throw {A} error.

Definition is_Ok {A : Type} (r : Result A) : bool :=
  match r with
  | Ok _ => true
  | Throw _ => false
  end.

(** ** [src/core/config.ts] *)

Module Config.

Record StripeConfig : Type := {
  secretKey : string;
  webhookSecret : option string
}.

(** [Partial<StripeConfig>] *)
Record Overrides : Type := {
  override_secretKey : option string;
  override_webhookSecret : option string
}.

(** The two entries of [process.env] the package reads ([ENV_VARS]). *)
Record ProcessEnv : Type := {
  STRIPE_SECRET_KEY : option string;
  STRIPE_WEBHOOK_SECRET : option string
}.

Definition msg_missing_secret_key : string :=
  "Missing required environment variable: STRIPE_SECRET_KEY. " +:+
  "Please set STRIPE_SECRET_KEY in your environment or provide it in the config.".

Definition msg_blank_secret_key : string :=
  "Invalid STRIPE_SECRET_KEY: must be a non-empty string.".

Definition msg_secret_key_format : string :=
  "Invalid STRIPE_SECRET_KEY format. " +:+
  "Stripe secret keys must start with " +:+ dquote +:+ "sk_test_" +:+ dquote +:+
  " (test mode) or " +:+ dquote +:+ "sk_live_" +:+ dquote +:+ " (live mode).".

Definition msg_missing_webhook_secret : string :=
  "Missing required environment variable: STRIPE_WEBHOOK_SECRET. " +:+
  "Webhook secret is required for webhook signature verification. " +:+
  "Get your webhook secret from the Stripe Dashboard > Webhooks > Your endpoint > Signing secret.".

Definition msg_webhook_secret_format : string :=
  "Invalid STRIPE_WEBHOOK_SECRET format. " +:+
  "Stripe webhook secrets must start with " +:+ dquote +:+ "whsec_" +:+ dquote +:+ ".".

(** The key [loadStripeConfig] looks at: [overrides?.secretKey ?? env]. *)
Definition resolved_secretKey (overrides : option Overrides) (env : ProcessEnv)
  : option string :=
  nullish_or (overrides ≫= override_secretKey) (STRIPE_SECRET_KEY env).

Definition resolved_webhookSecret (overrides : option Overrides) (env : ProcessEnv)
  : option string :=
  nullish_or (overrides ≫= override_webhookSecret) (STRIPE_WEBHOOK_SECRET env).

Definition loadStripeConfig (overrides : option Overrides) (env : ProcessEnv)
  : Result StripeConfig :=
  let secretKey := resolved_secretKey overrides env in
  let webhookSecret := resolved_webhookSecret overrides env in
  match secretKey with
  | None => Throw (ConfigError msg_missing_secret_key)
  | Some EmptyString => Throw (ConfigError msg_missing_secret_key)
  | Some secretKey =>
      if (String.length (trim secretKey) =? 0)%nat then
        Throw (ConfigError msg_blank_secret_key)
      else if negb (startsWith secretKey "sk_test_")
              && negb (startsWith secretKey "sk_live_") then
        Throw (ConfigError msg_secret_key_format)
      else
        Ok {| secretKey := trim secretKey;
              webhookSecret :=
                match trim <$> webhookSecret with
                | Some EmptyString => None
                | w => w
                end |}
  end.

Definition validateWebhookSecret (config : StripeConfig) (required : bool)
  : Result unit :=
  if required && negb (truthy_string (webhookSecret config)) then
    Throw (ConfigError msg_missing_webhook_secret)
  else
    match webhookSecret config with
    | Some (String _ _ as secret) =>
        if negb (startsWith secret "whsec_") then
          Throw (ConfigError msg_webhook_secret_format)
        else Ok tt
    | _ => Ok tt
    end.

End Config.

(** ** [src/adapters/memory.ts] *)

Module Memory.
Section Adapter.
Context {V : Type}.

(** [StorageEntry<T>] *)
Record StorageEntry : Type := {
  value : V;
  expiresAt : option Z
}.

(** [entry.expiresAt && entry.expiresAt < now] *)
Definition expired (now : Z) (entry : StorageEntry) : bool :=
  match expiresAt entry with
  | Some e => truthy_number e && (e <? now)
  | None => false
  end.

(** [get(key)], read at instant [now]: the value or [null], and the
    storage afterwards. *)
Definition get (key : string) (now : Z) (storage : gmap string StorageEntry)
  : option V * gmap string StorageEntry :=
  match storage !! key with
  | None => (None, storage)
  | Some entry =>
      if expired now entry then (None, delete key storage)
      else (Some (value entry), storage)
  end.

(** [set(key, value, ttlSeconds?)] at instant [now]. *)
Definition set (key : string) (v : V) (ttlSeconds : option Z) (now : Z)
    (storage : gmap string StorageEntry) : gmap string StorageEntry :=
  let entry :=
    match ttlSeconds with
    | Some ttl =>
        if truthy_number ttl && (0 <? ttl)
        then {| value := v; expiresAt := Some (now + ttl * 1000) |}
        else {| value := v; expiresAt := None |}
    | None => {| value := v; expiresAt := None |}
    end in
  <[key := entry]> storage.

(** [delete(key)] *)
Definition delete (key : string) (storage : gmap string StorageEntry)
  : gmap string StorageEntry :=
  base.delete key storage.

(** One run of the [setInterval] callback at instant [now]. *)
Definition cleanup (now : Z) (storage : gmap string StorageEntry)
  : gmap string StorageEntry :=
  filter (fun kv => expired now kv.2 = false) storage.

(** Every expiry instant in the storage is a positive number: what
    [set] writes when the clock is not before the epoch. *)
Definition positive_expiry (storage : gmap string StorageEntry) : Prop :=
  forall key entry e,
    storage !! key = Some entry -> expiresAt entry = Some e -> 0 < e.

End Adapter.
Arguments StorageEntry V : clear implicits.
End Memory.

(** ** [src/core/types.ts] *)

(** [Record<string, string>] *)
Abbreviation Metadata := (gmap string string).

Record CheckoutSession : Type := {
  cs_id : string;
  cs_url : string;
  cs_status : string;
  cs_customerId : option string;
  cs_metadata : option Metadata;
  cs_createdAt : option Z
}.

Record SubscriptionItem : Type := {
  item_id : string;
  item_priceId : string;
  item_quantity : Z
}.

Record Subscription : Type := {
  sub_id : string;
  sub_customerId : string;
  sub_status : string;
  sub_currentPeriodEnd : Z;
  sub_currentPeriodStart : Z;
  sub_cancelAtPeriodEnd : bool;
  sub_items : list SubscriptionItem;
  sub_metadata : option Metadata;
  sub_createdAt : option Z
}.

Record Customer : Type := {
  cus_id : string;
  cus_email : string;
  cus_name : option string;
  cus_metadata : option Metadata;
  cus_createdAt : option Z
}.

Record CustomerData : Type := {
  cd_email : string;
  cd_name : option string;
  cd_metadata : option Metadata
}.

(** [event.data]: the object embedded in the event.  The package reads
    its [id] only; every other field (a claimed [status], ...) is kept
    in [data_fields]. *)
Record EventData : Type := {
  data_id : string;
  data_fields : gmap string string
}.

Record WebhookEvent : Type := {
  event_id : string;
  event_type : string;
  event_data : EventData;
  event_created : Z
}.

(** What this package hands to [KVAdapter.set]: an id or one of the three
    entities. *)
Inductive Value : Type :=
| VString (s : string)
| VCheckoutSession (session : CheckoutSession)
| VSubscription (subscription : Subscription)
| VCustomer (customer : Customer).

(** Truthiness of what [cache.get] returned: [null] and the empty string
    are falsy, objects are truthy. *)
Definition truthy_value (v : option Value) : bool :=
  match v with
  | None => false
  | Some (VString EmptyString) => false
  | Some _ => true
  end.

Record CheckoutOptions : Type := {
  priceId : string;
  successUrl : string;
  cancelUrl : string;
  customerEmail : option string;
  (** declared [string]; [createCheckout] stores here what the cache
      returned, whatever its run-time type *)
  customerId : option Value;
  metadata : option Metadata;
  mode : option string;
  quantity : option Z;
  trialDays : option Z
}.

(** ** The [stripe] package, as far as this package calls it

    Requests and replies of the provider's client.  A reply may depend on
    when the call is made: every method takes the number of calls made
    before it. *)

(** An expandable reference: [null], an id, or the expanded object. *)
Inductive Expandable : Type :=
| RefNull
| RefId (id : string)
| RefObject (id : string).

Record RawCheckoutSession : Type := {
  raw_cs_id : string;
  raw_cs_url : option string;
  raw_cs_status : option string;
  raw_cs_customer : Expandable;
  raw_cs_metadata : option Metadata;
  raw_cs_created : Z
}.

Record RawSubscriptionItem : Type := {
  raw_item_id : string;
  raw_item_price_id : string;
  raw_item_quantity : option Z
}.

Record RawSubscription : Type := {
  raw_sub_id : string;
  raw_sub_customer : Expandable;
  raw_sub_status : string;
  raw_sub_current_period_end : Z;
  raw_sub_current_period_start : Z;
  raw_sub_cancel_at_period_end : bool;
  raw_sub_items : list RawSubscriptionItem;
  raw_sub_metadata : option Metadata;
  raw_sub_created : Z
}.

Record RawCustomer : Type := {
  raw_cus_id : string;
  raw_cus_email : option string;
  raw_cus_name : option string;
  raw_cus_metadata : option Metadata;
  raw_cus_created : Z;
  raw_cus_deleted : bool
}.

Record RawEvent : Type := {
  raw_event_id : string;
  raw_event_type : string;
  raw_event_data_object : EventData;
  raw_event_created : Z
}.

Record CustomerCreateParams : Type := {
  ccp_email : string;
  ccp_name : option string;
  ccp_metadata : option Metadata
}.

Record SessionCreateParams : Type := {
  scp_price : string;
  scp_quantity : Z;
  scp_mode : string;
  scp_success_url : string;
  scp_cancel_url : string;
  scp_metadata : option Metadata;
  scp_customer : option Value;
  scp_customer_email : option string;
  (** [trial_period_days] and [metadata] of [subscription_data] *)
  scp_subscription_data : option (Z * option Metadata)
}.

Inductive Reply (A : Type) : Type :=
| Resolved (a : A)
| Rejected (e : ForeignError).
Arguments Resolved {A} a.
Arguments Rejected {A} e.

Record Stripe : Type := {
  webhooks_constructEvent : string -> string -> string -> Reply RawEvent;
  checkout_sessions_retrieve : nat -> string -> Reply RawCheckoutSession;
  checkout_sessions_create : nat -> SessionCreateParams -> Reply RawCheckoutSession;
  subscriptions_retrieve : nat -> string -> Reply RawSubscription;
  customers_retrieve : nat -> string -> Reply RawCustomer;
  customers_create : nat -> CustomerCreateParams -> Reply RawCustomer
}.

(** ** Effects: the world, its trace, and the monad [M] *)

Inductive StripeCall : Type :=
| CheckoutSessionsRetrieve (id : string)
| CheckoutSessionsCreate (params : SessionCreateParams)
| SubscriptionsRetrieve (id : string)
| CustomersRetrieve (id : string)
| CustomersCreate (params : CustomerCreateParams).

(** Calls of the [SyncAdapter] callbacks. *)
Inductive SyncCall : Type :=
| SyncCustomerCreated (customer : Customer)
| SyncSubscriptionUpdated (subscription : Subscription)
| SyncSubscriptionCanceled (subscription : Subscription).

(** Calls of the [WebhookEventHandlers] callbacks. *)
Inductive HandlerCall : Type :=
| CheckoutComplete (session : CheckoutSession)
| SubscriptionCreated (subscription : Subscription)
| SubscriptionUpdated (subscription : Subscription)
| SubscriptionCanceled (subscription : Subscription).

Inductive Event : Type :=
| EvVerifyWebhook (payload signature : string)
| EvStripe (call : StripeCall)
| EvCacheGet (key : string)
| EvCacheSet (key : string) (v : Value) (ttlSeconds : option Z)
| EvCacheDelete (key : string)
| EvSync (call : SyncCall)
| EvHandler (call : HandlerCall)
| EvConsoleError (label : string) (error : JsError)
| EvConsoleLog (text : string).

(** [S] is the state of the cache behind the [KVAdapter] in use. *)
Record World (S : Type) : Type := {
  clock : Z;
  env : Config.ProcessEnv;
  store : S;
  ticks : nat;
  trace : list Event
}.
Arguments clock {S} w.
Arguments env {S} w.
Arguments store {S} w.
Arguments ticks {S} w.
Arguments trace {S} w.

Definition M (S A : Type) : Type := World S -> Result A * World S.

Section Monad.
Context {S : Type}.

Definition ret {A : Type} (a : A) : M S A := fun w => (Ok a, w).

Definition bind {A B : Type} (m : M S A) (k : A -> M S B) : M S B :=
  fun w =>
    match m w with
    | (Ok a, w') => k a w'
    | (Throw e, w') => (Throw e, w')
    end.

Definition throw {A : Type} (e : JsError) : M S A := fun w => (Throw e, w).

(** [try { m } catch (error) { h error }]: what [m] did before it threw
    stays done. *)
Definition try_catch {A : Type} (m : M S A) (h : JsError -> M S A) : M S A :=
  fun w =>
    match m w with
    | (Ok a, w') => (Ok a, w')
    | (Throw e, w') => h e w'
    end.

Definition lift {A : Type} (r : Result A) : M S A := fun w => (r, w).

Definition emit (ev : Event) : M S unit :=
  fun w =>
    (Ok tt, {| clock := clock w; env := env w; store := store w;
               ticks := ticks w; trace := trace w ++ [ev] |}).

Definition read_env : M S Config.ProcessEnv := fun w => (Ok (env w), w).

(** One request to the provider: recorded, counted, answered. *)
Definition stripe_call {A : Type} (call : StripeCall) (reply : nat -> Reply A)
  : M S A :=
  fun w =>
    let w' := {| clock := clock w; env := env w; store := store w;
                 ticks := Datatypes.S (ticks w);
                 trace := trace w ++ [EvStripe call] |} in
    match reply (ticks w) with
    | Resolved a => (Ok a, w')
    | Rejected e => (Throw (Foreign e), w')
    end.

(** A call of code handed to this package (a callback, a method of the
    provider): recorded, then run. *)
Definition invoke {A : Type} (ev : Event) (outcome : Result A) : M S A :=
  fun w =>
    (outcome, {| clock := clock w; env := env w; store := store w;
                 ticks := ticks w; trace := trace w ++ [ev] |}).

End Monad.

#[global] Instance M_ret {S : Type} : MRet (M S) := fun A a => ret a.
#[global] Instance M_bind {S : Type} : MBind (M S) := fun A B k m => bind m k.

(** [KVAdapter] of [types.ts]: each method takes the instant of the call
    and the state of the store, and may throw. *)
Record KVAdapter (S : Type) : Type := {
  kv_get : string -> Z -> S -> Result (option Value) * S;
  kv_set : string -> Value -> option Z -> Z -> S -> Result unit * S;
  kv_delete : string -> Z -> S -> Result unit * S
}.
Arguments kv_get {S} k key now s.
Arguments kv_set {S} k key v ttlSeconds now s.
Arguments kv_delete {S} k key now s.

(** [createMemoryAdapter()]: the adapter over the map of [memory.ts],
    which never throws. *)
Definition createMemoryAdapter : KVAdapter (gmap string (Memory.StorageEntry Value)) := {|
  kv_get key now s := let (v, s') := Memory.get key now s in (Ok v, s');
  kv_set key v ttlSeconds now s := (Ok tt, Memory.set key v ttlSeconds now s);
  kv_delete key now s := (Ok tt, Memory.delete key s)
|}.

Section CacheCalls.
Context {S : Type} (cache : KVAdapter S).

Definition cache_get (key : string) : M S (option Value) :=
  fun w =>
    let (r, s') := kv_get cache key (clock w) (store w) in
    (r, {| clock := clock w; env := env w; store := s';
           ticks := ticks w; trace := trace w ++ [EvCacheGet key] |}).

Definition cache_set (key : string) (v : Value) (ttlSeconds : option Z)
  : M S unit :=
  fun w =>
    let (r, s') := kv_set cache key v ttlSeconds (clock w) (store w) in
    (r, {| clock := clock w; env := env w; store := s';
           ticks := ticks w;
           trace := trace w ++ [EvCacheSet key v ttlSeconds] |}).

End CacheCalls.

(** [typeof ref === 'string' ? ref : ref?.id] *)
Definition expandable_id (ref : Expandable) : option string :=
  match ref with
  | RefNull => None
  | RefId id => Some id
  | RefObject id => Some id
  end.

(** ** [src/providers/stripe/api.ts] *)

Module Api.
Section Api.
Context {S : Type}.

(** The two [throw]s that end every [catch] of this file: a
    [StripeError] keeps its status code ([?? 500]), anything else gets
    the default status of [PaymentError]. *)
Definition payment_failed (what : string) (error : JsError) : JsError :=
  match error with
  | Foreign (StripeError m statusCode) =>
      PaymentError (what +:+ m) ErrorCodes.PAYMENT_FAILED
        (default 500 statusCode)
  | Foreign (StripeSignatureVerificationError m) =>
      PaymentError (what +:+ m) ErrorCodes.PAYMENT_FAILED 500
  | _ =>
      PaymentError (what +:+ message_or_unknown error)
        ErrorCodes.PAYMENT_FAILED 500
  end.

Definition sessionParams (options : CheckoutOptions) : SessionCreateParams := {|
  scp_price := priceId options;
  scp_quantity := default 1 (quantity options);
  scp_mode := default "subscription" (mode options);
  scp_success_url := successUrl options;
  scp_cancel_url := cancelUrl options;
  scp_metadata := metadata options;
  scp_customer :=
    if truthy_value (customerId options) then customerId options else None;
  scp_customer_email :=
    if truthy_value (customerId options) then None
    else if truthy_string (customerEmail options) then customerEmail options
    else None;
  scp_subscription_data :=
    match mode options, trialDays options with
    | Some m, Some days =>
        if (m =? "subscription")%string && truthy_number days
        then Some (days, metadata options) else None
    | _, _ => None
    end
|}.

(** The object literal [createCheckoutSession] returns.  [session.url!]
    asserts at compile time only; a [null] url is carried as the empty
    string. *)
Definition createdSession (session : RawCheckoutSession) : CheckoutSession := {|
  cs_id := raw_cs_id session;
  cs_url := default "" (raw_cs_url session);
  cs_status := default "open" (raw_cs_status session);
  cs_customerId := expandable_id (raw_cs_customer session);
  cs_metadata := raw_cs_metadata session;
  cs_createdAt := Some (raw_cs_created session * 1000)
|}.

Definition createCheckoutSession (stripe : Stripe) (options : CheckoutOptions)
  : M S CheckoutSession :=
  try_catch
    (session ← stripe_call (CheckoutSessionsCreate (sessionParams options))
                 (fun t => checkout_sessions_create stripe t (sessionParams options));
     mret (createdSession session))
    (fun error =>
       throw (payment_failed "Checkout session creation failed: " error)).

Definition customerParams (data : CustomerData) : CustomerCreateParams := {|
  ccp_email := cd_email data;
  ccp_name := cd_name data;
  ccp_metadata := cd_metadata data
|}.

(** The object literal [createCustomer] returns; [customer.email!] as
    [session.url!] above. *)
Definition createdCustomer (customer : RawCustomer) : Customer := {|
  cus_id := raw_cus_id customer;
  cus_email := default "" (raw_cus_email customer);
  cus_name := raw_cus_name customer;
  cus_metadata := raw_cus_metadata customer;
  cus_createdAt := Some (raw_cus_created customer * 1000)
|}.

Definition createCustomer (stripe : Stripe) (data : CustomerData)
  : M S Customer :=
  try_catch
    (customer ← stripe_call (CustomersCreate (customerParams data))
                  (fun t => customers_create stripe t (customerParams data));
     mret (createdCustomer customer))
    (fun error => throw (payment_failed "Customer creation failed: " error)).

End Api.
End Api.

(** ** [src/providers/stripe/webhooks.ts] *)

Module Webhooks.

Definition verifyWebhookSignature (stripe : Stripe)
    (payload signature webhookSecret : string) : Result WebhookEvent :=
  match webhookSecret, signature with
  | EmptyString, _ =>
      Throw (WebhookError "Webhook secret is required for signature verification"
               ErrorCodes.WEBHOOK_SIGNATURE_INVALID)
  | _, EmptyString =>
      Throw (WebhookError "Missing webhook signature in request headers"
               ErrorCodes.WEBHOOK_SIGNATURE_INVALID)
  | _, _ =>
      match webhooks_constructEvent stripe payload signature webhookSecret with
      | Resolved event =>
          Ok {| event_id := raw_event_id event;
                event_type := raw_event_type event;
                event_data := raw_event_data_object event;
                event_created := raw_event_created event * 1000 |}
      | Rejected (StripeSignatureVerificationError m) =>
          Throw (WebhookError ("Webhook signature verification failed: " +:+ m)
                   ErrorCodes.WEBHOOK_SIGNATURE_INVALID)
      | Rejected e =>
          Throw (WebhookError
                   ("Webhook verification failed: " +:+ message_or_unknown (Foreign e))
                   ErrorCodes.WEBHOOK_SIGNATURE_INVALID)
      end
  end.

End Webhooks.

(** [PaymentProvider] of [types.ts], as the webhook handler uses it: the
    one synchronous method. *)
Record PaymentProvider : Type := {
  provider_name : string;
  provider_verifyWebhook : string -> string -> Result WebhookEvent
}.

(** ** [src/providers/stripe/api.ts]: class [StripeProvider] *)

Module StripeProvider.
Section Provider.
Context {S : Type}.
(** [createStripeClient]: [new Stripe(apiKey, ...)] *)
Variable createStripeClient : string -> Stripe.

Record Options : Type := {
  options_cache : KVAdapter S;
  options_config : option Config.Overrides
}.

(** The private fields of the class. *)
Record t : Type := {
  stripe : Stripe;
  cache : KVAdapter S;
  config : Config.StripeConfig
}.

Definition constructor (options : Options) (env : Config.ProcessEnv) : Result t :=
  match Config.loadStripeConfig (options_config options) env with
  | Throw e => Throw e
  | Ok config =>
      Ok {| config := config;
            cache := options_cache options;
            stripe := createStripeClient (Config.secretKey config) |}
  end.

(** [{ userId, ...options.metadata }] *)
Definition with_userId (userId : string) (meta : option Metadata) : Metadata :=
  default ∅ meta ∪ {["userId" := userId]}.

(** [const customerData: CustomerData = { ... }] *)
Definition customerData (options : CheckoutOptions) (userId email : string)
  : CustomerData := {|
  cd_email := email;
  cd_name := None;
  cd_metadata := Some (with_userId userId (metadata options))
|}.

(** [const checkoutOptions: CheckoutOptions = { ...options, customerId,
    metadata: { ... } }] *)
Definition checkoutOptions (options : CheckoutOptions) (userId : string)
    (customerId : option Value) : CheckoutOptions := {|
  priceId := priceId options;
  successUrl := successUrl options;
  cancelUrl := cancelUrl options;
  customerEmail := customerEmail options;
  customerId := customerId;
  metadata := Some (with_userId userId (metadata options));
  mode := mode options;
  quantity := quantity options;
  trialDays := trialDays options
|}.

Definition createCheckout (this : t) (options : CheckoutOptions)
  : M S CheckoutSession :=
  try_catch
    (match metadata options ≫= (fun m => m !! "userId") with
     | None | Some EmptyString =>
         throw (PaymentError "userId is required in metadata for checkout"
                  ErrorCodes.INVALID_REQUEST 400)
     | Some userId =>
         match customerEmail options with
         | None | Some EmptyString =>
             throw (PaymentError "customerEmail is required for checkout"
                      ErrorCodes.INVALID_REQUEST 400)
         | Some email =>
             let cacheKey := "customer:userId:" +:+ userId in
             cached ← cache_get (cache this) cacheKey;
             customerId ←
               (if negb (truthy_value cached) then
                  customer ← Api.createCustomer (stripe this)
                               (customerData options userId email);
                  cache_set (cache this) cacheKey (VString (cus_id customer)) None;;
                  cache_set (cache this) ("customer:email:" +:+ email)
                    (VString (cus_id customer)) None;;
                  mret (Some (VString (cus_id customer)))
                else mret cached);
             session ← Api.createCheckoutSession (stripe this)
                         (checkoutOptions options userId customerId);
             cache_set (cache this) ("checkout:" +:+ cs_id session)
               (VCheckoutSession session) (Some 3600);;
             mret session
         end
     end)
    (fun error =>
       if instanceof_PaymentError error then throw error
       else throw (PaymentError
                     ("Checkout creation failed: " +:+ message_or_unknown error)
                     ErrorCodes.PAYMENT_FAILED 500)).

Definition verifyWebhook (this : t) (payload signature : string)
  : Result WebhookEvent :=
  match Config.webhookSecret (config this) with
  | None | Some EmptyString =>
      Throw (WebhookError
               "Webhook secret is not configured. Set STRIPE_WEBHOOK_SECRET environment variable."
               ErrorCodes.WEBHOOK_SIGNATURE_INVALID)
  | Some secret =>
      Webhooks.verifyWebhookSignature (stripe this) payload signature secret
  end.

(** The instance seen through the [PaymentProvider] interface. *)
Definition as_PaymentProvider (this : t) : PaymentProvider := {|
  provider_name := "stripe";
  provider_verifyWebhook := verifyWebhook this
|}.

End Provider.
End StripeProvider.

(** [SyncAdapter] of [types.ts]: optional callbacks, each of which may
    throw (reject). *)
Record SyncAdapter : Type := {
  sync_onCustomerCreated : option (Customer -> Result unit);
  sync_onSubscriptionUpdated : option (Subscription -> Result unit);
  sync_onSubscriptionCanceled : option (Subscription -> Result unit)
}.

(** ** [src/next/handlers/webhook.ts] *)

Module Webhook.

Record WebhookEventHandlers : Type := {
  onCheckoutComplete : option (CheckoutSession -> Result unit);
  onSubscriptionCreated : option (Subscription -> Result unit);
  onSubscriptionUpdated : option (Subscription -> Result unit);
  onSubscriptionCanceled : option (Subscription -> Result unit)
}.

(** A [NextRequest]: header names in lower case, the body as
    [request.text()] resolves it. *)
Record NextRequest : Type := {
  method : string;
  headers : gmap string string;
  text : string
}.

(** The two shapes of body the handler sends:
    [{ error, message? }] and [{ received: true, error? }]. *)
Inductive Body : Type :=
| ErrorBody (error : string) (message : option string)
| Received (error : option string).

Record NextResponse : Type := {
  body : Body;
  status : Z
}.

(** [NextResponse.json(body, { status })] *)
Definition json (b : Body) (st : Z) : NextResponse :=
  {| body := b; status := st |}.

Section Handler.
Context {S : Type}.
(** [createStripeClient] of [api.ts]: [new Stripe(apiKey, ...)] *)
Variable createStripeClient : string -> Stripe.

Record CreateWebhookHandlerOptions : Type := {
  provider : PaymentProvider;
  cache : KVAdapter S;
  sync : option SyncAdapter;
  handlers : option WebhookEventHandlers
}.

(** The object literal [fetchLatestCheckoutSession] returns. *)
Definition toCheckoutSession (session : RawCheckoutSession) : CheckoutSession := {|
  cs_id := raw_cs_id session;
  cs_url := default "" (raw_cs_url session);
  cs_status := default "open" (raw_cs_status session);
  cs_customerId := expandable_id (raw_cs_customer session);
  cs_metadata := raw_cs_metadata session;
  cs_createdAt := Some (raw_cs_created session * 1000)
|}.

Definition fetchLatestCheckoutSession (stripe : Stripe) (sessionId : string)
  : M S CheckoutSession :=
  session ← stripe_call (CheckoutSessionsRetrieve sessionId)
              (fun t => checkout_sessions_retrieve stripe t sessionId);
  mret (toCheckoutSession session).

(** The object literal [fetchLatestSubscription] returns. *)
Definition toSubscription (subscription : RawSubscription) : Subscription := {|
  sub_id := raw_sub_id subscription;
  sub_customerId := default "" (expandable_id (raw_sub_customer subscription));
  sub_status := raw_sub_status subscription;
  sub_currentPeriodEnd := raw_sub_current_period_end subscription * 1000;
  sub_currentPeriodStart := raw_sub_current_period_start subscription * 1000;
  sub_cancelAtPeriodEnd := raw_sub_cancel_at_period_end subscription;
  sub_items :=
    map (fun item =>
           {| item_id := raw_item_id item;
              item_priceId := raw_item_price_id item;
              item_quantity := default 1 (raw_item_quantity item) |})
        (raw_sub_items subscription);
  sub_metadata := raw_sub_metadata subscription;
  sub_createdAt := Some (raw_sub_created subscription * 1000)
|}.

Definition fetchLatestSubscription (stripe : Stripe) (subscriptionId : string)
  : M S Subscription :=
  subscription ← stripe_call (SubscriptionsRetrieve subscriptionId)
                   (fun t => subscriptions_retrieve stripe t subscriptionId);
  mret (toSubscription subscription).

(** The object literal [fetchLatestCustomer] returns. *)
Definition toCustomer (customer : RawCustomer) : Customer := {|
  cus_id := raw_cus_id customer;
  cus_email := default "" (raw_cus_email customer);
  cus_name := raw_cus_name customer;
  cus_metadata := raw_cus_metadata customer;
  cus_createdAt := Some (raw_cus_created customer * 1000)
|}.

Definition fetchLatestCustomer (stripe : Stripe) (customerId : string)
  : M S Customer :=
  customer ← stripe_call (CustomersRetrieve customerId)
               (fun t => customers_retrieve stripe t customerId);
  if raw_cus_deleted customer then
    throw (PaymentError ("Customer " +:+ customerId +:+ " has been deleted")
             ErrorCodes.CUSTOMER_NOT_FOUND 404)
  else
    mret (toCustomer customer).

(** [if (f) { await f(arg); }] for an optional callback [f]. *)
Definition call_if_configured {A : Type} (f : option (A -> Result unit))
    (ev : A -> Event) (arg : A) : M S unit :=
  match f with
  | Some f => invoke (ev arg) (f arg)
  | None => mret tt
  end.

Section Branches.
Variable options : CreateWebhookHandlerOptions.
Variable stripe : Stripe.
Variable event : WebhookEvent.

(** The three writes of the customer of a completed checkout: under
    its id, under its email if it has one, and under the [userId] of
    its metadata if there is one. *)
Definition cache_customer (customer : Customer) : M S unit :=
  cache_set (cache options) ("customer:" +:+ cus_id customer)
    (VCustomer customer) (Some 86400);;
  match cus_email customer with
  | String _ _ as email =>
      cache_set (cache options) ("customer:email:" +:+ email)
        (VCustomer customer) (Some 86400)
  | EmptyString => mret tt
  end;;
  match cus_metadata customer ≫= (fun m => m !! "userId") with
  | Some (String _ _ as userId) =>
      cache_set (cache options) ("customer:userId:" +:+ userId)
        (VString (cus_id customer)) (Some 86400)
  | _ => mret tt
  end.

(** The branch [eventType === 'checkout.session.completed']. *)
Definition checkout_session_completed : M S unit :=
  latestData ← fetchLatestCheckoutSession stripe (data_id (event_data event));
  cache_set (cache options) ("checkout:" +:+ cs_id latestData)
    (VCheckoutSession latestData) (Some 3600);;
  match cs_customerId latestData with
  | Some (String _ _ as customerId) =>
      customer ← fetchLatestCustomer stripe customerId;
      cache_customer customer
  | _ => mret tt
  end;;
  match sync options ≫= sync_onCustomerCreated, cs_customerId latestData with
  | Some onCustomerCreated, Some (String _ _ as customerId) =>
      customer ← fetchLatestCustomer stripe customerId;
      invoke (EvSync (SyncCustomerCreated customer)) (onCustomerCreated customer)
  | _, _ => mret tt
  end;;
  call_if_configured (handlers options ≫= onCheckoutComplete)
    (fun s => EvHandler (CheckoutComplete s)) latestData.

(** The branch [eventType === 'customer.subscription.created']. *)
Definition customer_subscription_created : M S unit :=
  latestData ← fetchLatestSubscription stripe (data_id (event_data event));
  cache_set (cache options) ("subscription:" +:+ sub_id latestData)
    (VSubscription latestData) (Some 3600);;
  cache_set (cache options)
    ("subscription:customer:" +:+ sub_customerId latestData)
    (VString (sub_id latestData)) (Some 3600);;
  call_if_configured (sync options ≫= sync_onSubscriptionUpdated)
    (fun s => EvSync (SyncSubscriptionUpdated s)) latestData;;
  call_if_configured (handlers options ≫= onSubscriptionCreated)
    (fun s => EvHandler (SubscriptionCreated s)) latestData.

(** The branch [eventType === 'customer.subscription.updated']. *)
Definition customer_subscription_updated : M S unit :=
  latestData ← fetchLatestSubscription stripe (data_id (event_data event));
  cache_set (cache options) ("subscription:" +:+ sub_id latestData)
    (VSubscription latestData) (Some 3600);;
  cache_set (cache options)
    ("subscription:customer:" +:+ sub_customerId latestData)
    (VString (sub_id latestData)) (Some 3600);;
  call_if_configured (sync options ≫= sync_onSubscriptionUpdated)
    (fun s => EvSync (SyncSubscriptionUpdated s)) latestData;;
  call_if_configured (handlers options ≫= onSubscriptionUpdated)
    (fun s => EvHandler (SubscriptionUpdated s)) latestData.

(** The branch for [customer.subscription.deleted] and
    [customer.subscription.canceled]. *)
Definition customer_subscription_canceled : M S unit :=
  latestData ← fetchLatestSubscription stripe (data_id (event_data event));
  cache_set (cache options) ("subscription:" +:+ sub_id latestData)
    (VSubscription latestData) (Some 86400);;
  call_if_configured (sync options ≫= sync_onSubscriptionCanceled)
    (fun s => EvSync (SyncSubscriptionCanceled s)) latestData;;
  call_if_configured (handlers options ≫= onSubscriptionCanceled)
    (fun s => EvHandler (SubscriptionCanceled s)) latestData.

(** Step 5: the chain of [if]s on [event.type]. *)
Definition dispatch : M S unit :=
  let eventType := event_type event in
  if (eventType =? "checkout.session.completed")%string then
    checkout_session_completed
  else if (eventType =? "customer.subscription.created")%string then
    customer_subscription_created
  else if (eventType =? "customer.subscription.updated")%string then
    customer_subscription_updated
  else if (eventType =? "customer.subscription.deleted")%string
          || (eventType =? "customer.subscription.canceled")%string then
    customer_subscription_canceled
  else
    emit (EvConsoleLog ("Unhandled webhook event type: " +:+ eventType)).

End Branches.

(** Step 3: the inner [try]/[catch] around [provider.verifyWebhook];
    [inl] is the response of the early [return]. *)
Definition verify (options : CreateWebhookHandlerOptions)
    (payload signature : string) : M S (NextResponse + WebhookEvent) :=
  try_catch
    (event ← invoke (EvVerifyWebhook payload signature)
               (provider_verifyWebhook (provider options) payload signature);
     mret (inr event))
    (fun error =>
       match error with
       | WebhookError message code =>
           emit (EvConsoleError "Webhook signature verification failed:" error);;
           mret (inl (json (ErrorBody code (Some message)) 401))
       | _ => throw error
       end).

(** Steps 4 and 5: the client for the key of the environment, then
    the re-fetch, the cache update and the callbacks. *)
Definition process (options : CreateWebhookHandlerOptions) (event : WebhookEvent)
  : M S unit :=
  environment ← read_env;
  config ← lift (Config.loadStripeConfig None environment);
  let stripe := createStripeClient (Config.secretKey config) in
  dispatch options stripe event.

(** The function [createWebhookHandler(options)] returns. *)
Definition createWebhookHandler (options : CreateWebhookHandlerOptions)
    (request : NextRequest) : M S NextResponse :=
  if negb (method request =? "POST")%string then
    mret (json (ErrorBody "Method not allowed" None) 405)
  else
    try_catch
      (let body := text request in
       match headers request !! "stripe-signature" with
       | None | Some EmptyString =>
           mret (json (ErrorBody "Missing signature"
                         (Some "stripe-signature header is required")) 401)
       | Some signature =>
           verified ← verify options body signature;
           match verified with
           | inl response => mret response
           | inr event =>
               process options event;;
               mret (json (Received None) 200)
           end
       end)
      (fun error =>
         emit (EvConsoleError "Webhook handler error:" error);;
         match error with
         | WebhookError message code =>
             mret (json (ErrorBody code (Some message)) 401)
         | _ =>
             mret (json (Received (Some "Handler error logged")) 200)
         end).

End Handler.
End Webhook.

(** ** [src/adapters/upstash.ts] *)

Module Upstash.

(** The values this adapter is given and returns: JavaScript values
    that are plain JSON data ([JNull] is [null]; numbers are integers). *)
Inductive JsValue : Type :=
| JNull
| JBool (b : bool)
| JNumber (z : Z)
| JString (s : string)
| JArray (elements : list JsValue)
| JObject (members : list (string * JsValue)).

(** The client of [@upstash/redis], over a state [R] of the remote
    store.  [get] resolves to [JNull] for a missing key. *)
Record Redis (R : Type) : Type := {
  redis_get : string -> R -> Reply JsValue * R;
  redis_set : string -> string -> option Z -> R -> Reply string * R;
  redis_del : string -> R -> Reply Z * R
}.
Arguments redis_get {R} r key s.
Arguments redis_set {R} r key v ex s.
Arguments redis_del {R} r key s.

(** A store that keeps the text it is sent, with its [ex] option, and
    hands the text back unchanged. *)
Definition text_store : Redis (gmap string (string * option Z)) := {|
  redis_get key s :=
    (Resolved (match s !! key with
               | Some (text, _) => JString text
               | None => JNull
               end), s);
  redis_set key v ex s := (Resolved "OK", <[key := (v, ex)]> s);
  redis_del key s :=
    (Resolved (match s !! key with Some _ => 1 | None => 0 end),
     base.delete key s)
|}.

Section Adapter.
(** [JSON.parse] ([None]: it throws) and [JSON.stringify]. *)
Variable JSON_parse : string -> option JsValue.
Variable JSON_stringify : JsValue -> string.
Context {R : Type} (redis : Redis R).

Definition failed (what key where_ : string) (e : ForeignError) : JsError :=
  Foreign (PlainError
             ("Failed to " +:+ what +:+ " key " +:+ dquote +:+ key +:+ dquote
              +:+ where_ +:+ message_or_unknown (Foreign e))).

Definition get (key : string) (s : R) : Result JsValue * R :=
  match redis_get redis key s with
  | (Rejected e, s') => (Throw (failed "get" key " from Upstash: " e), s')
  | (Resolved JNull, s') => (Ok JNull, s')
  | (Resolved (JString result), s') =>
      match JSON_parse result with
      | Some parsed => (Ok parsed, s')
      | None => (Ok (JString result), s')
      end
  | (Resolved result, s') => (Ok result, s')
  end.

Definition serialized (v : JsValue) : string :=
  match v with
  | JString s => s
  | _ => JSON_stringify v
  end.

Definition set (key : string) (v : JsValue) (ttlSeconds : option Z) (s : R)
  : Result unit * R :=
  let ex :=
    match ttlSeconds with
    | Some ttl => if truthy_number ttl && (0 <? ttl) then Some ttl else None
    | None => None
    end in
  match redis_set redis key (serialized v) ex s with
  | (Rejected e, s') => (Throw (failed "set" key " in Upstash: " e), s')
  | (Resolved _, s') => (Ok tt, s')
  end.

Definition delete (key : string) (s : R) : Result unit * R :=
  match redis_del redis key s with
  | (Rejected e, s') => (Throw (failed "delete" key " from Upstash: " e), s')
  | (Resolved _, s') => (Ok tt, s')
  end.

(** [await adapter.set(key, v, ttl); await adapter.get(key)] *)
Definition set_then_get (key : string) (v : JsValue) (ttlSeconds : option Z)
    (s : R) : Result JsValue :=
  match set key v ttlSeconds s with
  | (Throw e, _) => Throw e
  | (Ok _, s') => (get key s').1
  end.

End Adapter.

End Upstash.

(** ** A reference [JSON.parse] / [JSON.stringify]

    The fragment of JSON with integer numbers and without [\u] escapes in
    the input: on a text outside the fragment [parse] answers [None]. *)

Module MiniJSON.
Import Upstash.

Definition is_ws (c : ascii) : bool :=
  let n := nat_of_ascii c in
  ((n =? 32) || (n =? 9) || (n =? 10) || (n =? 13))%nat.

Fixpoint skip_ws (s : string) : string :=
  match s with
  | String c r => if is_ws c then skip_ws r else s
  | EmptyString => EmptyString
  end.

Definition is_digit (c : ascii) : bool :=
  let n := nat_of_ascii c in ((48 <=? n) && (n <=? 57))%nat.

Definition digit (c : ascii) : Z := Z.of_nat (nat_of_ascii c) - 48.

Fixpoint take_digits (s : string) (acc : Z) : Z * string :=
  match s with
  | String c r =>
      if is_digit c then take_digits r (acc * 10 + digit c) else (acc, s)
  | EmptyString => (acc, EmptyString)
  end.

Definition strip_prefix (p s : string) : option string :=
  if String.prefix p s
  then Some (String.substring (String.length p)
               (String.length s - String.length p) s)
  else None.

Definition ends_number (rest : string) : bool :=
  match rest with
  | String c _ =>
      negb (Ascii.eqb c "." || Ascii.eqb c "e" || Ascii.eqb c "E" || is_digit c)
  | EmptyString => true
  end.

Definition parse_unsigned (s : string) : option (Z * string) :=
  match s with
  | String c r =>
      if Ascii.eqb c "0" then
        if ends_number r then Some (0, r) else None
      else if is_digit c then
        let (n, rest) := take_digits s 0 in
        if ends_number rest then Some (n, rest) else None
      else None
  | EmptyString => None
  end.

Definition parse_number (s : string) : option (Z * string) :=
  match s with
  | String "-" r =>
      match parse_unsigned r with
      | Some (n, rest) => Some (- n, rest)
      | None => None
      end
  | _ => parse_unsigned s
  end.

Definition unescape (c : ascii) : option ascii :=
  if Ascii.eqb c "034" then Some "034"%char
  else if Ascii.eqb c "092" then Some "092"%char
  else if Ascii.eqb c "/" then Some "/"%char
  else if Ascii.eqb c "b" then Some "008"%char
  else if Ascii.eqb c "f" then Some "012"%char
  else if Ascii.eqb c "n" then Some "010"%char
  else if Ascii.eqb c "r" then Some "013"%char
  else if Ascii.eqb c "t" then Some "009"%char
  else None.

(** The characters of a string literal, after its opening quote. *)
Fixpoint parse_chars (s : string) : option (string * string) :=
  match s with
  | EmptyString => None
  | String c r =>
      if Ascii.eqb c "034" then Some (EmptyString, r)
      else if Ascii.eqb c "092" then
        match r with
        | String e r' =>
            match unescape e, parse_chars r' with
            | Some ch, Some (t, rest) => Some (String ch t, rest)
            | _, _ => None
            end
        | EmptyString => None
        end
      else if (nat_of_ascii c <? 32)%nat then None
      else
        match parse_chars r with
        | Some (t, rest) => Some (String c t, rest)
        | None => None
        end
  end.

Fixpoint parse_value (fuel : nat) (s : string) : option (JsValue * string) :=
  match fuel with
  | O => None
  | Datatypes.S fuel' =>
      match skip_ws s with
      | EmptyString => None
      | String c r as s' =>
          if Ascii.eqb c "n" then
            rest ← strip_prefix "ull" r; Some (JNull, rest)
          else if Ascii.eqb c "t" then
            rest ← strip_prefix "rue" r; Some (JBool true, rest)
          else if Ascii.eqb c "f" then
            rest ← strip_prefix "alse" r; Some (JBool false, rest)
          else if Ascii.eqb c "034" then
            '(t, rest) ← parse_chars r; Some (JString t, rest)
          else if Ascii.eqb c "[" then
            match skip_ws r with
            | String "]" rest => Some (JArray [], rest)
            | _ => '(l, rest) ← parse_elements fuel' r; Some (JArray l, rest)
            end
          else if Ascii.eqb c "{" then
            match skip_ws r with
            | String "}" rest => Some (JObject [], rest)
            | _ => '(l, rest) ← parse_members fuel' r; Some (JObject l, rest)
            end
          else
            '(n, rest) ← parse_number s'; Some (JNumber n, rest)
      end
  end
with parse_elements (fuel : nat) (s : string) : option (list JsValue * string) :=
  match fuel with
  | O => None
  | Datatypes.S fuel' =>
      '(v, rest) ← parse_value fuel' s;
      match skip_ws rest with
      | String "," r => '(l, rest') ← parse_elements fuel' r; Some (v :: l, rest')
      | String "]" r => Some ([v], r)
      | _ => None
      end
  end
with parse_members (fuel : nat) (s : string)
  : option (list (string * JsValue) * string) :=
  match fuel with
  | O => None
  | Datatypes.S fuel' =>
      match skip_ws s with
      | String "034" r =>
          '(k, rest) ← parse_chars r;
          match skip_ws rest with
          | String ":" r1 =>
              '(v, rest1) ← parse_value fuel' r1;
              match skip_ws rest1 with
              | String "," r2 =>
                  '(l, rest2) ← parse_members fuel' r2; Some ((k, v) :: l, rest2)
              | String "}" r2 => Some ([(k, v)], r2)
              | _ => None
              end
          | _ => None
          end
      | _ => None
      end
  end.

(** [JSON.parse(text)]; [None] when it throws. *)
Definition parse (text : string) : option JsValue :=
  '(v, rest) ← parse_value (2 * String.length text + 2) text;
  match skip_ws rest with
  | EmptyString => Some v
  | _ => None
  end.

Definition hex_digit (n : nat) : ascii :=
  ascii_of_nat (if (n <? 10)%nat then 48 + n else 87 + n).

Fixpoint escape (s : string) : string :=
  match s with
  | EmptyString => EmptyString
  | String c r =>
      let n := nat_of_ascii c in
      (if Ascii.eqb c "034" then String "092" (String "034" EmptyString)
       else if Ascii.eqb c "092" then String "092" (String "092" EmptyString)
       else if (n =? 8)%nat then "\b"
       else if (n =? 12)%nat then "\f"
       else if (n =? 10)%nat then "\n"
       else if (n =? 13)%nat then "\r"
       else if (n =? 9)%nat then "\t"
       else if (n <? 32)%nat then
         "\u00" +:+ String (hex_digit (n / 16)) (String (hex_digit (n mod 16)) EmptyString)
       else String c EmptyString) +:+ escape r
  end.

Definition quote (s : string) : string := dquote +:+ escape s +:+ dquote.

(** [JSON.stringify(value)] *)
Fixpoint stringify (v : JsValue) : string :=
  match v with
  | JNull => "null"
  | JBool true => "true"
  | JBool false => "false"
  | JNumber z => pretty z
  | JString s => quote s
  | JArray l =>
      "[" +:+
      (fix elements (l : list JsValue) : string :=
         match l with
         | [] => EmptyString
         | [x] => stringify x
         | x :: l' => stringify x +:+ "," +:+ elements l'
         end) l +:+ "]"
  | JObject l =>
      "{" +:+
      (fix members (l : list (string * JsValue)) : string :=
         match l with
         | [] => EmptyString
         | [(k, x)] => quote k +:+ ":" +:+ stringify x
         | (k, x) :: l' => quote k +:+ ":" +:+ stringify x +:+ "," +:+ members l'
         end) l +:+ "}"
  end.

End MiniJSON.

(** * Vocabulary of the statements, and sample inputs *)

(** [ttlSeconds] omitted, zero or negative. *)
Definition no_expiry (ttlSeconds : option Z) : Prop :=
  match ttlSeconds with
  | None => True
  | Some ttl => ttl <= 0
  end.

(** A storage holding one entry with expiry instant 1000. *)
Definition stale_storage : gmap string (Memory.StorageEntry string) :=
  {["session" := {| Memory.value := "v"; Memory.expiresAt := Some 1000 |}]}.

(** The secret key is there and starts with one of the two prefixes. *)
Definition well_formed_secret_key (key : option string) : bool :=
  match key with
  | Some k => startsWith k "sk_test_" || startsWith k "sk_live_"
  | None => false
  end.

Module Sample.

(** The environment of the test setup. *)
Definition environment : Config.ProcessEnv := {|
  Config.STRIPE_SECRET_KEY := Some "sk_test_mock_key_1234567890";
  Config.STRIPE_WEBHOOK_SECRET := Some "whsec_mock_webhook_secret_1234567890"
|}.

Definition no_environment : Config.ProcessEnv := {|
  Config.STRIPE_SECRET_KEY := None;
  Config.STRIPE_WEBHOOK_SECRET := None
|}.

Definition session_cs_1 : RawCheckoutSession := {|
  raw_cs_id := "cs_1";
  raw_cs_url := Some "https://checkout.stripe.com/c/pay/cs_1";
  raw_cs_status := Some "complete";
  raw_cs_customer := RefId "cus_1";
  raw_cs_metadata := Some {["userId" := "user_1"]};
  raw_cs_created := 1700000000
|}.

Definition customer_cus_1 : RawCustomer := {|
  raw_cus_id := "cus_1";
  raw_cus_email := Some "ada@example.com";
  raw_cus_name := Some "Ada";
  raw_cus_metadata := Some {["userId" := "user_1"]};
  raw_cus_created := 1690000000;
  raw_cus_deleted := false
|}.

Definition subscription_sub_1 : RawSubscription := {|
  raw_sub_id := "sub_1";
  raw_sub_customer := RefId "cus_1";
  raw_sub_status := "canceled";
  raw_sub_current_period_end := 1702592000;
  raw_sub_current_period_start := 1700000000;
  raw_sub_cancel_at_period_end := false;
  raw_sub_items :=
    [{| raw_item_id := "si_1"; raw_item_price_id := "price_1";
        raw_item_quantity := None |}];
  raw_sub_metadata := None;
  raw_sub_created := 1700000000
|}.

(** The event a payload stands for: the payloads are named, not parsed.
    Every embedded object claims the status [active]. *)
Definition event_of_payload (payload : string) : RawEvent :=
  let claims id := {| data_id := id; data_fields := {["status" := "active"]} |} in
  if (payload =? "checkout")%string then
    {| raw_event_id := "evt_1"; raw_event_type := "checkout.session.completed";
       raw_event_data_object := claims "cs_1"; raw_event_created := 1700000001 |}
  else if (payload =? "created")%string then
    {| raw_event_id := "evt_2"; raw_event_type := "customer.subscription.created";
       raw_event_data_object := claims "sub_1"; raw_event_created := 1700000002 |}
  else if (payload =? "deleted")%string then
    {| raw_event_id := "evt_3"; raw_event_type := "customer.subscription.deleted";
       raw_event_data_object := claims "sub_1"; raw_event_created := 1700000003 |}
  else
    {| raw_event_id := "evt_4"; raw_event_type := "payment_intent.succeeded";
       raw_event_data_object := claims "pi_1"; raw_event_created := 1700000004 |}.

Definition not_found {A : Type} (what : string) : Reply A :=
  Rejected (StripeError ("No such " +:+ what) (Some 404)).

(** A provider that knows one session, one customer and one subscription,
    accepts the signature [valid] and creates what it is asked to.
    [customer_deleted] says whether customer [cus_1] has been deleted. *)
Definition stripe_with (customer_deleted : bool) : Stripe := {|
  webhooks_constructEvent payload signature secret :=
    if (signature =? "valid")%string then Resolved (event_of_payload payload)
    else Rejected (StripeSignatureVerificationError
                     "No signatures found matching the expected signature for payload");
  checkout_sessions_retrieve t id :=
    if (id =? "cs_1")%string then Resolved session_cs_1
    else not_found "checkout.session";
  checkout_sessions_create t params :=
    Resolved {| raw_cs_id := "cs_new_" +:+ pretty t;
                raw_cs_url := Some "https://checkout.stripe.com/c/pay/new";
                raw_cs_status := Some "open";
                raw_cs_customer :=
                  match scp_customer params with
                  | Some (VString id) => RefId id
                  | _ => RefNull
                  end;
                raw_cs_metadata := scp_metadata params;
                raw_cs_created := 1700000100 |};
  subscriptions_retrieve t id :=
    if (id =? "sub_1")%string then Resolved subscription_sub_1
    else not_found "subscription";
  customers_retrieve t id :=
    if (id =? "cus_1")%string then
      Resolved {| raw_cus_id := "cus_1";
                  raw_cus_email := raw_cus_email customer_cus_1;
                  raw_cus_name := raw_cus_name customer_cus_1;
                  raw_cus_metadata := raw_cus_metadata customer_cus_1;
                  raw_cus_created := raw_cus_created customer_cus_1;
                  raw_cus_deleted := customer_deleted |}
    else not_found "customer";
  customers_create t params :=
    Resolved {| raw_cus_id := "cus_new_" +:+ pretty t;
                raw_cus_email := Some (ccp_email params);
                raw_cus_name := ccp_name params;
                raw_cus_metadata := ccp_metadata params;
                raw_cus_created := 1700000100;
                raw_cus_deleted := false |}
|}.

Definition stripe : Stripe := stripe_with false.

(** [createStripeClient]: the same provider behind every key. *)
Definition createStripeClient (apiKey : string) : Stripe := stripe.

(** Options whose webhook secret lacks the [whsec_] prefix. *)
Definition options_malformed_webhook_secret
  : StripeProvider.Options (S := gmap string (Memory.StorageEntry Value)) := {|
  StripeProvider.options_cache := createMemoryAdapter;
  StripeProvider.options_config :=
    Some {| Config.override_secretKey := Some "sk_test_abc";
            Config.override_webhookSecret := Some "not-a-signing-secret" |}
|}.

(** Options with a secret key and no webhook secret at all. *)
Definition options_no_webhook_secret
  : StripeProvider.Options (S := gmap string (Memory.StorageEntry Value)) := {|
  StripeProvider.options_cache := createMemoryAdapter;
  StripeProvider.options_config :=
    Some {| Config.override_secretKey := Some "sk_test_abc";
            Config.override_webhookSecret := None |}
|}.

End Sample.

(** A subscription as plain JSON data. *)
Definition subscription_json : Upstash.JsValue :=
  Upstash.JObject
    [("id", Upstash.JString "sub_1");
     ("status", Upstash.JString "canceled");
     ("cancelAtPeriodEnd", Upstash.JBool false);
     ("items",
      Upstash.JArray
        [Upstash.JObject [("id", Upstash.JString "si_1");
                          ("quantity", Upstash.JNumber 1)]]);
     ("metadata", Upstash.JNull)].

(** [typeof v === 'string'] *)
Definition is_string (v : Upstash.JsValue) : bool :=
  match v with
  | Upstash.JString _ => true
  | _ => false
  end.

(** *** Worlds *)

Section Worlds.
Context {S : Type}.

(** The world after more events were recorded. *)
Definition logged (evs : list Event) (w : World S) : World S :=
  {| clock := clock w; env := env w; store := store w; ticks := ticks w;
     trace := trace w ++ evs |}.

(** The world after [n] more requests to the provider. *)
Definition called (n : nat) (w : World S) : World S :=
  {| clock := clock w; env := env w; store := store w; ticks := n + ticks w;
     trace := trace w |}.

Definition with_store (s : S) (w : World S) : World S :=
  {| clock := clock w; env := env w; store := s; ticks := ticks w;
     trace := trace w |}.

(** The same world at another instant. *)
Definition at_instant (now : Z) (w : World S) : World S :=
  {| clock := now; env := env w; store := store w; ticks := ticks w;
     trace := trace w |}.

(** [m], run from any world, records only events that satisfy [P];
    what it returns satisfies [Qa] and what it throws satisfies [Qe]. *)
Definition triple {A : Type} (m : M S A) (P : Event -> Prop)
    (Qa : A -> Prop) (Qe : JsError -> Prop) : Prop :=
  forall w r w',
    m w = (r, w') ->
    (exists evs, trace w' = (trace w ++ evs)%list /\ Forall P evs)
    /\ match r with
       | Ok a => Qa a
       | Throw e => Qe e
       end.

End Worlds.

(** *** The entities of a run of the webhook handler *)

(** The outcome is no thrown [WebhookError]. *)
Definition never_WebhookError {A : Type} (r : Result A) : Prop :=
  match r with
  | Ok _ => True
  | Throw e => instanceof_WebhookError e = false
  end.

Section Fresh.
(** The client the handler fetches with, the number of requests made
    before the handler runs, and the verified event. *)
Variable stripe : Stripe.
Variable t0 : nat.
Variable event : WebhookEvent.

(** What the first request of the run returns when it asks for the
    session, respectively the subscription, named by the payload. *)
Definition fetched_session : option CheckoutSession :=
  match checkout_sessions_retrieve stripe t0 (data_id (event_data event)) with
  | Resolved raw => Some (Webhook.toCheckoutSession raw)
  | Rejected _ => None
  end.

Definition fetched_subscription : option Subscription :=
  match subscriptions_retrieve stripe t0 (data_id (event_data event)) with
  | Resolved raw => Some (Webhook.toSubscription raw)
  | Rejected _ => None
  end.

(** [c] is a customer the provider returned for the customer id of the
    fetched session. *)
Definition fetched_customer (c : Customer) : Prop :=
  exists session customerId t raw,
    fetched_session = Some session
    /\ cs_customerId session = Some customerId
    /\ customers_retrieve stripe t customerId = Resolved raw
    /\ c = Webhook.toCustomer raw.

(** Every value an event writes to the cache or hands to a callback
    comes from the provider: the session or subscription fetched for
    the id of the payload under its primary key and for the callbacks,
    a customer fetched for that session, or the id of one of these. *)
Definition fresh (ev : Event) : Prop :=
  match ev with
  | EvCacheSet key (VCheckoutSession session) _ =>
      fetched_session = Some session /\ key = "checkout:" +:+ cs_id session
  | EvCacheSet key (VSubscription subscription) _ =>
      fetched_subscription = Some subscription
      /\ key = "subscription:" +:+ sub_id subscription
  | EvCacheSet key (VCustomer customer) _ => fetched_customer customer
  | EvCacheSet key (VString id) _ =>
      (exists subscription,
         fetched_subscription = Some subscription /\ id = sub_id subscription)
      \/ (exists customer, fetched_customer customer /\ id = cus_id customer)
  | EvSync (SyncCustomerCreated customer) => fetched_customer customer
  | EvSync (SyncSubscriptionUpdated subscription)
  | EvSync (SyncSubscriptionCanceled subscription)
  | EvHandler (SubscriptionCreated subscription)
  | EvHandler (SubscriptionUpdated subscription)
  | EvHandler (SubscriptionCanceled subscription) =>
      fetched_subscription = Some subscription
  | EvHandler (CheckoutComplete session) => fetched_session = Some session
  | EvCacheGet _ | EvCacheDelete _ => False
  | EvVerifyWebhook _ _ | EvStripe _ | EvConsoleError _ _ | EvConsoleLog _ => True
  end.

End Fresh.

Section Options.
Context {S : Type}.

(** [set] of the adapter throws no [WebhookError]. *)
Definition cache_without_WebhookError (cache : KVAdapter S) : Prop :=
  forall key v ttlSeconds now s,
    never_WebhookError (kv_set cache key v ttlSeconds now s).1.

(** No callback of the sync adapter or of the user handlers throws a
    [WebhookError]. *)
Definition callbacks_without_WebhookError
    (options : Webhook.CreateWebhookHandlerOptions (S := S)) : Prop :=
  (forall f c, Webhook.sync options ≫= sync_onCustomerCreated = Some f ->
               never_WebhookError (f c))
  /\ (forall f s, Webhook.sync options ≫= sync_onSubscriptionUpdated = Some f ->
                  never_WebhookError (f s))
  /\ (forall f s, Webhook.sync options ≫= sync_onSubscriptionCanceled = Some f ->
                  never_WebhookError (f s))
  /\ (forall f s, Webhook.handlers options ≫= Webhook.onCheckoutComplete = Some f ->
                  never_WebhookError (f s))
  /\ (forall f s, Webhook.handlers options ≫= Webhook.onSubscriptionCreated = Some f ->
                  never_WebhookError (f s))
  /\ (forall f s, Webhook.handlers options ≫= Webhook.onSubscriptionUpdated = Some f ->
                  never_WebhookError (f s))
  /\ (forall f s, Webhook.handlers options ≫= Webhook.onSubscriptionCanceled = Some f ->
                  never_WebhookError (f s)).

(** The response after verification, by the outcome of steps 4 and 5
    when that is no [WebhookError]. *)
Definition acknowledgement (outcome : Result unit) : Webhook.NextResponse :=
  match outcome with
  | Ok _ => Webhook.json (Webhook.Received None) 200
  | Throw _ => Webhook.json (Webhook.Received (Some "Handler error logged")) 200
  end.

(** The events of a call of an optional callback. *)
Definition call_events {A : Type} (f : option (A -> Result unit))
    (ev : A -> Event) (arg : A) : list Event :=
  match f with
  | Some _ => [ev arg]
  | None => []
  end.

End Options.

(** The calls of user handlers, respectively of the sync adapter, among
    some events, in order. *)
Definition handler_calls (evs : list Event) : list HandlerCall :=
  omap (fun ev => match ev with EvHandler call => Some call | _ => None end) evs.

Definition sync_calls (evs : list Event) : list SyncCall :=
  omap (fun ev => match ev with EvSync call => Some call | _ => None end) evs.

(** The requests to the provider among some events, in order. *)
Definition stripe_calls (evs : list Event) : list StripeCall :=
  omap (fun ev => match ev with EvStripe call => Some call | _ => None end) evs.


(** The response to an error caught by the outer [catch] of the handler. *)
Definition caught (error : JsError) : Webhook.NextResponse :=
  match error with
  | WebhookError message code =>
      Webhook.json (Webhook.ErrorBody code (Some message)) 401
  | _ => Webhook.json (Webhook.Received (Some "Handler error logged")) 200
  end.

(** *** What happens after the write of the checkout session *)

(** An event that is no access to an entry [checkout:...] of the cache:
    among the calls of the cache, only a write under a key
    [customer:...] is one. *)
Definition keeps_checkout_entries (ev : Event) : Prop :=
  match ev with
  | EvCacheSet key _ _ => exists rest, key = "customer:" +:+ rest
  | EvCacheGet _ | EvCacheDelete _ => False
  | _ => True
  end.

Section Frame.
Context {S : Type} (cache : KVAdapter S) (key : string).

(** The entry of [key] is the same in [s'] as in [s]: every reading of
    the store that a write of the adapter under another key does not
    change gives the same on both. *)
Definition same_entry (s s' : S) : Prop :=
  forall (X : Type) (read : S -> X),
    (forall key' v ttlSeconds now s0,
       key' <> key -> read (kv_set cache key' v ttlSeconds now s0).2 = read s0) ->
    read s' = read s.

(** [m] leaves the entry of [key] as it is, and records only events
    that are no access to an entry [checkout:...]. *)
Definition keeps_entry {A : Type} (m : M S A) : Prop :=
  forall w r w',
    m w = (r, w') ->
    same_entry (store w) (store w')
    /\ exists evs, trace w' = (trace w ++ evs)%list
                   /\ Forall keeps_checkout_entries evs.

End Frame.

Module Scenario.

Definition provider_config : Config.StripeConfig := {|
  Config.secretKey := "sk_test_mock_key_1234567890";
  Config.webhookSecret := Some "whsec_mock_webhook_secret_1234567890"
|}.

(** A [StripeProvider] over the in-memory adapter, seen through the
    [PaymentProvider] interface. *)
Definition provider (stripe : Stripe) : PaymentProvider :=
  StripeProvider.as_PaymentProvider
    {| StripeProvider.stripe := stripe;
       StripeProvider.cache := createMemoryAdapter;
       StripeProvider.config := provider_config |}.

(** An empty cache, no request made yet, nothing recorded. *)
Definition world : World (gmap string (Memory.StorageEntry Value)) := {|
  clock := 1700000000000;
  env := Sample.environment;
  store := ∅;
  ticks := 0;
  trace := []
|}.

Definition post (payload : string) (signature : option string)
  : Webhook.NextRequest := {|
  Webhook.method := "POST";
  Webhook.headers :=
    match signature with
    | Some s => {["stripe-signature" := s]}
    | None => ∅
    end;
  Webhook.text := payload
|}.

Definition options (stripe : Stripe) (sync : option SyncAdapter)
    (handlers : option Webhook.WebhookEventHandlers)
  : Webhook.CreateWebhookHandlerOptions := {|
  Webhook.provider := provider stripe;
  Webhook.cache := createMemoryAdapter;
  Webhook.sync := sync;
  Webhook.handlers := handlers
|}.

(** Callbacks that succeed, and callbacks that throw. *)
Definition succeeds {A : Type} (arg : A) : Result unit := Ok tt.

Definition throws {A : Type} (error : JsError) (arg : A) : Result unit :=
  Throw error.

Definition all_handlers (f : forall A : Type, A -> Result unit)
  : Webhook.WebhookEventHandlers := {|
  Webhook.onCheckoutComplete := Some (f CheckoutSession);
  Webhook.onSubscriptionCreated := Some (f Subscription);
  Webhook.onSubscriptionUpdated := Some (f Subscription);
  Webhook.onSubscriptionCanceled := Some (f Subscription)
|}.

Definition all_sync (f : forall A : Type, A -> Result unit) : SyncAdapter := {|
  sync_onCustomerCreated := Some (f Customer);
  sync_onSubscriptionUpdated := Some (f Subscription);
  sync_onSubscriptionCanceled := Some (f Subscription)
|}.

Definition database_down : JsError := Foreign (PlainError "database unavailable").

(** The provider after customer [cus_1] was deleted. *)
Definition createStripeClient_deleted (apiKey : string) : Stripe :=
  Sample.stripe_with true.

(** A [WebhookError] thrown by user code after verification. *)
Definition stale_event : JsError :=
  WebhookError "event is stale" ErrorCodes.WEBHOOK_SIGNATURE_INVALID.

(** A verified [checkout.session.completed] whose user handler throws
    [error]. *)
Definition checkout_with_failing_handler (error : JsError)
  : Result Webhook.NextResponse
    * World (gmap string (Memory.StorageEntry Value)) :=
  Webhook.createWebhookHandler Sample.createStripeClient
    (options Sample.stripe None (Some (all_handlers (fun A => @throws A error))))
    (post "checkout" (Some "valid")) world.

(** A verified [customer.subscription.created] with a sync adapter
    whose callbacks throw and user handlers that succeed. *)
Definition created_with_failing_sync
  : Result Webhook.NextResponse
    * World (gmap string (Memory.StorageEntry Value)) :=
  Webhook.createWebhookHandler Sample.createStripeClient
    (options Sample.stripe (Some (all_sync (fun A => @throws A database_down)))
       (Some (all_handlers (@succeeds))))
    (post "created" (Some "valid")) world.


(** A verified [customer.subscription.deleted]: the payload claims the
    status [active], the provider says [canceled]. *)
Definition deleted_event : WebhookEvent := {|
  event_id := "evt_3";
  event_type := "customer.subscription.deleted";
  event_data := {| data_id := "sub_1"; data_fields := {["status" := "active"]} |};
  event_created := 1700000003000
|}.

Definition checkout_event : WebhookEvent := {|
  event_id := "evt_1";
  event_type := "checkout.session.completed";
  event_data := {| data_id := "cs_1"; data_fields := {["status" := "active"]} |};
  event_created := 1700000001000
|}.

Definition deleted_run
  : Result Webhook.NextResponse
    * World (gmap string (Memory.StorageEntry Value)) :=
  Webhook.createWebhookHandler Sample.createStripeClient
    (options Sample.stripe (Some (all_sync (@succeeds)))
       (Some (all_handlers (@succeeds))))
    (post "deleted" (Some "valid")) world.

(** The provider object of the samples. *)
Definition stripeProvider
  : StripeProvider.t (S := gmap string (Memory.StorageEntry Value)) := {|
  StripeProvider.stripe := Sample.stripe;
  StripeProvider.cache := createMemoryAdapter;
  StripeProvider.config := provider_config
|}.

(** A checkout request of user [user_1] with the given email. *)
Definition checkout_request (email : string) : CheckoutOptions := {|
  priceId := "price_monthly";
  successUrl := "https://example.com/success";
  cancelUrl := "https://example.com/cancel";
  customerEmail := Some email;
  customerId := None;
  metadata := Some {["userId" := "user_1"]};
  mode := None;
  quantity := None;
  trialDays := None
|}.

Definition customer_deleted : JsError :=
  PaymentError "Customer cus_1 has been deleted" ErrorCodes.CUSTOMER_NOT_FOUND 404.

(** The world of the samples where the environment holds no key. *)
Definition world_without_key : World (gmap string (Memory.StorageEntry Value)) := {|
  clock := 1700000000000;
  env := Sample.no_environment;
  store := ∅;
  ticks := 0;
  trace := []
|}.

(** A verified [customer.subscription.deleted] received where the
    environment holds no secret key. *)
Definition deleted_without_key
  : Result Webhook.NextResponse
    * World (gmap string (Memory.StorageEntry Value)) :=
  Webhook.createWebhookHandler Sample.createStripeClient
    (options Sample.stripe (Some (all_sync (@succeeds)))
       (Some (all_handlers (@succeeds))))
    (post "deleted" (Some "valid")) world_without_key.

(** A verified [customer.subscription.deleted] whose user handler
    throws [error]. *)
Definition deleted_with_failing_handler (error : JsError)
  : Result Webhook.NextResponse
    * World (gmap string (Memory.StorageEntry Value)) :=
  Webhook.createWebhookHandler Sample.createStripeClient
    (options Sample.stripe None (Some (all_handlers (fun A => @throws A error))))
    (post "deleted" (Some "valid")) world.

(** A verified [checkout.session.completed] with a sync adapter whose
    callbacks throw and user handlers that succeed. *)
Definition checkout_with_failing_sync
  : Result Webhook.NextResponse
    * World (gmap string (Memory.StorageEntry Value)) :=
  Webhook.createWebhookHandler Sample.createStripeClient
    (options Sample.stripe (Some (all_sync (fun A => @throws A database_down)))
       (Some (all_handlers (@succeeds))))
    (post "checkout" (Some "valid")) world.

End Scenario.

(** The error [fetchLatestCustomer] throws at the request number [t], if
    it throws: the provider rejects the request, or the customer it
    returns has been deleted. *)
Definition refetch_error (stripe : Stripe) (t : nat) (customerId : string)
  : option JsError :=
  match customers_retrieve stripe t customerId with
  | Rejected e => Some (Foreign e)
  | Resolved raw =>
      if raw_cus_deleted raw then
        Some (PaymentError ("Customer " +:+ customerId +:+ " has been deleted")
                ErrorCodes.CUSTOMER_NOT_FOUND 404)
      else None
  end.

(** The customers the provider was asked to create, among some events. *)
Definition customers_created (evs : list Event) : list CustomerCreateParams :=
  omap (fun ev => match ev with
                  | EvStripe (CustomersCreate params) => Some params
                  | _ => None
                  end) evs.

(** The customer of each checkout session the provider was asked to
    create, among some events. *)
Definition session_customers (evs : list Event) : list (option Value) :=
  omap (fun ev => match ev with
                  | EvStripe (CheckoutSessionsCreate params) => Some (scp_customer params)
                  | _ => None
                  end) evs.


(** * The rest of the provider and the other route handlers *)

(** ** [src/providers/stripe/api.ts]: subscriptions and the billing portal *)

Record SubscriptionOptions : Type := {
  so_customerId : string;
  so_priceId : string;
  so_trialDays : option Z;
  so_metadata : option Metadata;
  so_quantity : option Z
}.

Record PortalSession : Type := {
  ps_url : string
}.

(** [Stripe.SubscriptionCreateParams], with the one item this package
    sends. *)
Record SubscriptionCreateParams : Type := {
  subp_customer : string;
  subp_price : string;
  subp_quantity : option Z;
  subp_metadata : option Metadata;
  subp_trial_period_days : option Z
}.

Record RawPortalSession : Type := {
  raw_ps_url : option string
}.

(** The two methods of the client that only [createSubscription] and
    [createPortalSession] call.  As in [Stripe], a reply may depend on the
    number of requests made before. *)
Record StripeBilling : Type := {
  subscriptions_create : nat -> SubscriptionCreateParams -> Reply RawSubscription;
  billingPortal_sessions_create : nat -> string -> string -> Reply RawPortalSession
}.

Section BillingCall.
Context {S : Type}.

(** One request to a method of [StripeBilling]: counted like every
    request to the provider and answered.  The vocabulary of the trace
    ([StripeCall]) is that of the webhook and checkout paths and has no
    event for it. *)
Definition billing_call {A : Type} (reply : nat -> Reply A) : M S A :=
  fun w =>
    let w' := {| clock := clock w; env := env w; store := store w;
                 ticks := Datatypes.S (ticks w); trace := trace w |} in
    match reply (ticks w) with
    | Resolved a => (Ok a, w')
    | Rejected e => (Throw (Foreign e), w')
    end.

End BillingCall.

Module Billing.
Section Billing.
Context {S : Type}.

Definition subscriptionParams (options : SubscriptionOptions)
  : SubscriptionCreateParams := {|
  subp_customer := so_customerId options;
  subp_price := so_priceId options;
  subp_quantity := Some (default 1 (so_quantity options));
  subp_metadata := so_metadata options;
  subp_trial_period_days :=
    match so_trialDays options with
    | Some days => if truthy_number days then Some days else None
    | None => None
    end
|}.

(** The object literal [createSubscription] returns. *)
Definition createdSubscription (subscription : RawSubscription) : Subscription := {|
  sub_id := raw_sub_id subscription;
  sub_customerId := default "" (expandable_id (raw_sub_customer subscription));
  sub_status := raw_sub_status subscription;
  sub_currentPeriodEnd := raw_sub_current_period_end subscription * 1000;
  sub_currentPeriodStart := raw_sub_current_period_start subscription * 1000;
  sub_cancelAtPeriodEnd := raw_sub_cancel_at_period_end subscription;
  sub_items :=
    map (fun item =>
           {| item_id := raw_item_id item;
              item_priceId := raw_item_price_id item;
              item_quantity := default 1 (raw_item_quantity item) |})
        (raw_sub_items subscription);
  sub_metadata := raw_sub_metadata subscription;
  sub_createdAt := Some (raw_sub_created subscription * 1000)
|}.

Definition createSubscription (billing : StripeBilling)
    (options : SubscriptionOptions) : M S Subscription :=
  try_catch
    (subscription ← billing_call
                      (fun t => subscriptions_create billing t
                                  (subscriptionParams options));
     mret (createdSubscription subscription))
    (fun error =>
       throw (Api.payment_failed "Subscription creation failed: " error)).

(** The [catch] of [createPortalSession]: a [StripeError] with status
    404 says that the customer is unknown; everything else is treated
    as in the other wrappers. *)
Definition portal_failed (customerId : string) (error : JsError) : JsError :=
  match error with
  | Foreign (StripeError _ (Some 404)) =>
      PaymentError ("Customer not found: " +:+ customerId)
        ErrorCodes.CUSTOMER_NOT_FOUND 404
  | _ => Api.payment_failed "Portal session creation failed: " error
  end.

(** [session.url!] asserts at compile time only; a [null] url is
    carried as the empty string. *)
Definition createPortalSession (billing : StripeBilling)
    (customerId returnUrl : string) : M S PortalSession :=
  try_catch
    (session ← billing_call
                 (fun t => billingPortal_sessions_create billing t
                             customerId returnUrl);
     mret {| ps_url := default "" (raw_ps_url session) |})
    (fun error => throw (portal_failed customerId error)).

End Billing.
End Billing.

(** [`${v}`] for a value read from the cache: a string is itself, an
    object is printed by [Object.prototype.toString]. *)
Definition template (v : Value) : string :=
  match v with
  | VString s => s
  | _ => "[object Object]"
  end.

(** ** [src/providers/stripe/api.ts]: the other methods of class
    [StripeProvider] *)

Module StripeProviderMethods.
Section Methods.
Context {S : Type}.
Implicit Types this : StripeProvider.t (S := S).

(** [{ ...options, metadata: { ...options.metadata } }] *)
Definition subscriptionOptions (options : SubscriptionOptions)
  : SubscriptionOptions := {|
  so_customerId := so_customerId options;
  so_priceId := so_priceId options;
  so_trialDays := so_trialDays options;
  so_metadata := Some (default ∅ (so_metadata options));
  so_quantity := so_quantity options
|}.

(** [billing] holds the remaining methods of [this.stripe]. *)
Definition createSubscription this (billing : StripeBilling)
    (options : SubscriptionOptions) : M S Subscription :=
  try_catch
    (subscription ← Billing.createSubscription billing
                      (subscriptionOptions options);
     cache_set (StripeProvider.cache this)
       ("subscription:" +:+ sub_id subscription)
       (VSubscription subscription) (Some 3600);;
     mret subscription)
    (fun error =>
       if instanceof_PaymentError error then throw error
       else throw (PaymentError
                     ("Subscription creation failed: " +:+ message_or_unknown error)
                     ErrorCodes.PAYMENT_FAILED 500)).

(** [createCustomer(data)].  The method is declared to return a
    [Customer]; what it returns on a cache hit is what the cache
    holds, whatever its run-time type. *)
Definition createCustomer this (data : CustomerData) : M S Value :=
  try_catch
    (let cacheKey := "customer:email:" +:+ cd_email data in
     let userId := cd_metadata data ≫= (fun m => m !! "userId") in
     let create : M S Value :=
       customer ← Api.createCustomer (StripeProvider.stripe this) data;
       cache_set (StripeProvider.cache this) ("customer:" +:+ cus_id customer)
         (VCustomer customer) (Some 86400);;
       cache_set (StripeProvider.cache this) cacheKey
         (VCustomer customer) (Some 86400);;
       match userId with
       | Some (String _ _ as userId) =>
           cache_set (StripeProvider.cache this)
             ("customer:userId:" +:+ userId)
             (VString (cus_id customer)) (Some 86400)
       | _ => mret tt
       end;;
       mret (VCustomer customer) in
     let by_userId : M S Value :=
       match userId with
       | Some (String _ _ as userId) =>
           userIdCached ← cache_get (StripeProvider.cache this)
                            ("customer:userId:" +:+ userId);
           match userIdCached with
           | Some id =>
               if truthy_value (Some id) then
                 fullCached ← cache_get (StripeProvider.cache this)
                                ("customer:" +:+ template id);
                 match fullCached with
                 | Some customer =>
                     if truthy_value (Some customer) then mret customer
                     else create
                 | None => create
                 end
               else create
           | None => create
           end
       | _ => create
       end in
     cached ← cache_get (StripeProvider.cache this) cacheKey;
     match cached with
     | Some customer =>
         if truthy_value (Some customer) then mret customer else by_userId
     | None => by_userId
     end)
    (fun error =>
       if instanceof_PaymentError error then throw error
       else throw (PaymentError
                     ("Customer creation failed: " +:+ message_or_unknown error)
                     ErrorCodes.PAYMENT_FAILED 500)).

Definition createPortalSession this (billing : StripeBilling)
    (customerId returnUrl : string) : M S PortalSession :=
  try_catch
    (Billing.createPortalSession billing customerId returnUrl)
    (fun error =>
       if instanceof_PaymentError error then throw error
       else throw (PaymentError
                     ("Portal session creation failed: "
                      +:+ message_or_unknown error)
                     ErrorCodes.PAYMENT_FAILED 500)).

End Methods.
End StripeProviderMethods.

(** ** [src/core/provider.ts]: [createStripeProvider] *)

Module CoreProvider.
Section Provider.
Context {S : Type}.
(** [new Stripe(config.secretKey, ...)] *)
Variable newStripe : string -> Stripe.

Record Options : Type := {
  options_cache : KVAdapter S;
  options_sync : option SyncAdapter;
  options_config : option Config.Overrides
}.

(** What the methods of the returned object close over. *)
Record t : Type := {
  config : Config.StripeConfig;
  cache : KVAdapter S;
  sync : option SyncAdapter;
  stripe : Stripe
}.

Definition createStripeProvider (options : Options) (env : Config.ProcessEnv)
  : Result t :=
  match Config.loadStripeConfig (options_config options) env with
  | Throw e => Throw e
  | Ok config =>
      Ok {| config := config;
            cache := options_cache options;
            sync := options_sync options;
            stripe := newStripe (Config.secretKey config) |}
  end.

(** [sessionParams] of [createCheckout]: as in [api.ts], but
    [subscription_data] carries the trial period only. *)
Definition sessionParams (options : CheckoutOptions) : SessionCreateParams := {|
  scp_price := priceId options;
  scp_quantity := default 1 (quantity options);
  scp_mode := default "subscription" (mode options);
  scp_success_url := successUrl options;
  scp_cancel_url := cancelUrl options;
  scp_metadata := metadata options;
  scp_customer :=
    if truthy_value (customerId options) then customerId options else None;
  scp_customer_email :=
    if truthy_value (customerId options) then None
    else if truthy_string (customerEmail options) then customerEmail options
    else None;
  scp_subscription_data :=
    match mode options, trialDays options with
    | Some m, Some days =>
        if (m =? "subscription")%string && truthy_number days
        then Some (days, None) else None
    | _, _ => None
    end
|}.

(** The object literal [customerData]. *)
Definition customerData (customer : RawCustomer) : Customer := {|
  cus_id := raw_cus_id customer;
  cus_email := default "" (raw_cus_email customer);
  cus_name := raw_cus_name customer;
  cus_metadata := raw_cus_metadata customer;
  cus_createdAt := Some (raw_cus_created customer * 1000)
|}.

(** [createCustomer(data)]; on a cache hit it returns what the cache
    holds. *)
Definition createCustomer (this : t) (data : CustomerData) : M S Value :=
  try_catch
    (let cacheKey := "customer:email:" +:+ cd_email data in
     let create : M S Value :=
       customer ← stripe_call (CustomersCreate (Api.customerParams data))
                    (fun n => customers_create (stripe this) n
                                (Api.customerParams data));
       let customerData := customerData customer in
       cache_set (cache this) ("customer:" +:+ raw_cus_id customer)
         (VCustomer customerData) (Some 86400);;
       cache_set (cache this) cacheKey (VCustomer customerData) (Some 86400);;
       Webhook.call_if_configured (sync this ≫= sync_onCustomerCreated)
         (fun c => EvSync (SyncCustomerCreated c)) customerData;;
       mret (VCustomer customerData) in
     cached ← cache_get (cache this) cacheKey;
     match cached with
     | Some customer =>
         if truthy_value (Some customer) then mret customer else create
     | None => create
     end)
    (fun error => throw (Api.payment_failed "Customer creation failed: " error)).

(** [config.webhookSecret!]: after [validateWebhookSecret(config,
    true)] the secret is there. *)
Definition verifyWebhook (this : t) (payload signature : string)
  : Result WebhookEvent :=
  match Config.validateWebhookSecret (config this) true with
  | Throw e => Throw e
  | Ok _ =>
      match webhooks_constructEvent (stripe this) payload signature
              (default "" (Config.webhookSecret (config this))) with
      | Resolved event =>
          Ok {| event_id := raw_event_id event;
                event_type := raw_event_type event;
                event_data := raw_event_data_object event;
                event_created := raw_event_created event * 1000 |}
      | Rejected (StripeSignatureVerificationError m) =>
          Throw (WebhookError ("Webhook signature verification failed: " +:+ m)
                   ErrorCodes.WEBHOOK_SIGNATURE_INVALID)
      | Rejected e =>
          Throw (WebhookError
                   ("Webhook verification failed: "
                    +:+ message_or_unknown (Foreign e))
                   ErrorCodes.WEBHOOK_SIGNATURE_INVALID)
      end
  end.

(** The returned object seen by the webhook handler. *)
Definition as_PaymentProvider (this : t) : PaymentProvider := {|
  provider_name := "stripe";
  provider_verifyWebhook := verifyWebhook this
|}.

End Provider.
End CoreProvider.

(** ** [src/next/handlers/checkout.ts] and the portal handler *)

(** [PaymentProvider] of [types.ts], as the checkout and portal handlers
    use it: the asynchronous method each of them calls. *)
Record PaymentProviderAsync (S : Type) : Type := {
  provider_createCheckout : CheckoutOptions -> M S CheckoutSession;
  provider_createPortalSession : string -> string -> M S PortalSession
}.
Arguments provider_createCheckout {S} p options.
Arguments provider_createPortalSession {S} p customerId returnUrl.

(** A field that must be a non-empty string:
    [!v || typeof v !== 'string'] is false. *)
Definition nonempty_string (v : option Upstash.JsValue) : option string :=
  match v with
  | Some (Upstash.JString (String c s)) => Some (String c s)
  | _ => None
  end.

(** The [TypeError] of reading a property of [null]. *)
Definition null_property (name : string) : JsError :=
  Foreign (PlainError ("Cannot read properties of null (reading '" +:+ name +:+ "')")).

(** The status of [NextResponse.json(body, { status })], that is of
    [new Response(body, { status })].  The status is read as an
    [unsigned short], modulo 2^16; the constructor throws a [RangeError]
    unless it is then one of 200..599, and a [TypeError] for a status that
    allows no body (204, 205, 304), since [json] always gives one. *)
Definition status_out_of_range : JsError :=
  Foreign (PlainError ("init[" +:+ dquote +:+ "status" +:+ dquote
                       +:+ "] must be in the range of 200 to 599, inclusive.")).

Definition status_without_body (st : Z) : JsError :=
  Foreign (PlainError ("Response constructor: Invalid response status code "
                       +:+ pretty st)).

Definition response_status (st : Z) : Result Z :=
  let st := st mod 65536 in
  if (st <? 200) || (599 <? st) then Throw status_out_of_range
  else if (st =? 204) || (st =? 205) || (st =? 304) then
    Throw (status_without_body st)
  else Ok st.

Module CheckoutHandler.

(** [CreateCheckoutRequest] as it arrives.  The three required fields
    are checked at run time: each is absent or any JSON value.  The
    optional fields have their declared types. *)
Record CreateCheckoutRequest : Type := {
  body_priceId : option Upstash.JsValue;
  body_successUrl : option Upstash.JsValue;
  body_cancelUrl : option Upstash.JsValue;
  body_customerEmail : option string;
  body_customerId : option string;
  body_metadata : option Metadata;
  body_mode : option string;
  body_quantity : option Z;
  body_trialDays : option Z
}.

(** A [NextRequest]: [json] is what [request.json()] settles to, a
    rejection when the body is no JSON text, [None] when it is the JSON
    text [null]. *)
Record NextRequest : Type := {
  method : string;
  json : Result (option CreateCheckoutRequest)
}.

(** The bodies the handler sends: [{ error, message? }] and
    [CreateCheckoutResponse]. *)
Inductive Body : Type :=
| ErrorBody (error : string) (message : option string)
| Created (url sessionId : string).

Record NextResponse : Type := {
  body : Body;
  status : Z
}.

(** [NextResponse.json(body, { status })]: throws for a status that
    [Response] refuses. *)
Definition respond (b : Body) (st : Z) : Result NextResponse :=
  match response_status st with
  | Ok st => Ok {| body := b; status := st |}
  | Throw error => Throw error
  end.

Definition invalid (message : string) : Result NextResponse :=
  respond (ErrorBody "Invalid request" (Some message)) 400.

Section Handler.
Context {S : Type}.

Record CreateCheckoutHandlerOptions : Type := {
  provider : PaymentProviderAsync S;
  cache : option (KVAdapter S)
}.

(** [console.error(label, errorMessage)] is recorded as the line it
    prints.  The responses of the [try] block have constant statuses;
    the one of the [catch] block for a [PaymentError] has the status
    of the error, and what [NextResponse.json] throws there leaves
    the handler. *)
Definition createCheckoutHandler (options : CreateCheckoutHandlerOptions)
    (request : NextRequest) : M S NextResponse :=
  if negb (method request =? "POST")%string then
    lift (respond (ErrorBody "Method not allowed" None) 405)
  else
    try_catch
      (parsed ← lift (json request);
       match parsed with
       | None => throw (null_property "priceId")
       | Some body =>
           match nonempty_string (body_priceId body),
                 nonempty_string (body_successUrl body),
                 nonempty_string (body_cancelUrl body) with
           | None, _, _ =>
               lift (invalid "priceId is required and must be a string")
           | Some _, None, _ =>
               lift (invalid "successUrl is required and must be a string")
           | Some _, Some _, None =>
               lift (invalid "cancelUrl is required and must be a string")
           | Some priceId, Some successUrl, Some cancelUrl =>
               let checkoutOptions := {|
                 priceId := priceId;
                 successUrl := successUrl;
                 cancelUrl := cancelUrl;
                 customerEmail := body_customerEmail body;
                 customerId := VString <$> body_customerId body;
                 metadata := body_metadata body;
                 mode := body_mode body;
                 quantity := body_quantity body;
                 trialDays := body_trialDays body
               |} in
               session ← provider_createCheckout (provider options)
                           checkoutOptions;
               lift (respond (Created (cs_url session) (cs_id session)) 200)
           end
       end)
      (fun error =>
         match error with
         | PaymentError message code statusCode =>
             lift (respond (ErrorBody code (Some message)) statusCode)
         | _ =>
             emit (EvConsoleLog ("Checkout handler error: "
                                 +:+ message_or_unknown error));;
             lift (respond (ErrorBody ErrorCodes.PAYMENT_FAILED
                              (Some "Failed to create checkout session")) 500)
         end).

End Handler.
End CheckoutHandler.

Module PortalHandler.

(** [CreatePortalRequest] as it arrives: both fields are checked at run
    time. *)
Record CreatePortalRequest : Type := {
  body_customerId : option Upstash.JsValue;
  body_returnUrl : option Upstash.JsValue
}.

Record NextRequest : Type := {
  method : string;
  json : Result (option CreatePortalRequest)
}.

(** [{ error, message? }] and [CreatePortalResponse]. *)
Inductive Body : Type :=
| ErrorBody (error : string) (message : option string)
| Portal (url : string).

Record NextResponse : Type := {
  body : Body;
  status : Z
}.

(** [NextResponse.json(body, { status })]: throws for a status that
    [Response] refuses. *)
Definition respond (b : Body) (st : Z) : Result NextResponse :=
  match response_status st with
  | Ok st => Ok {| body := b; status := st |}
  | Throw error => Throw error
  end.

Definition invalid (message : string) : Result NextResponse :=
  respond (ErrorBody "Invalid request" (Some message)) 400.

Section Handler.
Context {S : Type}.
(** Whether [new URL(text)] returns rather than throws. *)
Variable URL_parses : string -> bool.

Definition createPortalHandler (provider : PaymentProviderAsync S)
    (request : NextRequest) : M S NextResponse :=
  if negb (method request =? "POST")%string then
    lift (respond (ErrorBody "Method not allowed" None) 405)
  else
    try_catch
      (parsed ← lift (json request);
       match parsed with
       | None => throw (null_property "customerId")
       | Some body =>
           match nonempty_string (body_customerId body),
                 nonempty_string (body_returnUrl body) with
           | None, _ =>
               lift (invalid "customerId is required and must be a string")
           | Some _, None =>
               lift (invalid "returnUrl is required and must be a string")
           | Some customerId, Some returnUrl =>
               if negb (URL_parses returnUrl) then
                 lift (invalid "returnUrl must be a valid URL")
               else
                 portalSession ← provider_createPortalSession provider
                                   customerId returnUrl;
                 lift (respond (Portal (ps_url portalSession)) 200)
           end
       end)
      (fun error =>
         match error with
         | PaymentError message code statusCode =>
             lift (respond (ErrorBody code (Some message)) statusCode)
         | _ =>
             emit (EvConsoleLog ("Portal handler error: "
                                 +:+ message_or_unknown error));;
             lift (respond (ErrorBody ErrorCodes.PAYMENT_FAILED
                              (Some "Failed to create portal session")) 500)
         end).

End Handler.
End PortalHandler.

(** * Vocabulary of the further statements *)

(** The outcome is no thrown error other than a [PaymentError]. *)
Definition only_PaymentError {A : Type} (r : Result A) : Prop :=
  match r with
  | Ok _ => True
  | Throw e => instanceof_PaymentError e = true
  end.

(** The outcome is no thrown error other than a plain [Error] whose
    message starts with [Failed to <what> key "<key>"<where_>]. *)
Definition upstash_failure {A : Type} (what key where_ : string) (r : Result A)
  : Prop :=
  match r with
  | Ok _ => True
  | Throw e =>
      exists reason,
        e = Foreign (PlainError
                       ("Failed to " +:+ what +:+ " key " +:+ dquote +:+ key
                        +:+ dquote +:+ where_ +:+ reason))
  end.

(** The event types [createWebhookHandler] has a branch for. *)
Definition handled_types : list string :=
  ["checkout.session.completed"; "customer.subscription.created";
   "customer.subscription.updated"; "customer.subscription.deleted";
   "customer.subscription.canceled"].

(** The same world with another environment. *)
Definition in_environment {S : Type} (environment : Config.ProcessEnv)
    (w : World S) : World S :=
  {| clock := clock w; env := environment; store := store w; ticks := ticks w;
     trace := trace w |}.

(** The label [createWebhookHandler] logs an error of the verification
    under: the inner [catch] has its own for a [WebhookError]. *)
Definition verification_label (error : JsError) : string :=
  if instanceof_WebhookError error then "Webhook signature verification failed:"
  else "Webhook handler error:".

(** The event of the sample payload [other]. *)
Definition unhandled_event : WebhookEvent := {|
  event_id := "evt_4";
  event_type := "payment_intent.succeeded";
  event_data := {| data_id := "pi_1"; data_fields := {["status" := "active"]} |};
  event_created := 1700000004000
|}.

(** A provider made by [createStripeProvider] with a secret key and no
    webhook secret. *)
Definition core_provider_without_secret
  : CoreProvider.t (S := gmap string (Memory.StorageEntry Value)) := {|
  CoreProvider.config := {| Config.secretKey := "sk_test_abc";
                            Config.webhookSecret := None |};
  CoreProvider.cache := createMemoryAdapter;
  CoreProvider.sync := None;
  CoreProvider.stripe := Sample.stripe
|}.

(** The outcome is no thrown error other than a [PaymentError] with one
    of the given codes. *)
Definition fails_with {A : Type} (codes : list string) (r : Result A) : Prop :=
  match r with
  | Ok _ => True
  | Throw e =>
      exists message code statusCode,
        e = PaymentError message code statusCode /\ code ∈ codes
  end.

(** A cache that can be read, and is empty, but not written: every [set]
    and [delete] is refused. *)
Definition read_only : JsError :=
  Foreign (PlainError "READONLY You can't write against a read only replica.").

Definition read_only_adapter : KVAdapter unit := {|
  kv_get key now s := (Ok None, s);
  kv_set key v ttlSeconds now s := (Throw read_only, s);
  kv_delete key now s := (Throw read_only, s)
|}.

(** The provider object of the samples over the cache that cannot be
    written. *)
Definition stripeProvider_read_only : StripeProvider.t (S := unit) := {|
  StripeProvider.stripe := Sample.stripe;
  StripeProvider.cache := read_only_adapter;
  StripeProvider.config := Scenario.provider_config
|}.

(** A provider that refuses to create customers: too many requests. *)
Definition rate_limited : ForeignError := StripeError "Too many requests" (Some 429).

Definition stripe_rate_limited : Stripe := {|
  webhooks_constructEvent := webhooks_constructEvent Sample.stripe;
  checkout_sessions_retrieve := checkout_sessions_retrieve Sample.stripe;
  checkout_sessions_create := checkout_sessions_create Sample.stripe;
  subscriptions_retrieve := subscriptions_retrieve Sample.stripe;
  customers_retrieve := customers_retrieve Sample.stripe;
  customers_create t params := Rejected rate_limited
|}.

Definition stripeProvider_rate_limited
  : StripeProvider.t (S := gmap string (Memory.StorageEntry Value)) := {|
  StripeProvider.stripe := stripe_rate_limited;
  StripeProvider.cache := createMemoryAdapter;
  StripeProvider.config := Scenario.provider_config
|}.

(** The data of a customer of user [user_1]. *)
Definition customer_request (email : string) (name : option string) : CustomerData := {|
  cd_email := email;
  cd_name := name;
  cd_metadata := Some {["userId" := "user_1"]}
|}.

(** A client that creates the subscription it is asked for, and knows the
    billing portal of customer [cus_1] only. *)
Definition sample_billing : StripeBilling := {|
  subscriptions_create t params :=
    Resolved {| raw_sub_id := "sub_new_" +:+ pretty t;
                raw_sub_customer := RefId (subp_customer params);
                raw_sub_status := "active";
                raw_sub_current_period_end := 1702592000;
                raw_sub_current_period_start := 1700000000;
                raw_sub_cancel_at_period_end := false;
                raw_sub_items :=
                  [{| raw_item_id := "si_new";
                      raw_item_price_id := subp_price params;
                      raw_item_quantity := subp_quantity params |}];
                raw_sub_metadata := subp_metadata params;
                raw_sub_created := 1700000000 |};
  billingPortal_sessions_create t customerId returnUrl :=
    if (customerId =? "cus_1")%string then
      Resolved {| raw_ps_url := Some "https://billing.stripe.com/p/session/1" |}
    else Sample.not_found "customer"
|}.

Definition subscription_request : SubscriptionOptions := {|
  so_customerId := "cus_1";
  so_priceId := "price_monthly";
  so_trialDays := Some 0;
  so_metadata := None;
  so_quantity := None
|}.

(** A provider made by [createStripeProvider] whose sync adapter throws. *)
Definition core_provider_failing_sync
  : CoreProvider.t (S := gmap string (Memory.StorageEntry Value)) := {|
  CoreProvider.config := Scenario.provider_config;
  CoreProvider.cache := createMemoryAdapter;
  CoreProvider.sync :=
    Some (Scenario.all_sync (fun A => @Scenario.throws A Scenario.database_down));
  CoreProvider.stripe := Sample.stripe
|}.

(** *** The checkout and portal handlers *)

(** The first of [priceId], [successUrl], [cancelUrl] that is no
    non-empty string. *)
Definition first_invalid_field (body : CheckoutHandler.CreateCheckoutRequest)
  : option string :=
  if nonempty_string (CheckoutHandler.body_priceId body) is None then Some "priceId"
  else if nonempty_string (CheckoutHandler.body_successUrl body) is None
       then Some "successUrl"
  else if nonempty_string (CheckoutHandler.body_cancelUrl body) is None
       then Some "cancelUrl"
  else None.

(** The checkout options a body with three valid fields asks for. *)
Definition requested_checkout (body : CheckoutHandler.CreateCheckoutRequest)
  : option CheckoutOptions :=
  price ← nonempty_string (CheckoutHandler.body_priceId body);
  success ← nonempty_string (CheckoutHandler.body_successUrl body);
  cancel ← nonempty_string (CheckoutHandler.body_cancelUrl body);
  Some {| priceId := price;
          successUrl := success;
          cancelUrl := cancel;
          customerEmail := CheckoutHandler.body_customerEmail body;
          customerId := VString <$> CheckoutHandler.body_customerId body;
          metadata := CheckoutHandler.body_metadata body;
          mode := CheckoutHandler.body_mode body;
          quantity := CheckoutHandler.body_quantity body;
          trialDays := CheckoutHandler.body_trialDays body |}.

(** How the [catch] of the checkout handler ends: a [PaymentError] is
    reported with its own code, message and status, unless
    [NextResponse.json] refuses that status and throws; anything else is
    reported as a failure without details. *)
Definition checkout_error_response (error : JsError)
  : Result CheckoutHandler.NextResponse :=
  match error with
  | PaymentError message code statusCode =>
      CheckoutHandler.respond (CheckoutHandler.ErrorBody code (Some message)) statusCode
  | _ =>
      CheckoutHandler.respond
        (CheckoutHandler.ErrorBody ErrorCodes.PAYMENT_FAILED
           (Some "Failed to create checkout session")) 500
  end.

Definition portal_error_response (error : JsError)
  : Result PortalHandler.NextResponse :=
  match error with
  | PaymentError message code statusCode =>
      PortalHandler.respond (PortalHandler.ErrorBody code (Some message)) statusCode
  | _ =>
      PortalHandler.respond
        (PortalHandler.ErrorBody ErrorCodes.PAYMENT_FAILED
           (Some "Failed to create portal session")) 500
  end.

(** The response reports the session: status 200, the id of the session,
    and its url.  A session without url has the empty url in
    [CheckoutSession]; nothing is said of the url of the response then. *)
Definition reports_session (session : CheckoutSession)
    (response : CheckoutHandler.NextResponse) : Prop :=
  CheckoutHandler.status response = 200
  /\ exists url,
       CheckoutHandler.body response = CheckoutHandler.Created url (cs_id session)
       /\ (cs_url session <> EmptyString -> url = cs_url session).

(** The statuses [NextResponse.json] accepts: 200..599 but 204, 205 and
    304, after the reduction modulo 2^16. *)
Definition accepted_status (st : Z) : bool :=
  let st := st mod 65536 in
  (200 <=? st) && (st <=? 599)
  && negb ((st =? 204) || (st =? 205) || (st =? 304)).

(** The body of a checkout request of user [user_1]. *)
Definition checkout_body : CheckoutHandler.CreateCheckoutRequest := {|
  CheckoutHandler.body_priceId := Some (Upstash.JString "price_monthly");
  CheckoutHandler.body_successUrl := Some (Upstash.JString "https://example.com/success");
  CheckoutHandler.body_cancelUrl := Some (Upstash.JString "https://example.com/cancel");
  CheckoutHandler.body_customerEmail := Some "ada@example.com";
  CheckoutHandler.body_customerId := None;
  CheckoutHandler.body_metadata := Some {["userId" := "user_1"]};
  CheckoutHandler.body_mode := None;
  CheckoutHandler.body_quantity := None;
  CheckoutHandler.body_trialDays := None
|}.

(** A [StripeProvider] whose client refuses to create customers, behind
    the two handlers. *)
Definition rate_limited_provider
  : PaymentProviderAsync (gmap string (Memory.StorageEntry Value)) := {|
  provider_createCheckout := StripeProvider.createCheckout stripeProvider_rate_limited;
  provider_createPortalSession :=
    StripeProviderMethods.createPortalSession stripeProvider_rate_limited
      sample_billing
|}.

(** A cache that is out of quota: every call throws a [PaymentError]
    that carries the number of the quota where a status is expected. *)
Definition out_of_quota : JsError :=
  PaymentError "Cache quota exceeded" ErrorCodes.RATE_LIMITED 42.

Definition out_of_quota_adapter : KVAdapter unit := {|
  kv_get key now s := (Throw out_of_quota, s);
  kv_set key v ttlSeconds now s := (Throw out_of_quota, s);
  kv_delete key now s := (Throw out_of_quota, s)
|}.

Definition stripeProvider_out_of_quota : StripeProvider.t (S := unit) := {|
  StripeProvider.stripe := Sample.stripe;
  StripeProvider.cache := out_of_quota_adapter;
  StripeProvider.config := Scenario.provider_config
|}.

(** The world of the samples over a store without content. *)
Definition unit_world : World unit := {|
  clock := 1700000000000;
  env := Sample.environment;
  store := tt;
  ticks := 0;
  trace := []
|}.

(** Every character is in the ASCII range, where [is_space] is the white
    space of [String.prototype.trim]. *)
Fixpoint ascii_only (s : string) : bool :=
  match s with
  | EmptyString => true
  | String c s' => (nat_of_ascii c <? 128)%nat && ascii_only s'
  end.
(** * Properties *)

(** ** The in-memory adapter *)

Section MemoryProperties.
Context {V : Type}.
Implicit Types (s : gmap string (Memory.StorageEntry V)) (key : string) (v : V).

Lemma set_lookup_no_expiry key v ttlSeconds now s :
  no_expiry ttlSeconds ->
  Memory.set key v ttlSeconds now s !! key
  = Some {| Memory.value := v; Memory.expiresAt := None |}.
Proof.
  intros Httl. unfold Memory.set.
  destruct ttlSeconds as [ttl|]; simpl in Httl.
  - replace (0 <? ttl) with false by (symmetry; apply Z.ltb_ge; lia).
    rewrite andb_false_r. apply lookup_insert_eq.
  - apply lookup_insert_eq.
Qed.

Lemma set_lookup_ttl key v ttl now s :
  0 < ttl ->
  Memory.set key v (Some ttl) now s !! key
  = Some {| Memory.value := v; Memory.expiresAt := Some (now + ttl * 1000) |}.
Proof.
  intros Httl. unfold Memory.set, truthy_number.
  replace (ttl =? 0) with false by (symmetry; apply Z.eqb_neq; lia).
  replace (0 <? ttl) with true by (symmetry; apply Z.ltb_lt; lia).
  apply lookup_insert_eq.
Qed.

Lemma set_lookup_ne key key' v ttlSeconds now s :
  key <> key' ->
  Memory.set key v ttlSeconds now s !! key' = s !! key'.
Proof. intros Hne. unfold Memory.set. by rewrite lookup_insert_ne. Qed.

Lemma expired_no_expiry now v : Memory.expired (V := V) now
    {| Memory.value := v; Memory.expiresAt := None |} = false.
Proof. reflexivity. Qed.

(** With positive expiry instants, [expired] says that the instant has
    passed. *)
Lemma expired_iff now (entry : Memory.StorageEntry V) :
  (forall e, Memory.expiresAt entry = Some e -> 0 < e) ->
  Memory.expired now entry = true
  <-> exists e, Memory.expiresAt entry = Some e /\ e < now.
Proof.
  intros Hpos. unfold Memory.expired, truthy_number.
  destruct (Memory.expiresAt entry) as [e|]; split.
  - intros H. apply andb_true_iff in H as [_ H]. apply Z.ltb_lt in H. eauto.
  - intros (e' & [= <-] & Hlt). apply andb_true_iff. split.
    + apply negb_true_iff, Z.eqb_neq. specialize (Hpos e eq_refl). lia.
    + by apply Z.ltb_lt.
  - discriminate.
  - intros (e & [=] & _).
Qed.

Lemma positive_expiry_empty : Memory.positive_expiry (V := V) ∅.
Proof. intros key entry e H. by rewrite lookup_empty in H. Qed.

Lemma positive_expiry_set key v ttlSeconds now s :
  0 <= now ->
  Memory.positive_expiry s ->
  Memory.positive_expiry (Memory.set key v ttlSeconds now s).
Proof.
  intros Hnow Hs key' entry e. unfold Memory.set.
  destruct (decide (key = key')) as [<-|Hne].
  - rewrite lookup_insert_eq. intros [= <-].
    destruct ttlSeconds as [ttl|]; [|discriminate].
    destruct (truthy_number ttl && (0 <? ttl)) eqn:Hc; [|discriminate].
    apply andb_true_iff in Hc as [_ Hc]. apply Z.ltb_lt in Hc.
    simpl. intros [= <-]. lia.
  - rewrite lookup_insert_ne by done. apply Hs.
Qed.

Lemma positive_expiry_delete key s :
  Memory.positive_expiry s -> Memory.positive_expiry (Memory.delete key s).
Proof.
  intros Hs key' entry e H. unfold Memory.delete in H.
  apply lookup_delete_Some in H as [_ H]. by apply (Hs key').
Qed.

Lemma positive_expiry_get key now s :
  Memory.positive_expiry s -> Memory.positive_expiry (Memory.get key now s).2.
Proof.
  intros Hs. unfold Memory.get.
  destruct (s !! key) as [entry|]; [|done].
  destruct (Memory.expired now entry); [|done].
  by apply positive_expiry_delete.
Qed.

Lemma positive_expiry_cleanup now s :
  Memory.positive_expiry s -> Memory.positive_expiry (Memory.cleanup now s).
Proof.
  intros Hs key entry e H. unfold Memory.cleanup in H.
  apply map_lookup_filter_Some in H as [H _]. by apply (Hs key).
Qed.

(** The sweep keeps exactly the entries that are not expired. *)
Lemma cleanup_lookup now key s :
  Memory.cleanup now s !! key
  = match s !! key with
    | Some entry => if Memory.expired now entry then None else Some entry
    | None => None
    end.
Proof.
  unfold Memory.cleanup.
  destruct (s !! key) as [entry|] eqn:Hk.
  - destruct (Memory.expired now entry) eqn:He.
    + apply map_lookup_filter_None. right. intros entry' Hk' Hf.
      simpl in Hf. congruence.
    + apply map_lookup_filter_Some. split; [done|]. by simpl.
  - apply map_lookup_filter_None. by left.
Qed.

(** C7 — the in-memory adapter.  An entry set with [ttlSeconds] omitted,
    zero or negative carries no expiry instant: a read at any later
    instant returns it and leaves the storage as it is, and the sweep
    keeps it.  [get] answers [null] exactly when the key is absent or
    the expiry instant of its entry has passed; and reading an entry
    whose instant has passed answers [null] and deletes the entry. *)
Theorem memory_adapter_expiry key v ttlSeconds now later s :
  Memory.positive_expiry s ->
  (no_expiry ttlSeconds ->
     let s' := Memory.set key v ttlSeconds now s in
     s' !! key = Some {| Memory.value := v; Memory.expiresAt := None |}
     /\ Memory.get key later s' = (Some v, s')
     /\ Memory.cleanup later s' !! key
        = Some {| Memory.value := v; Memory.expiresAt := None |})
  /\ ((Memory.get key now s).1 = None
      <-> s !! key = None
          \/ exists entry e,
               s !! key = Some entry /\ Memory.expiresAt entry = Some e /\ e < now)
  /\ (forall entry e,
        s !! key = Some entry -> Memory.expiresAt entry = Some e -> e < now ->
        Memory.get key now s = (None, base.delete key s)).
Proof.
  intros Hs. split; [|split].
  - intros Httl s'.
    assert (Hk : s' !! key
                 = Some {| Memory.value := v; Memory.expiresAt := None |})
      by (by apply set_lookup_no_expiry).
    split; [done|]. split.
    + unfold Memory.get. by rewrite Hk.
    + rewrite cleanup_lookup, Hk. by rewrite expired_no_expiry.
  - unfold Memory.get. destruct (s !! key) as [entry|] eqn:Hk.
    + pose proof (expired_iff now entry (fun e => Hs key entry e Hk)) as Hexp.
      destruct (Memory.expired now entry); simpl; split.
      * intros _. right. destruct Hexp as [(e & He & Hlt) _]; [done|].
        by exists entry, e.
      * done.
      * discriminate.
      * intros [[=]|(entry' & e & [= <-] & He & Hlt)].
        destruct Hexp as [_ Hexp]. by discriminate Hexp; eauto.
    + simpl. split; [by left|done].
  - intros entry e Hk He Hlt. unfold Memory.get. rewrite Hk.
    pose proof (expired_iff now entry (fun e => Hs key entry e Hk)) as [_ Hexp].
    rewrite Hexp by eauto. done.
Qed.

End MemoryProperties.

Lemma stale_storage_positive : Memory.positive_expiry stale_storage.
Proof.
  intros key entry e Hk He. unfold stale_storage in Hk.
  apply lookup_singleton_Some in Hk as [_ <-]. simpl in He.
  injection He as <-. lia.
Qed.

Lemma memory_adapter_expiry_witness :
  Memory.positive_expiry stale_storage
  /\ Memory.get "session" 2000 stale_storage
     = (None, base.delete "session" stale_storage)
  /\ Memory.get "other" 5000 (Memory.set "other" "w" (Some (-1)) 2000 stale_storage)
     = (Some "w", Memory.set "other" "w" (Some (-1)) 2000 stale_storage).
Proof.
  split; [exact stale_storage_positive|].
  pose proof (memory_adapter_expiry "session" "v" None 2000 5000 stale_storage
                stale_storage_positive) as (_ & _ & Hread).
  pose proof (memory_adapter_expiry "other" "w" (Some (-1)) 2000 5000 stale_storage
                stale_storage_positive) as (Hperm & _ & _).
  split.
  - apply (Hread {| Memory.value := "v"; Memory.expiresAt := Some 1000 |} 1000);
      [reflexivity | reflexivity | lia].
  - apply Hperm. simpl. lia.
Defined.

(** ** Configuration *)

Lemma startsWith_head c r a p : startsWith (String c r) (String a p) = true -> c = a.
Proof.
  unfold startsWith. simpl. destruct (ascii_dec a c); [auto|discriminate].
Qed.

Lemma trimEnd_head c r : is_space c = false -> trimEnd (String c r) <> EmptyString.
Proof. intros Hc. simpl. rewrite Hc. by destruct (trimEnd r). Qed.

(** A key with one of the two prefixes is not blank. *)
Lemma well_formed_not_blank k :
  startsWith k "sk_test_" || startsWith k "sk_live_" = true ->
  k <> EmptyString /\ (String.length (trim k) =? 0)%nat = false.
Proof.
  intros H. destruct k as [|c r]; [discriminate|]. split; [done|].
  assert (c = "s"%char) as ->
    by (apply orb_true_iff in H as [H|H]; by apply startsWith_head in H).
  unfold trim. simpl trimStart.
  pose proof (trimEnd_head "s" r eq_refl) as Hne.
  by destruct (trimEnd (String "s" r)).
Qed.

Lemma loadStripeConfig_Ok overrides env :
  is_Ok (Config.loadStripeConfig overrides env)
  = well_formed_secret_key (Config.resolved_secretKey overrides env).
Proof.
  unfold Config.loadStripeConfig, well_formed_secret_key.
  destruct (Config.resolved_secretKey overrides env) as [k|]; [|done].
  destruct (startsWith k "sk_test_" || startsWith k "sk_live_") eqn:Hk.
  - destruct (well_formed_not_blank k Hk) as [Hne Hlen].
    destruct k as [|c r]; [done|]. rewrite Hlen.
    apply orb_true_iff in Hk. 
    destruct (startsWith (String c r) "sk_test_"),
             (startsWith (String c r) "sk_live_"); simpl; try done.
    by destruct Hk.
  - apply orb_false_iff in Hk as [-> ->].
    destruct k as [|c r]; [done|]. simpl.
    by destruct (String.length (trim (String c r)) =? 0)%nat.
Qed.

Lemma loadStripeConfig_Throw overrides env e :
  Config.loadStripeConfig overrides env = Throw e -> exists msg, e = ConfigError msg.
Proof.
  unfold Config.loadStripeConfig.
  destruct (Config.resolved_secretKey overrides env) as [[|c r]|];
    [intros [= <-]; eauto| |intros [= <-]; eauto].
  destruct (String.length (trim (String c r)) =? 0)%nat; [intros [= <-]; eauto|].
  destruct (negb (startsWith (String c r) "sk_test_")
            && negb (startsWith (String c r) "sk_live_"));
    [intros [= <-]; eauto|discriminate].
Qed.

Lemma loadStripeConfig_secretKey overrides env config :
  Config.loadStripeConfig overrides env = Ok config ->
  exists k, Config.resolved_secretKey overrides env = Some k
            /\ Config.secretKey config = trim k.
Proof.
  unfold Config.loadStripeConfig.
  destruct (Config.resolved_secretKey overrides env) as [[|c r]|]; try discriminate.
  destruct (String.length (trim (String c r)) =? 0)%nat; [discriminate|].
  destruct (negb (startsWith (String c r) "sk_test_")
            && negb (startsWith (String c r) "sk_live_")); [discriminate|].
  intros [= <-]. eauto.
Qed.

(** What [validateWebhookSecret(config, true)] accepts. *)
Lemma validateWebhookSecret_required config :
  Config.validateWebhookSecret config true = Ok tt
  <-> exists secret, Config.webhookSecret config = Some secret
                     /\ startsWith secret "whsec_" = true.
Proof.
  unfold Config.validateWebhookSecret.
  destruct (Config.webhookSecret config) as [[|c r]|]; cbn [truthy_string negb andb].
  - split; [discriminate|]. by intros (secret & [= <-] & H).
  - destruct (startsWith (String c r) "whsec_") eqn:Hp; cbn [negb].
    + split; [eauto|done].
    + split; [discriminate|]. intros (secret & [= <-] & H). congruence.
  - split; [discriminate|]. by intros (secret & [=] & _).
Qed.

Section ProviderConstruction.
Context {S : Type} (createStripeClient : string -> Stripe).

(** C9, as the code has it — the constructor of [StripeProvider] checks
    the secret key and nothing else.  It succeeds exactly when the
    resolved secret key starts with [sk_test_] or [sk_live_]; when it
    fails it throws a [ConfigError]; the provider keeps the trimmed key.
    The webhook secret takes no part in this, and a provider built
    without one throws a [WebhookError] when [verifyWebhook] is called. *)
Theorem constructor_checks_secret_key
    (options : StripeProvider.Options (S := S)) (env : Config.ProcessEnv) :
  let key := Config.resolved_secretKey (StripeProvider.options_config options) env in
  is_Ok (StripeProvider.constructor createStripeClient options env)
  = well_formed_secret_key key
  /\ (forall e,
        StripeProvider.constructor createStripeClient options env = Throw e ->
        exists msg, e = ConfigError msg)
  /\ (forall this,
        StripeProvider.constructor createStripeClient options env = Ok this ->
        (exists k, key = Some k
                   /\ Config.secretKey (StripeProvider.config this) = trim k)
        /\ forall payload signature,
             truthy_string (Config.webhookSecret (StripeProvider.config this)) = false ->
             exists msg,
               StripeProvider.verifyWebhook this payload signature
               = Throw (WebhookError msg ErrorCodes.WEBHOOK_SIGNATURE_INVALID)).
Proof.
  intros key. unfold StripeProvider.constructor.
  pose proof (loadStripeConfig_Ok (StripeProvider.options_config options) env) as HOk.
  pose proof (loadStripeConfig_Throw (StripeProvider.options_config options) env) as HThrow.
  pose proof (loadStripeConfig_secretKey (StripeProvider.options_config options) env)
    as HKey.
  destruct (Config.loadStripeConfig (StripeProvider.options_config options) env)
    as [config|e0].
  - split; [exact HOk|]. split; [discriminate|].
    intros this [= <-]. simpl. split; [by apply HKey|].
    intros payload signature Hsecret. unfold StripeProvider.verifyWebhook. simpl.
    destruct (Config.webhookSecret config) as [[|c r]|]; try discriminate; eauto.
  - split; [exact HOk|]. split; [|discriminate].
    intros e [= <-]. by apply HThrow.
Qed.

End ProviderConstruction.

Lemma constructor_checks_secret_key_witness :
  exists this,
    StripeProvider.constructor Sample.createStripeClient
      Sample.options_no_webhook_secret Sample.no_environment = Ok this
    /\ Config.secretKey (StripeProvider.config this) = "sk_test_abc"
    /\ exists msg,
         StripeProvider.verifyWebhook this "deleted" "valid"
         = Throw (WebhookError msg ErrorCodes.WEBHOOK_SIGNATURE_INVALID).
Proof.
  destruct (constructor_checks_secret_key Sample.createStripeClient
              Sample.options_no_webhook_secret Sample.no_environment)
    as (_ & _ & Hbuilt).
  eexists. split; [reflexivity|].
  edestruct Hbuilt as [_ Hverify]; [reflexivity|].
  split; [reflexivity|]. apply Hverify. reflexivity.
Defined.

(** C9, as stated, fails: a provider is constructed although its webhook
    secret does not start with [whsec_] (the secret
    [validateWebhookSecret] rejects), and another although it has no
    webhook secret at all. *)
Lemma webhook_secret_not_checked_at_construction :
  (exists this,
     StripeProvider.constructor Sample.createStripeClient
       Sample.options_malformed_webhook_secret Sample.no_environment = Ok this
     /\ Config.webhookSecret (StripeProvider.config this) = Some "not-a-signing-secret"
     /\ Config.validateWebhookSecret (StripeProvider.config this) true
        = Throw (ConfigError Config.msg_webhook_secret_format))
  /\ (exists this,
        StripeProvider.constructor Sample.createStripeClient
          Sample.options_no_webhook_secret Sample.no_environment = Ok this
        /\ Config.webhookSecret (StripeProvider.config this) = None
        /\ Config.validateWebhookSecret (StripeProvider.config this) true
           = Throw (ConfigError Config.msg_missing_webhook_secret)).
Proof.
  split; eexists; (split; [reflexivity|]); split; reflexivity.
Qed.

(** ** The Upstash adapter *)

Section UpstashProperties.
Variable JSON_parse : string -> option Upstash.JsValue.
Variable JSON_stringify : Upstash.JsValue -> string.
Implicit Types (s : gmap string (string * option Z)) (key : string).

Local Abbreviation get := (Upstash.get JSON_parse Upstash.text_store).
Local Abbreviation set := (Upstash.set JSON_stringify Upstash.text_store).
Local Abbreviation set_then_get :=
  (Upstash.set_then_get JSON_parse JSON_stringify Upstash.text_store).

(** What [set] leaves in the store: the text, and [ex] for a positive
    [ttlSeconds] only. *)
Lemma set_stores_text key v ttlSeconds s :
  exists ex,
    set key v ttlSeconds s
    = (Ok tt, <[key := (Upstash.serialized JSON_stringify v, ex)]> s).
Proof. unfold Upstash.set. simpl. eauto. Qed.

(** [get] decodes the stored text, and keeps it when that fails. *)
Lemma get_stored_text key text ex s :
  s !! key = Some (text, ex) ->
  get key s
  = (Ok (match JSON_parse text with
         | Some parsed => parsed
         | None => Upstash.JString text
         end), s).
Proof.
  intros Hk. unfold Upstash.get. simpl. rewrite Hk.
  by destruct (JSON_parse text).
Qed.

Lemma set_then_get_decodes key v ttlSeconds s :
  set_then_get key v ttlSeconds s
  = Ok (match JSON_parse (Upstash.serialized JSON_stringify v) with
        | Some parsed => parsed
        | None => Upstash.JString (Upstash.serialized JSON_stringify v)
        end).
Proof.
  unfold Upstash.set_then_get.
  destruct (set_stores_text key v ttlSeconds s) as [ex ->].
  by erewrite get_stored_text by apply lookup_insert_eq.
Qed.

(** C8, as the code has it — over a store that keeps the text it is
    sent.  A string is stored verbatim; read back, it is returned
    unchanged when it is no JSON text, and as the value it parses to when
    it is one.  A value that is no string is stored as its JSON text and
    comes back as itself whenever that text parses back to it.  Whatever
    text the store holds, and whatever any client resolves [get] to,
    [get] of the adapter does not throw. *)
Theorem upstash_set_get key ttlSeconds s :
  (forall text,
     (exists ex, (set key (Upstash.JString text) ttlSeconds s).2 !! key
                 = Some (text, ex))
     /\ (JSON_parse text = None ->
         set_then_get key (Upstash.JString text) ttlSeconds s
         = Ok (Upstash.JString text))
     /\ (forall parsed, JSON_parse text = Some parsed ->
         set_then_get key (Upstash.JString text) ttlSeconds s = Ok parsed))
  /\ (forall v,
        is_string v = false ->
        JSON_parse (JSON_stringify v) = Some v ->
        (exists ex, (set key v ttlSeconds s).2 !! key = Some (JSON_stringify v, ex))
        /\ set_then_get key v ttlSeconds s = Ok v)
  /\ (forall text ex,
        s !! key = Some (text, ex) ->
        exists v, get key s = (Ok v, s))
  /\ (forall (R : Type) (redis : Upstash.Redis R) (state state' : R) result,
        Upstash.redis_get redis key state = (Resolved result, state') ->
        exists v, Upstash.get JSON_parse redis key state = (Ok v, state')).
Proof.
  split; [|split; [|split]]; cycle 3.
  { intros R redis state state' result Hreply. unfold Upstash.get.
    rewrite Hreply. destruct result as [| | |text| |]; eauto.
    destruct (JSON_parse text); eauto. }
  - intros text. split; [|split].
    + destruct (set_stores_text key (Upstash.JString text) ttlSeconds s) as [ex ->].
      exists ex. apply lookup_insert_eq.
    + intros Hp. rewrite set_then_get_decodes. simpl. by rewrite Hp.
    + intros parsed Hp. rewrite set_then_get_decodes. simpl. by rewrite Hp.
  - intros v Hv Hp.
    assert (Hser : Upstash.serialized JSON_stringify v = JSON_stringify v)
      by (by destruct v).
    split.
    + destruct (set_stores_text key v ttlSeconds s) as [ex ->].
      exists ex. rewrite Hser. apply lookup_insert_eq.
    + rewrite set_then_get_decodes, Hser. by rewrite Hp.
  - intros text ex Hk. erewrite get_stored_text by done. eauto.
Qed.

End UpstashProperties.

Lemma upstash_set_get_witness :
  Upstash.set_then_get MiniJSON.parse MiniJSON.stringify Upstash.text_store
    "subscription:sub_1" subscription_json (Some 3600) ∅
  = Ok subscription_json
  /\ Upstash.set_then_get MiniJSON.parse MiniJSON.stringify Upstash.text_store
       "customer:userId:user_1" (Upstash.JString "cus_1") None ∅
     = Ok (Upstash.JString "cus_1").
Proof.
  pose proof (upstash_set_get MiniJSON.parse MiniJSON.stringify
                "subscription:sub_1" (Some 3600) ∅) as (_ & Hvalue & _ & _).
  pose proof (upstash_set_get MiniJSON.parse MiniJSON.stringify
                "customer:userId:user_1" None ∅) as (Htext & _ & _ & _).
  split.
  - apply (Hvalue subscription_json); [reflexivity | vm_compute; reflexivity].
  - destruct (Htext "cus_1") as (_ & Hraw & _). apply Hraw. vm_compute. reflexivity.
Defined.

(** C8, as stated, fails: the string ["123"] is stored verbatim, and read
    back it is the number 123, not the string. *)
Lemma upstash_string_not_returned_unchanged :
  (Upstash.set MiniJSON.stringify Upstash.text_store "plan"
     (Upstash.JString "123") None ∅).2 !! "plan" = Some ("123", None)
  /\ Upstash.set_then_get MiniJSON.parse MiniJSON.stringify Upstash.text_store
       "plan" (Upstash.JString "123") None ∅
     = Ok (Upstash.JNumber 123)
  /\ Upstash.JNumber 123 <> Upstash.JString "123".
Proof.
  split; [|split].
  - apply lookup_insert_eq.
  - rewrite set_then_get_decodes. vm_compute. reflexivity.
  - discriminate.
Qed.

(** ** Running and composing computations *)

Section MonadRules.
Context {S : Type}.
Implicit Types (w : World S) (P : Event -> Prop) (Qe : JsError -> Prop).

Lemma run_bind {A B : Type} (m : M S A) (k : A -> M S B) w :
  (m ≫= k) w
  = match m w with
    | (Ok a, w') => k a w'
    | (Throw e, w') => (Throw e, w')
    end.
Proof. reflexivity. Qed.

Lemma run_ret {A : Type} (a : A) w : (mret a : M S A) w = (Ok a, w).
Proof. reflexivity. Qed.

Lemma run_try_catch {A : Type} (m : M S A) (h : JsError -> M S A) w :
  try_catch m h w
  = match m w with
    | (Ok a, w') => (Ok a, w')
    | (Throw e, w') => h e w'
    end.
Proof. reflexivity. Qed.

Lemma run_emit ev w : emit ev w = (Ok tt, logged [ev] w).
Proof. reflexivity. Qed.

Lemma run_invoke {A : Type} ev (outcome : Result A) w :
  invoke ev outcome w = (outcome, logged [ev] w).
Proof. reflexivity. Qed.

Lemma run_stripe_call {A : Type} call (reply : nat -> Reply A) w :
  stripe_call call reply w
  = (match reply (ticks w) with
     | Resolved a => Ok a
     | Rejected e => Throw (Foreign e)
     end, called 1 (logged [EvStripe call] w)).
Proof. unfold stripe_call. by destruct (reply (ticks w)). Qed.

Lemma logged_logged evs evs' w :
  logged evs' (logged evs w) = logged (evs ++ evs') w.
Proof. unfold logged. simpl. by rewrite <- app_assoc. Qed.

(** Worlds in normal form: events outermost, then requests, then the
    store. *)
Lemma with_store_logged (s : S) evs w :
  with_store s (logged evs w) = logged evs (with_store s w).
Proof. reflexivity. Qed.

Lemma with_store_called (s : S) n w :
  with_store s (called n w) = called n (with_store s w).
Proof. reflexivity. Qed.

Lemma with_store_with_store (s s' : S) w :
  with_store s (with_store s' w) = with_store s w.
Proof. reflexivity. Qed.

Lemma called_logged n evs w : called n (logged evs w) = logged evs (called n w).
Proof. reflexivity. Qed.

Lemma called_called n m w : called n (called m w) = called (n + m) w.
Proof. unfold called. simpl. by rewrite Nat.add_assoc. Qed.

Lemma triple_ret {A : Type} (a : A) P (Qa : A -> Prop) Qe :
  Qa a -> triple (mret a : M S A) P Qa Qe.
Proof.
  intros Ha w r w' [= <- <-]. split; [|done].
  exists []. by rewrite app_nil_r.
Qed.

Lemma triple_throw {A : Type} e P (Qa : A -> Prop) Qe :
  Qe e -> triple (throw e : M S A) P Qa Qe.
Proof.
  intros He w r w' [= <- <-]. split; [|done].
  exists []. by rewrite app_nil_r.
Qed.

Lemma triple_lift {A : Type} (r : Result A) P (Qa : A -> Prop) Qe :
  match r with Ok a => Qa a | Throw e => Qe e end ->
  triple (lift r : M S A) P Qa Qe.
Proof.
  intros Hr w r' w' [= <- <-]. split; [|done].
  exists []. by rewrite app_nil_r.
Qed.

Lemma triple_read_env P (Qa : Config.ProcessEnv -> Prop) Qe :
  (forall environment, Qa environment) -> triple (read_env : M S _) P Qa Qe.
Proof.
  intros Ha w r w' [= <- <-]. split; [|done].
  exists []. by rewrite app_nil_r.
Qed.

Lemma triple_bind {A B : Type} (m : M S A) (k : A -> M S B) P
    (Qa : A -> Prop) (Qb : B -> Prop) Qe :
  triple m P Qa Qe ->
  (forall a, Qa a -> triple (k a) P Qb Qe) ->
  triple (m ≫= k) P Qb Qe.
Proof.
  intros Hm Hk w r w' Hrun. rewrite run_bind in Hrun.
  destruct (m w) as [[a|e] w1] eqn:Hmw.
  - destruct (Hm _ _ _ Hmw) as [(evs1 & Ht1 & HP1) Ha].
    destruct (Hk a Ha _ _ _ Hrun) as [(evs2 & Ht2 & HP2) Hr].
    split; [|done]. exists (evs1 ++ evs2)%list.
    rewrite Ht2, Ht1, <- app_assoc. split; [done|]. by apply Forall_app.
  - injection Hrun as <- <-. by apply (Hm _ _ _ Hmw).
Qed.

Lemma triple_try_catch {A : Type} (m : M S A) (h : JsError -> M S A) P
    (Qa : A -> Prop) Qe Qe' :
  triple m P Qa Qe' ->
  (forall e, Qe' e -> triple (h e) P Qa Qe) ->
  triple (try_catch m h) P Qa Qe.
Proof.
  intros Hm Hh w r w' Hrun. rewrite run_try_catch in Hrun.
  destruct (m w) as [[a|e] w1] eqn:Hmw.
  - injection Hrun as <- <-. by apply (Hm _ _ _ Hmw).
  - destruct (Hm _ _ _ Hmw) as [(evs1 & Ht1 & HP1) He].
    destruct (Hh e He _ _ _ Hrun) as [(evs2 & Ht2 & HP2) Hr].
    split; [|done]. exists (evs1 ++ evs2)%list.
    rewrite Ht2, Ht1, <- app_assoc. split; [done|]. by apply Forall_app.
Qed.

Lemma triple_weaken {A : Type} (m : M S A) P (Qa Qa' : A -> Prop) Qe Qe' :
  triple m P Qa Qe ->
  (forall a, Qa a -> Qa' a) -> (forall e, Qe e -> Qe' e) ->
  triple m P Qa' Qe'.
Proof.
  intros Hm Ha He w r w' Hrun. destruct (Hm _ _ _ Hrun) as [Ht Hr].
  split; [done|]. destruct r; auto.
Qed.

Lemma triple_emit ev P (Qa : unit -> Prop) Qe :
  P ev -> Qa tt -> triple (emit ev : M S unit) P Qa Qe.
Proof.
  intros Hev Ha w r w' [= <- <-]. split; [|done]. exists [ev]. auto.
Qed.

Lemma triple_invoke {A : Type} ev (outcome : Result A) P (Qa : A -> Prop) Qe :
  P ev ->
  match outcome with Ok a => Qa a | Throw e => Qe e end ->
  triple (invoke ev outcome : M S A) P Qa Qe.
Proof.
  intros Hev Ho w r w' [= <- <-]. split; [|done]. exists [ev]. auto.
Qed.

(** A request to the provider throws nothing of this package. *)
Lemma triple_stripe_call {A : Type} call (reply : nat -> Reply A) P Qe :
  P (EvStripe call) ->
  (forall e, Qe (Foreign e)) ->
  triple (stripe_call call reply : M S A) P
    (fun a => exists t, reply t = Resolved a) Qe.
Proof.
  intros Hev He w r w' Hrun. rewrite run_stripe_call in Hrun.
  injection Hrun as <- <-. split; [exists [EvStripe call]; auto|].
  destruct (reply (ticks w)) eqn:Hr; eauto.
Qed.

Lemma triple_cache_set (cache : KVAdapter S) key v ttlSeconds P Qe :
  P (EvCacheSet key v ttlSeconds) ->
  (forall now s e s',
     kv_set cache key v ttlSeconds now s = (Throw e, s') -> Qe e) ->
  triple (cache_set cache key v ttlSeconds) P (fun _ => True) Qe.
Proof.
  intros Hev He w r w' Hrun. unfold cache_set in Hrun.
  destruct (kv_set cache key v ttlSeconds (clock w) (store w)) as [r0 s'] eqn:Hset.
  injection Hrun as <- <-. split; [exists [EvCacheSet key v ttlSeconds]; auto|].
  destruct r0; eauto.
Qed.

End MonadRules.

Create Rewrite HintDb world.
#[local] Hint Rewrite @with_store_logged @with_store_called @with_store_with_store
  @called_logged @called_called @logged_logged : world.

(** Worlds to normal form, and their projections computed. *)
Ltac normalize_world :=
  autorewrite with world;
  cbn [clock env store ticks trace logged called with_store at_instant Nat.add].

(** ** The webhook handler, step by step *)

Section HandlerSteps.
Context {S : Type} (createStripeClient : string -> Stripe).
Implicit Types (options : Webhook.CreateWebhookHandlerOptions (S := S))
  (request : Webhook.NextRequest) (w : World S) (event : WebhookEvent).

Local Abbreviation handler := (Webhook.createWebhookHandler createStripeClient).
Local Abbreviation process := (Webhook.process createStripeClient).

Lemma logged_nil w : logged [] w = w.
Proof. destruct w. unfold logged. simpl. by rewrite app_nil_r. Qed.

Lemma run_call_if_configured {A : Type} (f : option (A -> Result unit))
    (ev : A -> Event) (arg : A) w :
  Webhook.call_if_configured f ev arg w
  = (match f with Some f => f arg | None => Ok tt end,
     logged (call_events f ev arg) w).
Proof.
  destruct f; simpl; [apply run_invoke|]. by rewrite logged_nil.
Qed.

Lemma run_fetchLatestCheckoutSession stripe sessionId w :
  Webhook.fetchLatestCheckoutSession stripe sessionId w
  = (match checkout_sessions_retrieve stripe (ticks w) sessionId with
     | Resolved raw => Ok (Webhook.toCheckoutSession raw)
     | Rejected e => Throw (Foreign e)
     end, called 1 (logged [EvStripe (CheckoutSessionsRetrieve sessionId)] w)).
Proof.
  unfold Webhook.fetchLatestCheckoutSession.
  rewrite run_bind, run_stripe_call.
  by destruct (checkout_sessions_retrieve stripe (ticks w) sessionId).
Qed.

Lemma run_fetchLatestSubscription stripe subscriptionId w :
  Webhook.fetchLatestSubscription stripe subscriptionId w
  = (match subscriptions_retrieve stripe (ticks w) subscriptionId with
     | Resolved raw => Ok (Webhook.toSubscription raw)
     | Rejected e => Throw (Foreign e)
     end, called 1 (logged [EvStripe (SubscriptionsRetrieve subscriptionId)] w)).
Proof.
  unfold Webhook.fetchLatestSubscription.
  rewrite run_bind, run_stripe_call.
  by destruct (subscriptions_retrieve stripe (ticks w) subscriptionId).
Qed.

Lemma run_fetchLatestCustomer stripe customerId w :
  Webhook.fetchLatestCustomer stripe customerId w
  = (match customers_retrieve stripe (ticks w) customerId with
     | Resolved raw =>
         if raw_cus_deleted raw then
           Throw (PaymentError
                    ("Customer " +:+ customerId +:+ " has been deleted")
                    ErrorCodes.CUSTOMER_NOT_FOUND 404)
         else Ok (Webhook.toCustomer raw)
     | Rejected e => Throw (Foreign e)
     end, called 1 (logged [EvStripe (CustomersRetrieve customerId)] w)).
Proof.
  unfold Webhook.fetchLatestCustomer.
  rewrite run_bind, run_stripe_call.
  destruct (customers_retrieve stripe (ticks w) customerId) as [raw|e]; [|done].
  by destruct (raw_cus_deleted raw).
Qed.

Lemma run_process options event w :
  process options event w
  = match Config.loadStripeConfig None (env w) with
    | Ok config =>
        Webhook.dispatch options (createStripeClient (Config.secretKey config))
          event w
    | Throw e => (Throw e, w)
    end.
Proof.
  unfold Webhook.process. rewrite run_bind. unfold read_env.
  rewrite run_bind. unfold lift.
  by destruct (Config.loadStripeConfig None (env w)).
Qed.

(** A [POST] whose signature the provider accepts: the handler runs
    steps 4 and 5 and answers by their outcome. *)
Lemma handler_verified options request w signature event :
  Webhook.method request = "POST" ->
  Webhook.headers request !! "stripe-signature" = Some signature ->
  signature <> EmptyString ->
  provider_verifyWebhook (Webhook.provider options) (Webhook.text request) signature
  = Ok event ->
  handler options request w
  = match process options event
            (logged [EvVerifyWebhook (Webhook.text request) signature] w) with
    | (Ok _, w1) => (Ok (Webhook.json (Webhook.Received None) 200), w1)
    | (Throw e, w1) =>
        (Ok (caught e), logged [EvConsoleError "Webhook handler error:" e] w1)
    end.
Proof.
  intros Hmethod Hheader Hsig Hverify.
  unfold Webhook.createWebhookHandler.
  rewrite Hmethod, Hheader, String.eqb_refl. cbn [negb].
  destruct signature as [|c sig]; [done|].
  rewrite run_try_catch, run_bind.
  unfold Webhook.verify at 1. rewrite run_try_catch, run_bind, run_invoke, Hverify.
  rewrite run_ret, run_bind.
  destruct (process options event _) as [[[]|e] w1]; [done|].
  rewrite run_bind, run_emit. by destruct e.
Qed.

(** A [POST] whose signature the provider refuses with a
    [WebhookError]: 401 with the code of the error. *)
Lemma handler_rejected options request w signature message code :
  Webhook.method request = "POST" ->
  Webhook.headers request !! "stripe-signature" = Some signature ->
  signature <> EmptyString ->
  provider_verifyWebhook (Webhook.provider options) (Webhook.text request) signature
  = Throw (WebhookError message code) ->
  handler options request w
  = (Ok (Webhook.json (Webhook.ErrorBody code (Some message)) 401),
     logged [EvVerifyWebhook (Webhook.text request) signature;
             EvConsoleError "Webhook signature verification failed:"
               (WebhookError message code)] w).
Proof.
  intros Hmethod Hheader Hsig Hverify.
  unfold Webhook.createWebhookHandler.
  rewrite Hmethod, Hheader, String.eqb_refl. cbn [negb].
  destruct signature as [|c sig]; [done|].
  rewrite run_try_catch, run_bind.
  unfold Webhook.verify at 1. rewrite run_try_catch, run_bind, run_invoke, Hverify.
  rewrite run_bind, run_emit, run_ret, run_ret. by rewrite logged_logged.
Qed.

End HandlerSteps.

Section FailClosed.
Context {S : Type} (createStripeClient : string -> Stripe).

(** C2 — a [POST] without a [stripe-signature] header is answered 401
    with the error [Missing signature], and nothing else happens: the
    world is the one before the request, so no cache operation and no
    call of the provider was made, and the state of the cache is
    unchanged. *)
Theorem missing_signature_rejected
    (options : Webhook.CreateWebhookHandlerOptions (S := S))
    (request : Webhook.NextRequest) (w : World S) :
  Webhook.method request = "POST" ->
  Webhook.headers request !! "stripe-signature" = None ->
  Webhook.createWebhookHandler createStripeClient options request w
  = (Ok (Webhook.json
           (Webhook.ErrorBody "Missing signature"
              (Some "stripe-signature header is required")) 401), w).
Proof.
  intros Hmethod Hheader.
  unfold Webhook.createWebhookHandler.
  by rewrite Hmethod, Hheader, String.eqb_refl.
Qed.

End FailClosed.

Lemma missing_signature_rejected_witness :
  Webhook.createWebhookHandler Sample.createStripeClient
    (Scenario.options Sample.stripe None None)
    (Scenario.post "deleted" None) Scenario.world
  = (Ok (Webhook.json
           (Webhook.ErrorBody "Missing signature"
              (Some "stripe-signature header is required")) 401),
     Scenario.world).
Proof.
  apply missing_signature_rejected; reflexivity.
Defined.

(** ** Subscription events *)

Section MemoryCache.
Implicit Types (w : World (gmap string (Memory.StorageEntry Value))).

Lemma run_cache_set_memory key v ttlSeconds w :
  cache_set createMemoryAdapter key v ttlSeconds w
  = (Ok tt,
     logged [EvCacheSet key v ttlSeconds]
       (with_store (Memory.set key v ttlSeconds (clock w) (store w)) w)).
Proof. reflexivity. Qed.

Lemma run_cache_get_memory key w :
  cache_get createMemoryAdapter key w
  = (Ok (Memory.get key (clock w) (store w)).1,
     logged [EvCacheGet key]
       (with_store (Memory.get key (clock w) (store w)).2 w)).
Proof.
  unfold cache_get. simpl.
  by destruct (Memory.get key (clock w) (store w)).
Qed.

End MemoryCache.

Section CacheRuns.
Context {S : Type} (cache : KVAdapter S).
Implicit Types w : World S.

Lemma run_cache_get key w r s' :
  kv_get cache key (clock w) (store w) = (r, s') ->
  cache_get cache key w = (r, logged [EvCacheGet key] (with_store s' w)).
Proof. intros Hget. unfold cache_get. by rewrite Hget. Qed.

Lemma run_cache_set key v ttlSeconds w r s' :
  kv_set cache key v ttlSeconds (clock w) (store w) = (r, s') ->
  cache_set cache key v ttlSeconds w
  = (r, logged [EvCacheSet key v ttlSeconds] (with_store s' w)).
Proof. intros Hset. unfold cache_set. by rewrite Hset. Qed.

End CacheRuns.

Section CanceledSubscription.
Context {S : Type} (createStripeClient : string -> Stripe).
Implicit Types (options : Webhook.CreateWebhookHandlerOptions (S := S))
  (w : World S).

(** C6, with the conditions it needs — a [POST] with an accepted
    signature for [customer.subscription.deleted] or
    [customer.subscription.canceled] whose payload names subscription
    [S], received where the configuration of the environment loads, the
    provider answers the request for [S], the write to the cache does
    not throw and the sync callback, if there is one, does not throw.
    Then, for every cache adapter: the handler makes one request to the
    provider, for [S]; it writes the subscription made of the answer
    (the fields of the answer, its times in milliseconds, its customer
    as an id) with 86400 seconds to live, under [subscription:] followed
    by the id of the answer, which is [subscription:<S>] when the
    provider answers with the subscription it was asked for; it calls
    the sync callback, if any, and then [onSubscriptionCanceled], if
    configured, once, both with that subscription; and it answers 200
    [{received: true}] when the user handler returns or is absent.
    When the user handler throws, the error is logged and answered like
    every error after verification (200 with the note [Handler error
    logged], unless it is a [WebhookError]). *)
Theorem canceled_subscription_cached_for_a_day
    options (request : Webhook.NextRequest) w signature event config raw :
  Webhook.method request = "POST" ->
  Webhook.headers request !! "stripe-signature" = Some signature ->
  signature <> EmptyString ->
  provider_verifyWebhook (Webhook.provider options) (Webhook.text request) signature
  = Ok event ->
  event_type event = "customer.subscription.deleted"
  \/ event_type event = "customer.subscription.canceled" ->
  Config.loadStripeConfig None (env w) = Ok config ->
  subscriptions_retrieve (createStripeClient (Config.secretKey config)) (ticks w)
    (data_id (event_data event)) = Resolved raw ->
  let subscription := {|
    sub_id := raw_sub_id raw;
    sub_customerId := default "" (expandable_id (raw_sub_customer raw));
    sub_status := raw_sub_status raw;
    sub_currentPeriodEnd := raw_sub_current_period_end raw * 1000;
    sub_currentPeriodStart := raw_sub_current_period_start raw * 1000;
    sub_cancelAtPeriodEnd := raw_sub_cancel_at_period_end raw;
    sub_items :=
      map (fun item => {| item_id := raw_item_id item;
                          item_priceId := raw_item_price_id item;
                          item_quantity := default 1 (raw_item_quantity item) |})
        (raw_sub_items raw);
    sub_metadata := raw_sub_metadata raw;
    sub_createdAt := Some (raw_sub_created raw * 1000)
  |} in
  let key := "subscription:" +:+ raw_sub_id raw in
  let written :=
    kv_set (Webhook.cache options) key (VSubscription subscription) (Some 86400)
      (clock w) (store w) in
  let onSync := Webhook.sync options ≫= sync_onSubscriptionCanceled in
  let onCanceled := Webhook.handlers options ≫= Webhook.onSubscriptionCanceled in
  written.1 = Ok tt ->
  (forall f, onSync = Some f -> f subscription = Ok tt) ->
  let outcome := match onCanceled with
                 | Some f => f subscription
                 | None => Ok tt
                 end in
  let events :=
    ([EvVerifyWebhook (Webhook.text request) signature;
      EvStripe (SubscriptionsRetrieve (data_id (event_data event)));
      EvCacheSet key (VSubscription subscription) (Some 86400)]
     ++ call_events onSync (fun s => EvSync (SyncSubscriptionCanceled s))
          subscription
     ++ call_events onCanceled (fun s => EvHandler (SubscriptionCanceled s))
          subscription
     ++ match outcome with
        | Ok _ => []
        | Throw error => [EvConsoleError "Webhook handler error:" error]
        end)%list in
  Webhook.createWebhookHandler createStripeClient options request w
  = (Ok match outcome with
        | Ok _ => Webhook.json (Webhook.Received None) 200
        | Throw error => caught error
        end,
     {| clock := clock w; env := env w; store := written.2;
        ticks := Datatypes.S (ticks w); trace := (trace w ++ events)%list |})
  /\ stripe_calls events = [SubscriptionsRetrieve (data_id (event_data event))]
  /\ sync_calls events
     = match onSync with
       | Some _ => [SyncSubscriptionCanceled subscription]
       | None => []
       end
  /\ handler_calls events
     = match onCanceled with
       | Some _ => [SubscriptionCanceled subscription]
       | None => []
       end
  /\ (raw_sub_id raw = data_id (event_data event) ->
      key = "subscription:" +:+ data_id (event_data event)).
Proof.
  intros Hmethod Hheader Hsig Hverify Htype Hconfig Hfetch subscription key
    written onSync onCanceled Hwritten Hsync outcome events.
  assert (Hset : kv_set (Webhook.cache options) key (VSubscription subscription)
                   (Some 86400) (clock w) (store w) = (Ok tt, written.2)).
  { subst written.
    destruct (kv_set (Webhook.cache options) key (VSubscription subscription)
                (Some 86400) (clock w) (store w)) as [r s'].
    simpl in Hwritten. by subst r. }
  split; [|split; [|split; [|split]]].
  - rewrite (handler_verified _ _ _ _ _ _ Hmethod Hheader Hsig Hverify).
    rewrite run_process. cbn [env logged]. rewrite Hconfig.
    assert (Hbranch :
      Webhook.dispatch options (createStripeClient (Config.secretKey config)) event
      = Webhook.customer_subscription_canceled options
          (createStripeClient (Config.secretKey config)) event)
      by (unfold Webhook.dispatch; by destruct Htype as [-> | ->]).
    rewrite Hbranch. unfold Webhook.customer_subscription_canceled.
    rewrite run_bind, run_fetchLatestSubscription. cbn [ticks logged].
    rewrite Hfetch.
    change (Webhook.toSubscription raw) with subscription.
    change ("subscription:" +:+ sub_id subscription) with key.
    rewrite run_bind, (run_cache_set _ _ _ _ _ (Ok tt) written.2) by exact Hset.
    rewrite run_bind, !run_call_if_configured.
    fold onSync onCanceled.
    subst events outcome. unfold logged, called, with_store. cbn.
    destruct onSync as [f|] eqn:Hf.
    + rewrite (Hsync f eq_refl).
      destruct onCanceled as [g|]; [destruct (g subscription)|];
        cbn; rewrite <- ?app_assoc; reflexivity.
    + destruct onCanceled as [g|]; [destruct (g subscription)|];
        cbn; rewrite <- ?app_assoc; reflexivity.
  - subst events. destruct onSync, onCanceled; subst outcome; cbn;
      try reflexivity;
      match goal with
      | |- context [match ?g subscription with _ => _ end] =>
          by destruct (g subscription)
      end.
  - subst events. destruct onSync, onCanceled; subst outcome; cbn;
      try reflexivity;
      match goal with
      | |- context [match ?g subscription with _ => _ end] =>
          by destruct (g subscription)
      end.
  - subst events. destruct onSync, onCanceled; subst outcome; cbn;
      try reflexivity;
      match goal with
      | |- context [match ?g subscription with _ => _ end] =>
          by destruct (g subscription)
      end.
  - intros Hid. subst key. by rewrite Hid.
Qed.

End CanceledSubscription.

Section ActiveSubscription.
Variable createStripeClient : string -> Stripe.
Implicit Types
  (options : Webhook.CreateWebhookHandlerOptions
               (S := gmap string (Memory.StorageEntry Value)))
  (w : World (gmap string (Memory.StorageEntry Value))).

(** For comparison: a created or updated subscription is written with
    3600 seconds to live.  (The index entry [subscription:customer:<c>]
    is written after it; the two keys differ unless the id of the
    subscription itself starts with [customer:].) *)
Lemma active_subscription_cached_for_an_hour
    options (request : Webhook.NextRequest) w signature event config raw :
  Webhook.method request = "POST" ->
  Webhook.headers request !! "stripe-signature" = Some signature ->
  signature <> EmptyString ->
  provider_verifyWebhook (Webhook.provider options) (Webhook.text request) signature
  = Ok event ->
  event_type event = "customer.subscription.created"
  \/ event_type event = "customer.subscription.updated" ->
  Config.loadStripeConfig None (env w) = Ok config ->
  subscriptions_retrieve (createStripeClient (Config.secretKey config)) (ticks w)
    (data_id (event_data event)) = Resolved raw ->
  Webhook.cache options = createMemoryAdapter ->
  "subscription:customer:" +:+ sub_customerId (Webhook.toSubscription raw)
  <> "subscription:" +:+ raw_sub_id raw ->
  exists r w',
    Webhook.createWebhookHandler createStripeClient options request w = (r, w')
    /\ store w' !! ("subscription:" +:+ raw_sub_id raw)
       = Some {| Memory.value := VSubscription (Webhook.toSubscription raw);
                 Memory.expiresAt := Some (clock w + 3600 * 1000) |}.
Proof.
  intros Hmethod Hheader Hsig Hverify Htype Hconfig Hfetch Hcache Hkeys.
  rewrite (handler_verified _ _ _ _ _ _ Hmethod Hheader Hsig Hverify).
  rewrite run_process. cbn [env logged]. rewrite Hconfig.
  assert (Hstore : forall r1 w1,
    Webhook.dispatch options (createStripeClient (Config.secretKey config)) event
      (logged [EvVerifyWebhook (Webhook.text request) signature] w) = (r1, w1) ->
    store w1 !! ("subscription:" +:+ raw_sub_id raw)
    = Some {| Memory.value := VSubscription (Webhook.toSubscription raw);
              Memory.expiresAt := Some (clock w + 3600 * 1000) |}).
  { intros r1 w1. unfold Webhook.dispatch.
    assert (Hentry : forall (f : option (Subscription -> Result unit)) ev g ev',
      (Webhook.call_if_configured f ev (Webhook.toSubscription raw)
       ≫= λ _, Webhook.call_if_configured g ev' (Webhook.toSubscription raw))
        (logged [EvCacheSet ("subscription:customer:"
                             +:+ sub_customerId (Webhook.toSubscription raw))
                   (VString (raw_sub_id raw)) (Some 3600)]
           (with_store
              (Memory.set ("subscription:customer:"
                           +:+ sub_customerId (Webhook.toSubscription raw))
                 (VString (raw_sub_id raw)) (Some 3600) (clock w)
                 (Memory.set ("subscription:" +:+ raw_sub_id raw)
                    (VSubscription (Webhook.toSubscription raw)) (Some 3600)
                    (clock w) (store w)))
              (logged [EvCacheSet ("subscription:" +:+ raw_sub_id raw)
                         (VSubscription (Webhook.toSubscription raw)) (Some 3600)]
                 (called 1
                    (logged [EvStripe (SubscriptionsRetrieve
                                         (data_id (event_data event)))]
                       (logged [EvVerifyWebhook (Webhook.text request) signature]
                          w)))))) = (r1, w1) ->
      store w1 !! ("subscription:" +:+ raw_sub_id raw)
      = Some {| Memory.value := VSubscription (Webhook.toSubscription raw);
                Memory.expiresAt := Some (clock w + 3600 * 1000) |}).
    { intros f ev g ev'. rewrite run_bind, !run_call_if_configured.
      assert (Hkeep :
        Memory.set ("subscription:customer:"
                    +:+ sub_customerId (Webhook.toSubscription raw))
          (VString (raw_sub_id raw)) (Some 3600) (clock w)
          (Memory.set ("subscription:" +:+ raw_sub_id raw)
             (VSubscription (Webhook.toSubscription raw)) (Some 3600)
             (clock w) (store w))
        !! ("subscription:" +:+ raw_sub_id raw)
        = Some {| Memory.value := VSubscription (Webhook.toSubscription raw);
                  Memory.expiresAt := Some (clock w + 3600 * 1000) |}).
      { rewrite set_lookup_ne by exact Hkeys. by apply set_lookup_ttl. }
      destruct f as [f|]; [destruct (f _)|]; intros [= <- <-]; exact Hkeep. }
    destruct Htype as [-> | ->]; simpl;
      [unfold Webhook.customer_subscription_created
      |unfold Webhook.customer_subscription_updated];
      rewrite run_bind, run_fetchLatestSubscription; cbn [ticks logged];
      rewrite Hfetch, Hcache;
      rewrite run_bind, run_cache_set_memory, run_bind, run_cache_set_memory;
      apply Hentry. }
  destruct (Webhook.dispatch _ _ _ _) as [[[]|e] w1] eqn:Hrun;
    eexists; eexists; (split; [reflexivity|]); cbn [store logged];
    by eapply Hstore.
Qed.

End ActiveSubscription.

(** Over the in-memory adapter, with a sync adapter and user handlers
    that return: the subscription the provider reports as canceled is in
    the cache until 86400000 ms after the write, and the user handler was
    called once, with it. *)
Lemma canceled_subscription_witness :
  exists w',
    Scenario.deleted_run = (Ok (Webhook.json (Webhook.Received None) 200), w')
    /\ stripe_calls (trace w') = [SubscriptionsRetrieve "sub_1"]
    /\ handler_calls (trace w')
       = [SubscriptionCanceled (Webhook.toSubscription Sample.subscription_sub_1)]
    /\ sub_status (Webhook.toSubscription Sample.subscription_sub_1) = "canceled"
    /\ store w' !! "subscription:sub_1"
       = Some {| Memory.value :=
                   VSubscription (Webhook.toSubscription Sample.subscription_sub_1);
                 Memory.expiresAt := Some 1700086400000 |}.
Proof.
  destruct (canceled_subscription_cached_for_a_day Sample.createStripeClient
              (Scenario.options Sample.stripe
                 (Some (Scenario.all_sync (@Scenario.succeeds)))
                 (Some (Scenario.all_handlers (@Scenario.succeeds))))
              (Scenario.post "deleted" (Some "valid")) Scenario.world "valid"
              Scenario.deleted_event Scenario.provider_config
              Sample.subscription_sub_1)
    as (Hrun & Hstripe & _ & Hcalls & _).
  - reflexivity.
  - reflexivity.
  - discriminate.
  - reflexivity.
  - by left.
  - reflexivity.
  - reflexivity.
  - reflexivity.
  - intros f [= <-]. reflexivity.
  - eexists. split; [exact Hrun|]. repeat split; reflexivity.
Defined.

(** C6, as stated, fails: a [POST] with an accepted signature for
    [customer.subscription.deleted] is not always followed by the
    re-fetch, the write and the call.  Where the environment holds no
    secret key, the handler asks the provider for nothing, writes
    nothing and calls no handler; and when the user handler throws, it
    has been called and the subscription is cached, but the body of the
    answer is not [{received: true}]. *)
Lemma canceled_subscription_needs_more :
  Scenario.deleted_without_key.1
  = Ok (Webhook.json (Webhook.Received (Some "Handler error logged")) 200)
  /\ stripe_calls (trace Scenario.deleted_without_key.2) = []
  /\ store Scenario.deleted_without_key.2 !! "subscription:sub_1" = None
  /\ handler_calls (trace Scenario.deleted_without_key.2) = []
  /\ (Scenario.deleted_with_failing_handler Scenario.database_down).1
     = Ok (Webhook.json (Webhook.Received (Some "Handler error logged")) 200)
  /\ handler_calls
       (trace (Scenario.deleted_with_failing_handler Scenario.database_down).2)
     = [SubscriptionCanceled (Webhook.toSubscription Sample.subscription_sub_1)]
  /\ Webhook.json (Webhook.Received (Some "Handler error logged")) 200
     <> Webhook.json (Webhook.Received None) 200.
Proof.
  repeat split; try (vm_compute; reflexivity). discriminate.
Qed.

(** ** What the handler records and throws, on every path *)

Section HandlerTriples.
Context {S : Type}.
Implicit Types (options : Webhook.CreateWebhookHandlerOptions (S := S))
  (P : Event -> Prop) (Qe : JsError -> Prop).

Lemma triple_call_if_configured {A : Type} (f : option (A -> Result unit))
    (ev : A -> Event) (arg : A) P Qe :
  (forall g, f = Some g ->
             P (ev arg) /\ match g arg with Ok _ => True | Throw e => Qe e end) ->
  triple (Webhook.call_if_configured (S := S) f ev arg) P (fun _ => True) Qe.
Proof.
  intros Hf. unfold Webhook.call_if_configured. destruct f as [g|].
  - destruct (Hf g eq_refl) as [Hev Hg]. apply triple_invoke; [done|].
    by destruct (g arg).
  - by apply triple_ret.
Qed.

Lemma triple_fetchLatestCheckoutSession stripe sessionId P Qe :
  P (EvStripe (CheckoutSessionsRetrieve sessionId)) ->
  (forall e, Qe (Foreign e)) ->
  triple (Webhook.fetchLatestCheckoutSession (S := S) stripe sessionId) P
    (fun session =>
       exists t raw, checkout_sessions_retrieve stripe t sessionId = Resolved raw
                     /\ session = Webhook.toCheckoutSession raw) Qe.
Proof.
  intros Hev He. unfold Webhook.fetchLatestCheckoutSession.
  eapply triple_bind; [by apply triple_stripe_call|].
  intros raw [t Ht]. apply triple_ret. eauto.
Qed.

Lemma triple_fetchLatestSubscription stripe subscriptionId P Qe :
  P (EvStripe (SubscriptionsRetrieve subscriptionId)) ->
  (forall e, Qe (Foreign e)) ->
  triple (Webhook.fetchLatestSubscription (S := S) stripe subscriptionId) P
    (fun subscription =>
       exists t raw, subscriptions_retrieve stripe t subscriptionId = Resolved raw
                     /\ subscription = Webhook.toSubscription raw) Qe.
Proof.
  intros Hev He. unfold Webhook.fetchLatestSubscription.
  eapply triple_bind; [by apply triple_stripe_call|].
  intros raw [t Ht]. apply triple_ret. eauto.
Qed.

Lemma triple_fetchLatestCustomer stripe customerId P Qe :
  P (EvStripe (CustomersRetrieve customerId)) ->
  (forall e, Qe (Foreign e)) ->
  (forall message code statusCode, Qe (PaymentError message code statusCode)) ->
  triple (Webhook.fetchLatestCustomer (S := S) stripe customerId) P
    (fun customer =>
       exists t raw, customers_retrieve stripe t customerId = Resolved raw
                     /\ customer = Webhook.toCustomer raw) Qe.
Proof.
  intros Hev He Hp. unfold Webhook.fetchLatestCustomer.
  eapply triple_bind; [by apply triple_stripe_call|].
  intros raw [t Ht]. destruct (raw_cus_deleted raw).
  - by apply triple_throw.
  - apply triple_ret. eauto.
Qed.

End HandlerTriples.

(** One step of a proof of a [triple], by the shape of the computation. *)
Ltac triple_step :=
  lazymatch goal with
  | |- triple (mbind _ (cache_set _ _ _ _)) _ _ _ =>
      eapply triple_bind; [apply triple_cache_set | intros _ _]
  | |- triple (mbind _ (Webhook.call_if_configured _ _ _)) _ _ _ =>
      eapply triple_bind; [apply triple_call_if_configured | intros _ _]
  | |- triple (mbind _ (Webhook.fetchLatestCustomer _ _)) _ _ _ =>
      eapply triple_bind;
      [apply triple_fetchLatestCustomer | intros ? (? & ? & ? & ->)]
  | |- triple (mbind _ (Webhook.fetchLatestSubscription _ _)) _ _ _ =>
      eapply triple_bind;
      [apply triple_fetchLatestSubscription | intros ? (? & ? & ? & ->)]
  | |- triple (mbind _ (Webhook.fetchLatestCheckoutSession _ _)) _ _ _ =>
      eapply triple_bind;
      [apply triple_fetchLatestCheckoutSession | intros ? (? & ? & ? & ->)]
  | |- triple (mbind _ _) _ _ _ =>
      eapply (triple_bind _ _ _ (fun _ => True)); [| intros _ _]
  | |- triple (cache_set _ _ _ _) _ _ _ => apply triple_cache_set
  | |- triple (Webhook.call_if_configured _ _ _) _ _ _ =>
      apply triple_call_if_configured
  | |- triple (invoke _ _) _ _ _ => apply triple_invoke
  | |- triple (emit _) _ _ _ => apply triple_emit
  | |- triple (mret _) _ _ _ => by apply triple_ret
  | |- triple (match ?x with _ => _ end) _ _ _ => destruct x eqn:?
  end.

Section ErrorsAfterVerification.
Context {S : Type} (createStripeClient : string -> Stripe).
Implicit Types (options : Webhook.CreateWebhookHandlerOptions (S := S)).

Local Abbreviation no_WebhookError :=
  (fun e : JsError => instanceof_WebhookError e = false).

(** Steps 4 and 5 throw a [WebhookError] only if the cache adapter or a
    callback does. *)
Lemma process_throws_no_WebhookError options event :
  cache_without_WebhookError (Webhook.cache options) ->
  callbacks_without_WebhookError options ->
  triple (Webhook.process createStripeClient options event)
    (fun _ => True) (fun _ => True) no_WebhookError.
Proof.
  intros Hcache (Hs1 & Hs2 & Hs3 & Hh1 & Hh2 & Hh3 & Hh4).
  assert (Hset : forall key v ttlSeconds now s e s',
             kv_set (Webhook.cache options) key v ttlSeconds now s = (Throw e, s') ->
             instanceof_WebhookError e = false).
  { intros key v ttlSeconds now s e s' Hrun.
    specialize (Hcache key v ttlSeconds now s). by rewrite Hrun in Hcache. }
  assert (Hcall : forall (A : Type) (f : option (A -> Result unit)) (a : A),
             (forall g x, f = Some g -> never_WebhookError (g x)) ->
             forall g, f = Some g ->
               True /\ match g a with
                       | Ok _ => True
                       | Throw e => instanceof_WebhookError e = false
                       end).
  { intros A f a Hf g Hg. split; [done|]. specialize (Hf g a Hg).
    by destruct (g a). }
  unfold Webhook.process.
  eapply triple_bind; [by apply triple_read_env with (Qa := fun _ => True)|].
  intros environment _.
  eapply triple_bind.
  { apply triple_lift with (Qa := fun _ => True).
    destruct (Config.loadStripeConfig None environment) as [config|e] eqn:Hload;
      [done|].
    by destruct (loadStripeConfig_Throw _ _ _ Hload) as [msg ->]. }
  intros config _. cbv zeta.
  unfold Webhook.dispatch.
  repeat (lazymatch goal with
          | |- triple (if ?b then _ else _) _ _ _ => destruct b
          end).
  - unfold Webhook.checkout_session_completed.
    triple_step; [done | done |].
    triple_step; [done | eauto |].
    triple_step.
    { repeat triple_step; try done.
      unfold Webhook.cache_customer.
      repeat triple_step; try done; eauto. }
    triple_step.
    { repeat triple_step; try done.
      match goal with
      | |- match ?g ?c with _ => _ end =>
          pose proof (Hs1 g c eq_refl) as Hn; by destruct (g c)
      end. }
    triple_step. by apply Hcall.
  - unfold Webhook.customer_subscription_created.
    repeat triple_step; try done; eauto.
  - unfold Webhook.customer_subscription_updated.
    repeat triple_step; try done; eauto.
  - unfold Webhook.customer_subscription_canceled.
    repeat triple_step; try done; eauto.
  - by apply triple_emit.
Qed.

(** C3, as the code has it — a [POST] whose signature the provider
    accepts, with a cache adapter and callbacks that throw anything but
    a [WebhookError]: whatever steps 4 and 5 do, the answer is 200 and
    says [received: true]; it is [{received: true}] when they complete
    and [{received: true, error: 'Handler error logged'}] when one of
    them (the configuration, a re-fetch, a cache write, the sync
    callback, the user handler) throws. *)
Theorem failures_after_verification_acknowledged
    options (request : Webhook.NextRequest) (w : World S) signature event :
  Webhook.method request = "POST" ->
  Webhook.headers request !! "stripe-signature" = Some signature ->
  signature <> EmptyString ->
  provider_verifyWebhook (Webhook.provider options) (Webhook.text request) signature
  = Ok event ->
  cache_without_WebhookError (Webhook.cache options) ->
  callbacks_without_WebhookError options ->
  exists w',
    Webhook.createWebhookHandler createStripeClient options request w
    = (Ok (acknowledgement
             (Webhook.process createStripeClient options event
                (logged [EvVerifyWebhook (Webhook.text request) signature] w)).1),
       w').
Proof.
  intros Hmethod Hheader Hsig Hverify Hcache Hcallbacks.
  rewrite (handler_verified _ _ _ _ _ _ Hmethod Hheader Hsig Hverify).
  destruct (Webhook.process createStripeClient options event _)
    as [[[]|e] w1] eqn:Hrun; [by eexists|].
  destruct (process_throws_no_WebhookError options event Hcache Hcallbacks
              _ _ _ Hrun) as [_ He].
  eexists. simpl. by destruct e.
Qed.

End ErrorsAfterVerification.

Lemma memory_adapter_throws_nothing : cache_without_WebhookError createMemoryAdapter.
Proof. by intros key v ttlSeconds now s. Qed.

Lemma failures_after_verification_witness :
  exists w',
    Scenario.checkout_with_failing_handler Scenario.database_down
    = (Ok (Webhook.json (Webhook.Received (Some "Handler error logged")) 200), w').
Proof.
  destruct (failures_after_verification_acknowledged Sample.createStripeClient
              (Scenario.options Sample.stripe None
                 (Some (Scenario.all_handlers
                       (fun A => @Scenario.throws A Scenario.database_down))))
              (Scenario.post "checkout" (Some "valid")) Scenario.world "valid"
              {| event_id := "evt_1"; event_type := "checkout.session.completed";
                 event_data := {| data_id := "cs_1";
                                  data_fields := {["status" := "active"]} |};
                 event_created := 1700000001000 |})
    as [w' Hrun].
  - reflexivity.
  - reflexivity.
  - discriminate.
  - reflexivity.
  - exact memory_adapter_throws_nothing.
  - repeat split; intros f x Hf; try discriminate Hf;
      injection Hf as <-; reflexivity.
  - exists w'. exact Hrun.
Defined.

(** C3, as stated, fails: after an accepted signature, a user handler
    that throws gets the body [{received: true, error: 'Handler error
    logged'}], which is not [{received: true}]. *)
Lemma failing_handler_changes_the_body :
  (Scenario.checkout_with_failing_handler Scenario.database_down).1
  = Ok (Webhook.json (Webhook.Received (Some "Handler error logged")) 200)
  /\ handler_calls
       (trace (Scenario.checkout_with_failing_handler Scenario.database_down).2)
     = [CheckoutComplete (Webhook.toCheckoutSession Sample.session_cs_1)]
  /\ Webhook.json (Webhook.Received (Some "Handler error logged")) 200
     <> Webhook.json (Webhook.Received None) 200.
Proof.
  split; [vm_compute; reflexivity|]. split; [vm_compute; reflexivity|discriminate].
Qed.

(** A user handler that throws a [WebhookError] after the signature was
    accepted is answered 401. *)
Lemma handler_WebhookError_answered_401 :
  (Scenario.checkout_with_failing_handler Scenario.stale_event).1
  = Ok (Webhook.json
          (Webhook.ErrorBody ErrorCodes.WEBHOOK_SIGNATURE_INVALID
             (Some "event is stale")) 401).
Proof. vm_compute. reflexivity. Qed.

(** In the branch of [customer.subscription.created], over any cache
    adapter whose writes succeed: a sync callback that throws ends the
    branch with its error, and the user handler is not called. *)
Lemma sync_failure_ends_the_branch {S : Type}
    (options : Webhook.CreateWebhookHandlerOptions (S := S)) stripe event w raw
    onSubscriptionUpdated error r w' :
  subscriptions_retrieve stripe (ticks w) (data_id (event_data event)) = Resolved raw ->
  Webhook.sync options ≫= sync_onSubscriptionUpdated = Some onSubscriptionUpdated ->
  onSubscriptionUpdated (Webhook.toSubscription raw) = Throw error ->
  Webhook.customer_subscription_created options stripe event w = (r, w') ->
  (forall key v ttlSeconds now s,
     is_Ok (kv_set (Webhook.cache options) key v ttlSeconds now s).1 = true) ->
  r = Throw error
  /\ exists evs, trace w' = (trace w ++ evs)%list
                 /\ sync_calls evs = [SyncSubscriptionUpdated (Webhook.toSubscription raw)]
                 /\ handler_calls evs = [].
Proof.
  intros Hfetch Hsync Hthrow Hrun Hcache.
  unfold Webhook.customer_subscription_created in Hrun.
  rewrite run_bind, run_fetchLatestSubscription, Hfetch in Hrun.
  rewrite run_bind in Hrun. unfold cache_set at 1 in Hrun.
  match type of Hrun with
  | context [kv_set ?c ?k ?v ?t ?now ?s] =>
      pose proof (Hcache k v t now s) as Hset1;
      destruct (kv_set c k v t now s) as [[[]|e1] s1]; [|discriminate]
  end.
  rewrite run_bind in Hrun. unfold cache_set at 1 in Hrun.
  match type of Hrun with
  | context [kv_set ?c ?k ?v ?t ?now ?s] =>
      pose proof (Hcache k v t now s) as Hset2;
      destruct (kv_set c k v t now s) as [[[]|e2] s2]; [|discriminate]
  end.
  rewrite run_bind, run_call_if_configured, Hsync, Hthrow in Hrun.
  injection Hrun as <- <-. split; [done|].
  cbn [trace logged called call_events]. eexists.
  split; [by rewrite <- !app_assoc|]. by split.
Qed.

(** C4 at a failing input — [customer.subscription.created] with a sync
    callback that throws and a user handler that would succeed: the sync
    adapter is called with the fetched subscription, the error reaches the
    outer [catch], the user handler is never called, and the answer is 200
    with the error note. *)
Lemma sync_failure_skips_user_handler :
  Scenario.created_with_failing_sync.1
  = Ok (Webhook.json (Webhook.Received (Some "Handler error logged")) 200)
  /\ sync_calls (trace Scenario.created_with_failing_sync.2)
     = [SyncSubscriptionUpdated (Webhook.toSubscription Sample.subscription_sub_1)]
  /\ handler_calls (trace Scenario.created_with_failing_sync.2) = []
  /\ last (trace Scenario.created_with_failing_sync.2)
     = Some (EvConsoleError "Webhook handler error:" Scenario.database_down).
Proof.
  repeat split; vm_compute; reflexivity.
Qed.

(** ** After the write of the checkout session *)

Lemma refetch_error_caught stripe t customerId error :
  refetch_error stripe t customerId = Some error ->
  caught error = Webhook.json (Webhook.Received (Some "Handler error logged")) 200.
Proof.
  unfold refetch_error.
  destruct (customers_retrieve stripe t customerId) as [raw|e].
  - destruct (raw_cus_deleted raw); [|discriminate]. by intros [= <-].
  - by intros [= <-].
Qed.

Section EntryKept.
Context {S : Type} (cache : KVAdapter S) (key : string).

Local Abbreviation keeps := (keeps_entry cache key).

Lemma same_entry_refl s : same_entry cache key s s.
Proof. by intros X read Hread. Qed.

Lemma same_entry_trans s1 s2 s3 :
  same_entry cache key s1 s2 -> same_entry cache key s2 s3 ->
  same_entry cache key s1 s3.
Proof.
  intros H12 H23 X read Hread. by rewrite (H23 X read Hread), (H12 X read Hread).
Qed.

Lemma keeps_pure {A : Type} (m : M S A) :
  (forall w, exists r evs, m w = (r, logged evs w)
                           /\ Forall keeps_checkout_entries evs) ->
  keeps m.
Proof.
  intros Hm w r w' Hrun. destruct (Hm w) as (r0 & evs & Hrun0 & Hevs).
  rewrite Hrun0 in Hrun. injection Hrun as <- <-.
  split; [apply same_entry_refl|]. by exists evs.
Qed.

Lemma keeps_ret {A : Type} (a : A) : keeps (mret a).
Proof.
  apply keeps_pure. intros w. exists (Ok a), [].
  split; [by rewrite logged_nil|constructor].
Qed.

Lemma keeps_throw {A : Type} e : keeps (throw e : M S A).
Proof.
  apply keeps_pure. intros w. exists (Throw e), [].
  split; [by rewrite logged_nil|constructor].
Qed.

Lemma keeps_invoke {A : Type} ev (outcome : Result A) :
  keeps_checkout_entries ev -> keeps (invoke ev outcome).
Proof.
  intros Hev. apply keeps_pure. intros w. exists outcome, [ev].
  split; [apply run_invoke|by constructor].
Qed.

Lemma keeps_stripe_call {A : Type} call (reply : nat -> Reply A) :
  keeps (stripe_call call reply).
Proof.
  intros w r w' Hrun. rewrite run_stripe_call in Hrun. injection Hrun as <- <-.
  split; [apply same_entry_refl|]. exists [EvStripe call]. by split; [|constructor].
Qed.

Lemma keeps_bind {A B : Type} (m : M S A) (k : A -> M S B) :
  keeps m -> (forall a, keeps (k a)) -> keeps (m ≫= k).
Proof.
  intros Hm Hk w r w' Hrun. rewrite run_bind in Hrun.
  destruct (m w) as [[a|e] w1] eqn:Hmw.
  - destruct (Hm _ _ _ Hmw) as (Hs1 & evs1 & Ht1 & He1).
    destruct (Hk a _ _ _ Hrun) as (Hs2 & evs2 & Ht2 & He2).
    split; [by eapply same_entry_trans|].
    exists (evs1 ++ evs2)%list. rewrite Ht2, Ht1, <- app_assoc.
    split; [done|]. by apply Forall_app.
  - injection Hrun as <- <-. by apply (Hm _ _ _ Hmw).
Qed.

Lemma keeps_cache_set key' v ttlSeconds :
  (exists rest, key' = "customer:" +:+ rest) -> key' <> key ->
  keeps (cache_set cache key' v ttlSeconds).
Proof.
  intros Hcustomer Hne w r w' Hrun. unfold cache_set in Hrun.
  destruct (kv_set cache key' v ttlSeconds (clock w) (store w)) as [r0 s'] eqn:Hset.
  injection Hrun as <- <-. cbn [store trace]. split.
  - intros X read Hread.
    by rewrite <- (Hread key' v ttlSeconds (clock w) (store w) Hne), Hset.
  - exists [EvCacheSet key' v ttlSeconds]. split; [done|]. by constructor.
Qed.

Lemma keeps_call_if_configured {A : Type} (f : option (A -> Result unit))
    (ev : A -> Event) (arg : A) :
  keeps_checkout_entries (ev arg) -> keeps (Webhook.call_if_configured f ev arg).
Proof.
  intros Hev. destruct f as [f|]; [by apply keeps_invoke|apply keeps_ret].
Qed.

Lemma keeps_fetchLatestCustomer stripe customerId :
  keeps (Webhook.fetchLatestCustomer stripe customerId).
Proof.
  unfold Webhook.fetchLatestCustomer.
  apply keeps_bind; [apply keeps_stripe_call|]. intros raw.
  destruct (raw_cus_deleted raw); [apply keeps_throw|apply keeps_ret].
Qed.

End EntryKept.

Section CheckoutPath.
Context {S : Type} (createStripeClient : string -> Stripe).
Implicit Types (options : Webhook.CreateWebhookHandlerOptions (S := S))
  (w : World S).

Lemma run_failed_refetch stripe customerId error w :
  refetch_error stripe (ticks w) customerId = Some error ->
  Webhook.fetchLatestCustomer stripe customerId w
  = (Throw error, called 1 (logged [EvStripe (CustomersRetrieve customerId)] w)).
Proof.
  unfold refetch_error. rewrite run_fetchLatestCustomer.
  destruct (customers_retrieve stripe (ticks w) customerId) as [raw|e].
  - destruct (raw_cus_deleted raw); [|discriminate]. by intros [= <-].
  - by intros [= <-].
Qed.

Lemma run_refetch stripe customerId raw w :
  customers_retrieve stripe (ticks w) customerId = Resolved raw ->
  raw_cus_deleted raw = false ->
  Webhook.fetchLatestCustomer stripe customerId w
  = (Ok (Webhook.toCustomer raw),
     called 1 (logged [EvStripe (CustomersRetrieve customerId)] w)).
Proof.
  intros Hfetch Hlive. by rewrite run_fetchLatestCustomer, Hfetch, Hlive.
Qed.

(** The writes of the customer leave the entries [checkout:...] alone. *)
Lemma cache_customer_keeps options customer a :
  keeps_entry (Webhook.cache options) ("checkout:" +:+ a)
    (Webhook.cache_customer options customer).
Proof.
  unfold Webhook.cache_customer.
  apply keeps_bind; [apply keeps_cache_set; [by eexists|simpl; discriminate]|].
  intros _. apply keeps_bind.
  - destruct (cus_email customer) as [|c email]; [apply keeps_ret|].
    apply keeps_cache_set; [by exists ("email:" +:+ String c email)|].
    simpl. discriminate.
  - intros _.
    destruct (cus_metadata customer ≫= λ m, m !! "userId") as [[|c userId]|];
      try apply keeps_ret.
    apply keeps_cache_set; [by exists ("userId:" +:+ String c userId)|].
    simpl. discriminate.
Qed.

(** When the writes of the adapter succeed, those of the customer call
    nothing. *)
Lemma run_cache_customer options customer :
  (forall key v ttlSeconds now s,
     is_Ok (kv_set (Webhook.cache options) key v ttlSeconds now s).1 = true) ->
  forall w,
  exists evs s',
    Webhook.cache_customer options customer w
    = (Ok tt, logged evs (with_store s' w))
    /\ stripe_calls evs = []
    /\ sync_calls evs = []
    /\ handler_calls evs = [].
Proof.
  intros Hwrites.
  assert (Hset : forall key v ttlSeconds w,
             exists s', cache_set (Webhook.cache options) key v ttlSeconds w
                        = (Ok tt, logged [EvCacheSet key v ttlSeconds]
                                    (with_store s' w))).
  { intros key v ttlSeconds w. unfold cache_set.
    pose proof (Hwrites key v ttlSeconds (clock w) (store w)) as Hok.
    destruct (kv_set (Webhook.cache options) key v ttlSeconds (clock w) (store w))
      as [[[]|e] s']; [|done].
    by exists s'. }
  intros w. unfold Webhook.cache_customer.
  rewrite run_bind.
  destruct (Hset ("customer:" +:+ cus_id customer) (VCustomer customer)
              (Some 86400) w) as [s1 ->].
  rewrite run_bind.
  destruct (cus_email customer) as [|c1 email];
    destruct (cus_metadata customer ≫= λ m, m !! "userId") as [[|c2 userId]|];
    rewrite ?run_ret;
    repeat match goal with
           | |- context [cache_set ?c ?k ?v ?t ?w0] =>
               let s' := fresh "s" in
               destruct (Hset k v t w0) as [s' ->]
           end;
    rewrite ?run_ret; normalize_world;
    eexists; eexists; (split; [reflexivity|]); by repeat split.
Qed.

(** C10, as the code has it — [checkout.session.completed], the
    session is fetched and written to the cache under
    [checkout:<sessionId>] with 3600 seconds to live.  Whatever happens
    after this write, and whatever is thrown, the entry is left as it
    is: up to its return the handler accesses the cache only by writes
    under keys [customer:...], never by a delete, so every reading of
    the store that writes under other keys do not change gives at the
    return what it gave right after the write.  The handler answers
    200 [{received: true}], or it logs the error thrown and answers it
    like every error after verification: 200 with the note [Handler
    error logged] when neither the cache adapter nor a callback throws
    a [WebhookError].  When the error is a failed re-fetch of the
    customer of the session (the provider rejects the request, or the
    customer was deleted), whether at the first re-fetch or at the
    second one, made for the sync adapter, no callback of the sync
    adapter or of the user handlers was called. *)
Theorem checkout_entry_survives_later_errors
    options (request : Webhook.NextRequest) w signature event config raw :
  Webhook.method request = "POST" ->
  Webhook.headers request !! "stripe-signature" = Some signature ->
  signature <> EmptyString ->
  provider_verifyWebhook (Webhook.provider options) (Webhook.text request) signature
  = Ok event ->
  event_type event = "checkout.session.completed" ->
  Config.loadStripeConfig None (env w) = Ok config ->
  checkout_sessions_retrieve (createStripeClient (Config.secretKey config))
    (ticks w) (data_id (event_data event)) = Resolved raw ->
  let stripe := createStripeClient (Config.secretKey config) in
  let session := {|
    cs_id := raw_cs_id raw;
    cs_url := default "" (raw_cs_url raw);
    cs_status := default "open" (raw_cs_status raw);
    cs_customerId := expandable_id (raw_cs_customer raw);
    cs_metadata := raw_cs_metadata raw;
    cs_createdAt := Some (raw_cs_created raw * 1000)
  |} in
  let key := "checkout:" +:+ raw_cs_id raw in
  let written :=
    kv_set (Webhook.cache options) key (VCheckoutSession session) (Some 3600)
      (clock w) (store w) in
  let before :=
    [EvVerifyWebhook (Webhook.text request) signature;
     EvStripe (CheckoutSessionsRetrieve (data_id (event_data event)));
     EvCacheSet key (VCheckoutSession session) (Some 3600)] in
  let noted := Webhook.json (Webhook.Received (Some "Handler error logged")) 200 in
  written.1 = Ok tt ->
  (exists response w' later,
     Webhook.createWebhookHandler createStripeClient options request w
     = (Ok response, w')
     /\ trace w' = (trace w ++ before ++ later)%list
     /\ Forall keeps_checkout_entries later
     /\ same_entry (Webhook.cache options) key written.2 (store w')
     /\ (response = Webhook.json (Webhook.Received None) 200
         \/ exists error,
              response = caught error
              /\ last later = Some (EvConsoleError "Webhook handler error:" error))
     /\ (cache_without_WebhookError (Webhook.cache options) ->
         callbacks_without_WebhookError options ->
         Webhook.status response = 200))
  /\ (forall customerId error,
        expandable_id (raw_cs_customer raw) = Some customerId ->
        customerId <> EmptyString ->
        refetch_error stripe (1 + ticks w) customerId = Some error ->
        Webhook.createWebhookHandler createStripeClient options request w
        = (Ok noted,
           {| clock := clock w; env := env w; store := written.2;
              ticks := 2 + ticks w;
              trace := (trace w ++ before
                        ++ [EvStripe (CustomersRetrieve customerId);
                            EvConsoleError "Webhook handler error:" error])%list |}))
  /\ (forall customerId customer onCustomerCreated error,
        expandable_id (raw_cs_customer raw) = Some customerId ->
        customerId <> EmptyString ->
        customers_retrieve stripe (1 + ticks w) customerId = Resolved customer ->
        raw_cus_deleted customer = false ->
        (forall key' v ttlSeconds now s,
           is_Ok (kv_set (Webhook.cache options) key' v ttlSeconds now s).1 = true) ->
        Webhook.sync options ≫= sync_onCustomerCreated = Some onCustomerCreated ->
        refetch_error stripe (2 + ticks w) customerId = Some error ->
        exists w' later,
          Webhook.createWebhookHandler createStripeClient options request w
          = (Ok noted, w')
          /\ trace w' = (trace w ++ before ++ later)%list
          /\ stripe_calls later
             = [CustomersRetrieve customerId; CustomersRetrieve customerId]
          /\ sync_calls later = []
          /\ handler_calls later = []).
Proof.
  intros Hmethod Hheader Hsig Hverify Htype Hconfig Hfetch stripe session key
    written before noted Hwritten.
  assert (Hset : kv_set (Webhook.cache options) key (VCheckoutSession session)
                   (Some 3600) (clock w) (store w) = (Ok tt, written.2)).
  { subst written.
    destruct (kv_set (Webhook.cache options) key (VCheckoutSession session)
                (Some 3600) (clock w) (store w)) as [r s'].
    simpl in Hwritten. by subst r. }
  pose proof (handler_verified createStripeClient _ _ w _ _
                Hmethod Hheader Hsig Hverify) as Hhandler.
  rewrite run_process in Hhandler. cbn [env logged] in Hhandler.
  rewrite Hconfig in Hhandler. fold stripe in Hhandler, Hfetch.
  unfold Webhook.dispatch in Hhandler.
  rewrite Htype, String.eqb_refl in Hhandler.
  unfold Webhook.checkout_session_completed in Hhandler.
  rewrite run_bind, run_fetchLatestCheckoutSession in Hhandler.
  cbn [ticks logged] in Hhandler. rewrite Hfetch in Hhandler.
  change (Webhook.toCheckoutSession raw) with session in Hhandler.
  change ("checkout:" +:+ cs_id session) with key in Hhandler.
  rewrite run_bind, (run_cache_set _ _ _ _ _ (Ok tt) written.2) in Hhandler
    by exact Hset.
  split; [|split].
  - match type of Hhandler with
    | _ = (let (_, _) := ?m ?w0 in _) =>
        assert (Hkeeps : keeps_entry (Webhook.cache options) key m);
        [|destruct (m w0) as [r w2] eqn:Hrest;
          destruct (Hkeeps _ _ _ Hrest) as (Hsame & later & Htrace & Hlater)]
    end.
    { subst key. apply keeps_bind.
      - destruct (cs_customerId session) as [[|c id]|]; try apply keeps_ret.
        apply keeps_bind; [apply keeps_fetchLatestCustomer|].
        intros customer. apply cache_customer_keeps.
      - intros _. apply keeps_bind.
        + destruct (Webhook.sync options ≫= sync_onCustomerCreated) as [f|];
            [|apply keeps_ret].
          destruct (cs_customerId session) as [[|c id]|]; try apply keeps_ret.
          apply keeps_bind; [apply keeps_fetchLatestCustomer|].
          intros customer. by apply keeps_invoke.
        + intros _. by apply keeps_call_if_configured. }
    cbn [store trace logged with_store called] in Hsame, Htrace.
    assert (Hprocess :
      Webhook.process createStripeClient options event
        (logged [EvVerifyWebhook (Webhook.text request) signature] w) = (r, w2)).
    { rewrite run_process. cbn [env logged]. rewrite Hconfig. fold stripe.
      unfold Webhook.dispatch. rewrite Htype, String.eqb_refl.
      unfold Webhook.checkout_session_completed.
      rewrite run_bind, run_fetchLatestCheckoutSession. cbn [ticks logged].
      rewrite Hfetch.
      change (Webhook.toCheckoutSession raw) with session.
      change ("checkout:" +:+ cs_id session) with key.
      rewrite run_bind, (run_cache_set _ _ _ _ _ (Ok tt) written.2) by exact Hset.
      exact Hrest. }
    destruct r as [[]|e].
    + exists (Webhook.json (Webhook.Received None) 200), w2, later.
      split; [exact Hhandler|]. split.
      { rewrite Htrace. subst before. by rewrite <- !app_assoc. }
      split; [exact Hlater|]. split; [exact Hsame|]. split; [by left|done].
    + exists (caught e), (logged [EvConsoleError "Webhook handler error:" e] w2),
        (later ++ [EvConsoleError "Webhook handler error:" e])%list.
      split; [exact Hhandler|]. split.
      { cbn [trace logged]. rewrite Htrace. subst before.
        by rewrite <- !app_assoc. }
      split; [apply Forall_app; split; [exact Hlater|by constructor]|].
      split; [exact Hsame|]. split.
      { right. exists e. split; [done|]. apply last_snoc. }
      intros Hcache Hcallbacks.
      destruct (process_throws_no_WebhookError createStripeClient options event
                  Hcache Hcallbacks _ _ _ Hprocess) as [_ He].
      by destruct e.
  - intros customerId error Hid Hne Herror.
    rewrite run_bind in Hhandler.
    change (cs_customerId session) with (expandable_id (raw_cs_customer raw))
      in Hhandler.
    rewrite Hid in Hhandler. destruct customerId as [|c id]; [done|].
    rewrite run_bind, (run_failed_refetch _ _ error) in Hhandler
      by exact Herror.
    rewrite (refetch_error_caught _ _ _ _ Herror) in Hhandler.
    rewrite Hhandler. subst before. unfold logged, called, with_store. cbn.
    by rewrite <- !app_assoc.
  - intros customerId customer onCustomerCreated error Hid Hne Hfirst Hlive
      Hwrites Hsync Herror.
    rewrite run_bind in Hhandler.
    change (cs_customerId session) with (expandable_id (raw_cs_customer raw))
      in Hhandler.
    rewrite Hid in Hhandler. destruct customerId as [|c id]; [done|].
    rewrite run_bind, (run_refetch _ _ customer) in Hhandler by done.
    match type of Hhandler with
    | context [Webhook.cache_customer ?o ?c0 ?w0] =>
        destruct (run_cache_customer o c0 Hwrites w0)
          as (evs & s' & Hrun & Hstripes & Hsyncs & Hhandlers)
    end.
    rewrite Hrun, Hsync in Hhandler.
    rewrite run_bind, run_bind, (run_failed_refetch _ _ error) in Hhandler
      by exact Herror.
    rewrite (refetch_error_caught _ _ _ _ Herror) in Hhandler.
    eexists. exists ([EvStripe (CustomersRetrieve (String c id))] ++ evs
                     ++ [EvStripe (CustomersRetrieve (String c id));
                         EvConsoleError "Webhook handler error:" error])%list.
    split; [exact Hhandler|]. split.
    { subst before. cbn. by rewrite <- !app_assoc. }
    split; [|split].
    + unfold stripe_calls in *. rewrite !omap_app, Hstripes. reflexivity.
    + unfold sync_calls in *. rewrite !omap_app, Hsyncs. reflexivity.
    + unfold handler_calls in *. rewrite !omap_app, Hhandlers. reflexivity.
Qed.

End CheckoutPath.

(** Over the in-memory adapter the reading is the entry itself. *)
Lemma memory_same_entry key (s s' : gmap string (Memory.StorageEntry Value)) :
  same_entry createMemoryAdapter key s s' -> s' !! key = s !! key.
Proof.
  intros Hsame. apply (Hsame _ (fun s0 => s0 !! key)).
  intros key' v ttlSeconds now s0 Hne. by apply set_lookup_ne.
Qed.

(** Over the in-memory adapter: when the user handler throws, and when
    the customer of the session was deleted, the session is in the cache
    at the return, until 3600000 ms after the write; in the second case
    no callback was called. *)
Lemma checkout_entry_survives_witness :
  (exists response w',
     Scenario.checkout_with_failing_handler Scenario.database_down
     = (Ok response, w')
     /\ Webhook.status response = 200
     /\ store w' !! "checkout:cs_1"
        = Some {| Memory.value :=
                    VCheckoutSession (Webhook.toCheckoutSession Sample.session_cs_1);
                  Memory.expiresAt := Some 1700003600000 |})
  /\ exists w',
       Webhook.createWebhookHandler Scenario.createStripeClient_deleted
         (Scenario.options (Sample.stripe_with true)
            (Some (Scenario.all_sync (@Scenario.succeeds)))
            (Some (Scenario.all_handlers (@Scenario.succeeds))))
         (Scenario.post "checkout" (Some "valid")) Scenario.world
       = (Ok (Webhook.json (Webhook.Received (Some "Handler error logged")) 200), w')
       /\ sync_calls (trace w') = []
       /\ handler_calls (trace w') = []
       /\ store w' !! "checkout:cs_1"
          = Some {| Memory.value :=
                      VCheckoutSession (Webhook.toCheckoutSession Sample.session_cs_1);
                    Memory.expiresAt := Some 1700003600000 |}.
Proof.
  split.
  - destruct (checkout_entry_survives_later_errors Sample.createStripeClient
                (Scenario.options Sample.stripe None
                   (Some (Scenario.all_handlers
                            (fun A => @Scenario.throws A Scenario.database_down))))
                (Scenario.post "checkout" (Some "valid")) Scenario.world "valid"
                Scenario.checkout_event Scenario.provider_config
                Sample.session_cs_1)
      as [(response & w' & later & Hrun & _ & _ & Hsame & _ & Hstatus) _].
    + reflexivity.
    + reflexivity.
    + discriminate.
    + reflexivity.
    + reflexivity.
    + reflexivity.
    + reflexivity.
    + reflexivity.
    + exists response, w'. split; [exact Hrun|]. split.
      * apply Hstatus; [exact memory_adapter_throws_nothing|].
        repeat split; intros f x Hf; try discriminate Hf;
          injection Hf as <-; reflexivity.
      * etransitivity; [exact (memory_same_entry _ _ _ Hsame)|reflexivity].
  - destruct (checkout_entry_survives_later_errors
                Scenario.createStripeClient_deleted
                (Scenario.options (Sample.stripe_with true)
                   (Some (Scenario.all_sync (@Scenario.succeeds)))
                   (Some (Scenario.all_handlers (@Scenario.succeeds))))
                (Scenario.post "checkout" (Some "valid")) Scenario.world "valid"
                Scenario.checkout_event Scenario.provider_config
                Sample.session_cs_1)
      as (_ & Hfirst & _).
    + reflexivity.
    + reflexivity.
    + discriminate.
    + reflexivity.
    + reflexivity.
    + reflexivity.
    + reflexivity.
    + reflexivity.
    + eexists. split.
      * apply (Hfirst "cus_1" Scenario.customer_deleted); [reflexivity|discriminate|].
        reflexivity.
      * repeat split; reflexivity.
Defined.

(** C10, as stated, fails: an error thrown after the write of the
    checkout session need not come from a re-fetch.  When the callback
    of the sync adapter throws, it has been called, with the customer
    fetched for it; when the user handler throws, it has been called.
    In both cases the session stays in the cache and the answer is 200. *)
Lemma callback_error_follows_its_call :
  Scenario.checkout_with_failing_sync.1
  = Ok (Webhook.json (Webhook.Received (Some "Handler error logged")) 200)
  /\ sync_calls (trace Scenario.checkout_with_failing_sync.2)
     = [SyncCustomerCreated (Webhook.toCustomer Sample.customer_cus_1)]
  /\ handler_calls (trace Scenario.checkout_with_failing_sync.2) = []
  /\ store Scenario.checkout_with_failing_sync.2 !! "checkout:cs_1"
     = Some {| Memory.value :=
                 VCheckoutSession (Webhook.toCheckoutSession Sample.session_cs_1);
               Memory.expiresAt := Some 1700003600000 |}
  /\ (Scenario.checkout_with_failing_handler Scenario.database_down).1
     = Ok (Webhook.json (Webhook.Received (Some "Handler error logged")) 200)
  /\ handler_calls
       (trace (Scenario.checkout_with_failing_handler Scenario.database_down).2)
     = [CheckoutComplete (Webhook.toCheckoutSession Sample.session_cs_1)]
  /\ store (Scenario.checkout_with_failing_handler Scenario.database_down).2
     !! "checkout:cs_1"
     = Some {| Memory.value :=
                 VCheckoutSession (Webhook.toCheckoutSession Sample.session_cs_1);
               Memory.expiresAt := Some 1700003600000 |}.
Proof.
  repeat split; vm_compute; reflexivity.
Qed.

(** ** Never trust the payload *)

Section FreshEntities.
Context {S : Type}.
Implicit Types (options : Webhook.CreateWebhookHandlerOptions (S := S))
  (w : World S) (event : WebhookEvent).

Local Abbreviation anything := (fun _ : JsError => True).








Variable createStripeClient : string -> Stripe.


End FreshEntities.


(** The scenario of the specification: the payload claims [active], the
    provider answers [canceled]; the cache holds [canceled], and the
    callbacks get the same subscription. *)
Lemma refetched_status_wins :
  data_fields (event_data Scenario.deleted_event) !! "status" = Some "active"
  /\ (Memory.get "subscription:sub_1" 1700000000001 (store Scenario.deleted_run.2)).1
     = Some (VSubscription (Webhook.toSubscription Sample.subscription_sub_1))
  /\ sub_status (Webhook.toSubscription Sample.subscription_sub_1) = "canceled"
  /\ sync_calls (trace Scenario.deleted_run.2)
     = [SyncSubscriptionCanceled (Webhook.toSubscription Sample.subscription_sub_1)]
  /\ handler_calls (trace Scenario.deleted_run.2)
     = [SubscriptionCanceled (Webhook.toSubscription Sample.subscription_sub_1)].
Proof.
  repeat split; vm_compute; reflexivity.
Qed.


(** ** Customer-first checkout *)

Section ApiRuns.
Context {S : Type}.
Implicit Types (w : World S).

Lemma run_createCustomer stripe data raw w :
  customers_create stripe (ticks w) (Api.customerParams data) = Resolved raw ->
  Api.createCustomer stripe data w
  = (Ok (Api.createdCustomer raw),
     called 1 (logged [EvStripe (CustomersCreate (Api.customerParams data))] w)).
Proof.
  intros Hreply. unfold Api.createCustomer.
  by rewrite run_try_catch, run_bind, run_stripe_call, Hreply.
Qed.

Lemma run_createCheckoutSession stripe options raw w :
  checkout_sessions_create stripe (ticks w) (Api.sessionParams options)
  = Resolved raw ->
  Api.createCheckoutSession stripe options w
  = (Ok (Api.createdSession raw),
     called 1
       (logged [EvStripe (CheckoutSessionsCreate (Api.sessionParams options))] w)).
Proof.
  intros Hreply. unfold Api.createCheckoutSession.
  by rewrite run_try_catch, run_bind, run_stripe_call, Hreply.
Qed.

End ApiRuns.



Lemma checkout_key_not_email_key a b : "checkout:" +:+ a <> "customer:email:" +:+ b.
Proof. simpl. discriminate. Qed.

Section CustomerFirst.
Implicit Types
  (this : StripeProvider.t (S := gmap string (Memory.StorageEntry Value)))
  (w : World (gmap string (Memory.StorageEntry Value))).

(** The first checkout of a user: no customer id in the cache. *)
Lemma run_first_checkout this options userId email w rawCustomer rawSession :
  StripeProvider.cache this = createMemoryAdapter ->
  metadata options ≫= (fun m => m !! "userId") = Some userId ->
  userId <> EmptyString ->
  customerEmail options = Some email ->
  email <> EmptyString ->
  (Memory.get ("customer:userId:" +:+ userId) (clock w) (store w)).1 = None ->
  customers_create (StripeProvider.stripe this) (ticks w)
    (Api.customerParams (StripeProvider.customerData options userId email))
  = Resolved rawCustomer ->
  let customerId := VString (raw_cus_id rawCustomer) in
  let params :=
    Api.sessionParams (StripeProvider.checkoutOptions options userId (Some customerId)) in
  checkout_sessions_create (StripeProvider.stripe this) (1 + ticks w) params
  = Resolved rawSession ->
  let s0 := (Memory.get ("customer:userId:" +:+ userId) (clock w) (store w)).2 in
  StripeProvider.createCheckout this options w
  = (Ok (Api.createdSession rawSession),
     logged
       [EvCacheGet ("customer:userId:" +:+ userId);
        EvStripe (CustomersCreate
                    (Api.customerParams
                       (StripeProvider.customerData options userId email)));
        EvCacheSet ("customer:userId:" +:+ userId) customerId None;
        EvCacheSet ("customer:email:" +:+ email) customerId None;
        EvStripe (CheckoutSessionsCreate params);
        EvCacheSet ("checkout:" +:+ raw_cs_id rawSession)
          (VCheckoutSession (Api.createdSession rawSession)) (Some 3600)]
       (called 2
          (with_store
             (Memory.set ("checkout:" +:+ raw_cs_id rawSession)
                (VCheckoutSession (Api.createdSession rawSession)) (Some 3600)
                (clock w)
                (Memory.set ("customer:email:" +:+ email) customerId None (clock w)
                   (Memory.set ("customer:userId:" +:+ userId) customerId None
                      (clock w) s0)))
             w))).
Proof.
  intros Hcache Hmeta HuserId Hemail Hemail_ne Hget Hcreate customerId params
    Hsession s0.
  unfold StripeProvider.createCheckout. rewrite Hmeta, Hemail, Hcache.
  destruct userId as [|c1 u]; [done|]. destruct email as [|c2 e]; [done|].
  rewrite run_try_catch, run_bind, run_cache_get_memory, Hget.
  cbn [truthy_value negb].
  rewrite run_bind, run_bind.
  rewrite (run_createCustomer _ _ rawCustomer) by exact Hcreate.
  rewrite run_bind, run_cache_set_memory, run_bind, run_cache_set_memory, run_ret.
  rewrite run_bind.
  rewrite (run_createCheckoutSession _ _ rawSession) by exact Hsession.
  rewrite run_bind, run_cache_set_memory, run_ret.
  by normalize_world.
Qed.



End CustomerFirst.


(** * Further properties of the code *)

(** ** The in-memory adapter: lifetimes, overwriting, deleting, sweeping *)

Section MemoryOperations.
Context {V : Type}.
Implicit Types (s : gmap string (Memory.StorageEntry V)) (key : string) (v : V).

(** X1 — an entry written with a positive [ttlSeconds] at instant [now]
    is returned by every read up to and including the instant
    [now + ttlSeconds * 1000], which leaves the storage alone; a read
    after that instant answers [null] and removes the entry. *)
Theorem memory_entry_lives_for_its_ttl key v ttl now later s :
  0 < ttl -> 0 <= now ->
  let s' := Memory.set key v (Some ttl) now s in
  (later <= now + ttl * 1000 -> Memory.get key later s' = (Some v, s'))
  /\ (now + ttl * 1000 < later ->
      Memory.get key later s' = (None, base.delete key s)).
Proof.
  intros Httl Hnow s'.
  assert (Hk : s' !! key
               = Some {| Memory.value := v;
                         Memory.expiresAt := Some (now + ttl * 1000) |})
    by (by apply set_lookup_ttl).
  unfold Memory.get, Memory.expired, truthy_number. rewrite Hk. simpl.
  replace (now + ttl * 1000 =? 0) with false by (symmetry; apply Z.eqb_neq; lia).
  simpl. split; intros Hlater.
  - by replace (now + ttl * 1000 <? later) with false
      by (symmetry; apply Z.ltb_ge; lia).
  - replace (now + ttl * 1000 <? later) with true
      by (symmetry; apply Z.ltb_lt; lia).
    unfold s', Memory.set. by rewrite delete_insert_eq.
Qed.

(** X2 — the last write wins, value and lifetime: a second [set] of a
    key leaves the storage as if the first had not happened, so writing
    without a [ttlSeconds] makes an entry permanent whatever lifetime
    it had.  [delete] makes the next read answer [null], undoes a
    [set] of the key, and changes nothing when the key is absent. *)
Theorem memory_last_write_wins key v1 v2 ttl1 ttl2 now1 now2 later s :
  Memory.set key v2 ttl2 now2 (Memory.set key v1 ttl1 now1 s)
  = Memory.set key v2 ttl2 now2 s
  /\ Memory.get key later (Memory.set key v2 None now2 (Memory.set key v1 ttl1 now1 s))
     = (Some v2, Memory.set key v2 None now2 s)
  /\ Memory.get key later (Memory.delete key s) = (None, Memory.delete key s)
  /\ Memory.delete key (Memory.set key v1 ttl1 now1 s) = Memory.delete key s
  /\ (s !! key = None -> Memory.delete key s = s).
Proof.
  assert (Hset : forall ttl, Memory.set key v2 ttl now2 (Memory.set key v1 ttl1 now1 s)
                             = Memory.set key v2 ttl now2 s)
    by (intros ttl; unfold Memory.set; by rewrite insert_insert_eq).
  split; [apply Hset|]. split.
  { rewrite Hset. unfold Memory.get.
    by rewrite (set_lookup_no_expiry key v2 None now2 s I). }
  split.
  { unfold Memory.get, Memory.delete. by rewrite lookup_delete_eq. }
  split.
  { unfold Memory.delete, Memory.set. by rewrite delete_insert_eq. }
  intros Hk. unfold Memory.delete. by apply delete_id.
Qed.

(** X3 — operations on different keys do not interfere: a read of
    [key'] commutes with a write or a deletion of [key] (it returns the
    same value and purges the same entry), and two writes commute. *)
Theorem memory_keys_are_independent key key' v v' ttl ttl' now now' later s :
  key <> key' ->
  Memory.get key' later (Memory.set key v ttl now s)
  = ((Memory.get key' later s).1,
     Memory.set key v ttl now (Memory.get key' later s).2)
  /\ Memory.get key' later (Memory.delete key s)
     = ((Memory.get key' later s).1, Memory.delete key (Memory.get key' later s).2)
  /\ Memory.set key v ttl now (Memory.set key' v' ttl' now' s)
     = Memory.set key' v' ttl' now' (Memory.set key v ttl now s).
Proof.
  intros Hne. split; [|split].
  - unfold Memory.get. rewrite set_lookup_ne by done.
    destruct (s !! key') as [entry|]; [|done].
    destruct (Memory.expired later entry); [|done].
    simpl. unfold Memory.set. by rewrite delete_insert_ne by done.
  - unfold Memory.get, Memory.delete. rewrite lookup_delete_ne by done.
    destruct (s !! key') as [entry|]; [|done].
    destruct (Memory.expired later entry); [|done].
    simpl. by rewrite delete_delete.
  - unfold Memory.set. by apply insert_insert_ne.
Qed.

(** An entry that is expired at an instant is expired at every later
    one. *)
Lemma expired_mono now later (entry : Memory.StorageEntry V) :
  now <= later -> Memory.expired now entry = true ->
  Memory.expired later entry = true.
Proof.
  unfold Memory.expired. intros Hle.
  destruct (Memory.expiresAt entry) as [e|]; [|done].
  rewrite !andb_true_iff, !Z.ltb_lt. intros [? ?]. split; [done|lia].
Qed.

(** X4 — the periodic sweep cannot be observed through [get]: after a
    sweep at instant [now], a read at [now] or later returns what it
    would have returned without the sweep.  The sweep removes the
    entries a read at [now] would purge, no other; and sweeping twice
    is sweeping once. *)
Theorem memory_sweep_is_unobservable key now later s :
  now <= later ->
  (Memory.get key later (Memory.cleanup now s)).1 = (Memory.get key later s).1
  /\ Memory.cleanup now s !! key = (Memory.get key now s).2 !! key
  /\ Memory.cleanup now (Memory.cleanup now s) = Memory.cleanup now s.
Proof.
  intros Hle. split; [|split].
  - unfold Memory.get. rewrite cleanup_lookup.
    destruct (s !! key) as [entry|]; [|done].
    destruct (Memory.expired now entry) eqn:He.
    + by rewrite (expired_mono now later entry Hle He).
    + by destruct (Memory.expired later entry).
  - unfold Memory.get. rewrite cleanup_lookup.
    destruct (s !! key) as [entry|] eqn:Hk; [|simpl; by rewrite Hk].
    destruct (Memory.expired now entry); simpl.
    + by rewrite lookup_delete_eq.
    + by rewrite Hk.
  - apply map_eq. intros k. rewrite !cleanup_lookup.
    destruct (s !! k) as [entry|]; [|done].
    destruct (Memory.expired now entry) eqn:He; [done|]. by rewrite He.
Qed.

End MemoryOperations.

Lemma memory_entry_lives_for_its_ttl_witness :
  Memory.get "k" 61000 (Memory.set "k" "v" (Some 60) 1000 ∅)
  = (Some "v", Memory.set "k" "v" (Some 60) 1000 ∅)
  /\ Memory.get "k" 61001 (Memory.set "k" "v" (Some 60) 1000 ∅)
     = (None, base.delete "k" (∅ : gmap string (Memory.StorageEntry string))).
Proof.
  destruct (memory_entry_lives_for_its_ttl "k" "v" 60 1000 61000 ∅) as [Hlive _];
    [lia | lia |].
  destruct (memory_entry_lives_for_its_ttl "k" "v" 60 1000 61001 ∅) as [_ Hdead];
    [lia | lia |].
  split; [apply Hlive | apply Hdead]; lia.
Defined.

Lemma memory_keys_are_independent_witness :
  Memory.get "session" 2000 (Memory.set "other" "w" None 1500 stale_storage)
  = (None, Memory.set "other" "w" None 1500 (base.delete "session" stale_storage)).
Proof.
  destruct (memory_keys_are_independent "other" "session" "w" "w" None None
              1500 1500 2000 stale_storage) as [Hget _]; [discriminate|].
  exact Hget.
Defined.

Lemma memory_sweep_is_unobservable_witness :
  (Memory.get "session" 2000 (Memory.cleanup 1500 stale_storage)).1 = None
  /\ Memory.cleanup 1500 stale_storage !! "session" = None.
Proof.
  destruct (memory_sweep_is_unobservable "session" 1500 2000 stale_storage)
    as (Hget & Hsweep & _); [lia|].
  split; [by rewrite Hget | by rewrite Hsweep].
Defined.

(** ** Configuration: what is accepted, and what a loaded configuration
    looks like *)

Lemma trimEnd_nonspace c s :
  is_space c = false -> trimEnd (String c s) = String c (trimEnd s).
Proof. intros Hc. simpl. rewrite Hc. by destruct (trimEnd s). Qed.

Lemma trimEnd_idempotent s : trimEnd (trimEnd s) = trimEnd s.
Proof.
  induction s as [|c s IH]; [done|].
  cbn [trimEnd]. destruct (trimEnd s) as [|c' t] eqn:Ht.
  - destruct (is_space c) eqn:Hc; [done|]. by rewrite trimEnd_nonspace.
  - remember (String c' t) as u eqn:Hu. cbn [trimEnd]. rewrite IH.
    by rewrite Hu.
Qed.

(** What [trimStart] leaves is empty or starts with a character that is
    no white space. *)
Lemma trimStart_head s :
  trimStart s = EmptyString
  \/ exists c r, trimStart s = String c r /\ is_space c = false.
Proof.
  induction s as [|c s IH]; [by left|].
  simpl. destruct (is_space c) eqn:Hc; [exact IH|]. right. eauto.
Qed.

Lemma trim_idempotent s : trim (trim s) = trim s.
Proof.
  unfold trim. destruct (trimStart_head s) as [->|(c & r & -> & Hc)]; [done|].
  rewrite trimEnd_nonspace by done. cbn [trimStart]. rewrite Hc.
  by rewrite trimEnd_nonspace, trimEnd_idempotent.
Qed.

Lemma startsWith_cons c r a p :
  startsWith (String c r) (String a p) = true -> c = a /\ startsWith r p = true.
Proof.
  unfold startsWith. simpl. destruct (ascii_dec a c) as [->|]; [auto|discriminate].
Qed.

Lemma startsWith_same c r p :
  startsWith r p = true -> startsWith (String c r) (String c p) = true.
Proof.
  unfold startsWith. simpl. by destruct (ascii_dec c c).
Qed.

(** One character of a prefix without white space survives [trimEnd]. *)
Lemma startsWith_trimEnd_step a p :
  is_space a = false ->
  (forall r, startsWith r p = true -> startsWith (trimEnd r) p = true) ->
  forall s, startsWith s (String a p) = true ->
            startsWith (trimEnd s) (String a p) = true.
Proof.
  intros Ha IH [|c r] Hs; [done|].
  apply startsWith_cons in Hs as [-> Hr].
  rewrite trimEnd_nonspace by done. apply startsWith_same. by apply IH.
Qed.

Lemma startsWith_empty s : startsWith s EmptyString = true.
Proof. unfold startsWith. by destruct s. Qed.

(** The two prefixes of a secret key survive [trim], which removes
    nothing in front of them. *)
Lemma well_formed_trim k :
  well_formed_secret_key (Some k) = true ->
  trim k = trimEnd k /\ well_formed_secret_key (Some (trim k)) = true.
Proof.
  unfold well_formed_secret_key. intros Hk.
  assert (Hstart : trimStart k = k).
  { apply orb_true_iff in Hk as [Hk|Hk];
      (destruct k as [|c r]; [done|]);
      apply startsWith_cons in Hk as [-> _]; reflexivity. }
  unfold trim. rewrite Hstart. split; [done|].
  apply orb_true_iff in Hk. apply orb_true_iff.
  destruct Hk as [Hk|Hk]; [left|right]; revert k Hk Hstart; intros k Hk _;
    revert k Hk;
    repeat (apply startsWith_trimEnd_step; [reflexivity|]);
    intros r _; apply startsWith_empty.
Qed.

(** X5 — whatever [loadStripeConfig] returns is in normal form: the
    secret key starts with [sk_test_] or [sk_live_] and has no white
    space around it; the webhook secret is absent, or not empty and
    without white space around it.  When it has a webhook secret,
    loading again with the returned values as overrides returns the same
    configuration, whatever the environment. *)
Theorem loaded_configuration_is_normal overrides env config :
  Config.loadStripeConfig overrides env = Ok config ->
  well_formed_secret_key (Some (Config.secretKey config)) = true
  /\ trim (Config.secretKey config) = Config.secretKey config
  /\ match Config.webhookSecret config with
     | Some secret => secret <> EmptyString /\ trim secret = secret
     | None => True
     end
  /\ forall env' secret,
       Config.webhookSecret config = Some secret ->
       Config.loadStripeConfig
         (Some {| Config.override_secretKey := Some (Config.secretKey config);
                  Config.override_webhookSecret := Some secret |}) env'
       = Ok config.
Proof.
  intros Hload.
  pose proof (loadStripeConfig_Ok overrides env) as HOk.
  rewrite Hload in HOk. simpl in HOk. symmetry in HOk.
  destruct (Config.resolved_secretKey overrides env) as [k|] eqn:Hk; [|done].
  destruct (well_formed_trim k HOk) as [Htrim Hwf].
  assert (Hkey : Config.secretKey config = trim k).
  { destruct (loadStripeConfig_secretKey overrides env config Hload)
      as (k' & Hk' & ->). congruence. }
  assert (Hsecret :
            match Config.webhookSecret config with
            | Some secret => secret <> EmptyString /\ trim secret = secret
            | None => True
            end).
  { unfold Config.loadStripeConfig in Hload. rewrite Hk in Hload.
    destruct k as [|c r]; [done|].
    destruct (String.length (trim (String c r)) =? 0)%nat; [done|].
    destruct (negb (startsWith (String c r) "sk_test_")
              && negb (startsWith (String c r) "sk_live_")); [done|].
    injection Hload as <-. simpl.
    destruct (Config.resolved_webhookSecret overrides env) as [ws|]; [|done].
    simpl. destruct (trim ws) as [|c' r'] eqn:Hws; [done|].
    split; [done|]. by rewrite <- Hws, trim_idempotent. }
  rewrite Hkey. split; [done|]. split; [apply trim_idempotent|].
  split; [exact Hsecret|].
  intros env' secret Hws. rewrite Hws in Hsecret. destruct Hsecret as [Hne Hts].
  unfold Config.loadStripeConfig, Config.resolved_secretKey,
    Config.resolved_webhookSecret. simpl.
  destruct (trim k) as [|c r] eqn:Hk'.
  { unfold well_formed_secret_key in Hwf. simpl in Hwf. done. }
  rewrite <- Hk', trim_idempotent, Hk'.
  assert (Hlen : (String.length (String c r) =? 0)%nat = false) by done.
  rewrite Hlen.
  unfold well_formed_secret_key in Hwf. apply orb_true_iff in Hwf.
  assert (Hfmt : negb (startsWith (String c r) "sk_test_")
                 && negb (startsWith (String c r) "sk_live_") = false).
  { destruct Hwf as [->| ->]; [done|]. by rewrite andb_false_r. }
  rewrite Hfmt, Hts. destruct secret as [|c' r']; [done|].
  destruct config as [key ws]. simpl in *. by rewrite Hkey, Hws.
Qed.

Lemma loaded_configuration_is_normal_witness :
  exists config,
    Config.loadStripeConfig
      (Some {| Config.override_secretKey := Some "sk_live_abc  ";
               Config.override_webhookSecret := Some " whsec_1 " |})
      Sample.no_environment = Ok config
    /\ Config.secretKey config = "sk_live_abc"
    /\ Config.webhookSecret config = Some "whsec_1"
    /\ Config.loadStripeConfig
         (Some {| Config.override_secretKey := Some (Config.secretKey config);
                  Config.override_webhookSecret := Some "whsec_1" |})
         Sample.environment
       = Ok config.
Proof.
  pose proof (loaded_configuration_is_normal
                (Some {| Config.override_secretKey := Some "sk_live_abc  ";
                         Config.override_webhookSecret := Some " whsec_1 " |})
                Sample.no_environment
                {| Config.secretKey := "sk_live_abc";
                   Config.webhookSecret := Some "whsec_1" |} eq_refl)
    as (_ & _ & _ & Hagain).
  eexists. split; [reflexivity|]. split; [reflexivity|]. split; [reflexivity|].
  exact (Hagain Sample.environment "whsec_1" eq_refl).
Defined.

(** X6 — an explicit secret key shadows the environment: with it, whether
    the configuration loads does not depend on [STRIPE_SECRET_KEY]; with
    an explicit webhook secret as well, nothing depends on the
    environment.  An explicit key that is the empty string counts as
    missing; the key of the environment is no fallback for it. *)
Theorem explicit_configuration_shadows_the_environment overrides env env' key :
  Config.override_secretKey overrides = Some key ->
  is_Ok (Config.loadStripeConfig (Some overrides) env)
  = is_Ok (Config.loadStripeConfig (Some overrides) env')
  /\ (forall secret,
        Config.override_webhookSecret overrides = Some secret ->
        Config.loadStripeConfig (Some overrides) env
        = Config.loadStripeConfig (Some overrides) env')
  /\ (key = EmptyString ->
      Config.loadStripeConfig (Some overrides) env
      = Throw (ConfigError Config.msg_missing_secret_key)).
Proof.
  intros Hkey. split; [|split].
  - rewrite !loadStripeConfig_Ok. unfold Config.resolved_secretKey. simpl.
    by rewrite Hkey.
  - intros secret Hsecret.
    unfold Config.loadStripeConfig, Config.resolved_secretKey,
      Config.resolved_webhookSecret. simpl. by rewrite Hkey, Hsecret.
  - intros ->. unfold Config.loadStripeConfig, Config.resolved_secretKey. simpl.
    by rewrite Hkey.
Qed.

Lemma explicit_configuration_shadows_the_environment_witness :
  Config.loadStripeConfig
    (Some {| Config.override_secretKey := Some EmptyString;
             Config.override_webhookSecret := None |}) Sample.environment
  = Throw (ConfigError Config.msg_missing_secret_key).
Proof.
  destruct (explicit_configuration_shadows_the_environment
              {| Config.override_secretKey := Some EmptyString;
                 Config.override_webhookSecret := None |}
              Sample.environment Sample.no_environment EmptyString eq_refl)
    as (_ & _ & Hmissing).
  exact (Hmissing eq_refl).
Defined.

(** X7 — for a secret key of ASCII characters (where the white space of
    the model is all the white space [trim] removes), the prefix of the
    key is checked before the key is trimmed: a key with one of the two
    prefixes is accepted with any white space after it, which is removed;
    a key with white space in front is refused, as blank when it is
    white space only and as malformed otherwise. *)
Theorem secret_key_is_checked_before_trimming overrides env key :
  Config.resolved_secretKey overrides env = Some key ->
  ascii_only key = true ->
  (well_formed_secret_key (Some key) = true ->
   exists config,
     Config.loadStripeConfig overrides env = Ok config
     /\ Config.secretKey config = trimEnd key)
  /\ (forall c rest,
        key = String c rest -> is_space c = true ->
        Config.loadStripeConfig overrides env
        = Throw (ConfigError (if (String.length (trim key) =? 0)%nat
                              then Config.msg_blank_secret_key
                              else Config.msg_secret_key_format))).
Proof.
  intros Hkey _. split.
  - intros Hwf.
    pose proof (loadStripeConfig_Ok overrides env) as HOk.
    rewrite Hkey, Hwf in HOk.
    destruct (Config.loadStripeConfig overrides env) as [config|] eqn:Hload;
      [|done].
    exists config. split; [done|].
    destruct (loadStripeConfig_secretKey overrides env config Hload)
      as (k' & Hk' & ->).
    replace k' with key by congruence.
    by destruct (well_formed_trim key Hwf).
  - intros c rest -> Hc. unfold Config.loadStripeConfig. rewrite Hkey.
    destruct (String.length (trim (String c rest)) =? 0)%nat; [done|].
    assert (Hfmt : negb (startsWith (String c rest) "sk_test_")
                   && negb (startsWith (String c rest) "sk_live_") = true).
    { apply andb_true_iff. split; apply negb_true_iff;
        (destruct (startsWith (String c rest) _) eqn:Hs; [|done]);
        apply startsWith_cons in Hs as [-> _]; discriminate. }
    by rewrite Hfmt.
Qed.

Lemma secret_key_is_checked_before_trimming_witness :
  (exists config,
     Config.loadStripeConfig
       (Some {| Config.override_secretKey := Some "sk_test_abc  ";
                Config.override_webhookSecret := None |}) Sample.no_environment
     = Ok config
     /\ Config.secretKey config = "sk_test_abc")
  /\ Config.loadStripeConfig
       (Some {| Config.override_secretKey := Some " sk_test_abc";
                Config.override_webhookSecret := None |}) Sample.no_environment
     = Throw (ConfigError Config.msg_secret_key_format).
Proof.
  split.
  - edestruct (secret_key_is_checked_before_trimming
                 (Some {| Config.override_secretKey := Some "sk_test_abc  ";
                          Config.override_webhookSecret := None |})
                 Sample.no_environment) as [Hok _]; [reflexivity..|].
    apply Hok. reflexivity.
  - edestruct (secret_key_is_checked_before_trimming
                 (Some {| Config.override_secretKey := Some " sk_test_abc";
                          Config.override_webhookSecret := None |})
                 Sample.no_environment) as [_ Hbad]; [reflexivity..|].
    eapply Hbad; reflexivity.
Defined.

(** ** Signature verification *)

(** X8 — [verifyWebhookSignature] returns an event exactly when the
    secret and the signature are not empty and the client constructs the
    event; the event then carries the id, type and embedded object of the
    constructed one, with its creation time in milliseconds.  Whatever
    goes wrong, and whatever the client throws, the error thrown is a
    [WebhookError] with the code [WEBHOOK_SIGNATURE_INVALID]; with an
    empty secret or signature the answer does not depend on the client. *)
Theorem verifyWebhookSignature_outcomes stripe payload signature webhookSecret :
  (is_Ok (Webhooks.verifyWebhookSignature stripe payload signature webhookSecret)
   = true
   <-> webhookSecret <> EmptyString /\ signature <> EmptyString
       /\ exists raw,
            webhooks_constructEvent stripe payload signature webhookSecret
            = Resolved raw)
  /\ (forall raw,
        webhookSecret <> EmptyString -> signature <> EmptyString ->
        webhooks_constructEvent stripe payload signature webhookSecret
        = Resolved raw ->
        Webhooks.verifyWebhookSignature stripe payload signature webhookSecret
        = Ok {| event_id := raw_event_id raw;
                event_type := raw_event_type raw;
                event_data := raw_event_data_object raw;
                event_created := raw_event_created raw * 1000 |})
  /\ (forall e,
        Webhooks.verifyWebhookSignature stripe payload signature webhookSecret
        = Throw e ->
        exists message, e = WebhookError message ErrorCodes.WEBHOOK_SIGNATURE_INVALID)
  /\ (forall stripe',
        webhookSecret = EmptyString \/ signature = EmptyString ->
        Webhooks.verifyWebhookSignature stripe' payload signature webhookSecret
        = Webhooks.verifyWebhookSignature stripe payload signature webhookSecret).
Proof.
  unfold Webhooks.verifyWebhookSignature.
  split; [|split; [|split]].
  - destruct webhookSecret as [|c1 secret], signature as [|c2 sig]; simpl;
      try (split; [discriminate | by intros (? & ? & _)]).
    destruct (webhooks_constructEvent stripe payload _ _) as [raw|[]]; simpl;
      try (split; [discriminate | by intros (_ & _ & ? & ?)]).
    split; [|done]. intros _. repeat split; try done. by exists raw.
  - intros raw Hsecret Hsig Hevent.
    destruct webhookSecret as [|c1 secret]; [done|].
    destruct signature as [|c2 sig]; [done|]. by rewrite Hevent.
  - intros e.
    destruct webhookSecret as [|c1 secret], signature as [|c2 sig];
      try (intros [= <-]; eauto).
    destruct (webhooks_constructEvent stripe payload _ _) as [raw|[]];
      intros [= <-]; eauto.
  - intros stripe' [-> | ->]; [done|]. by destruct webhookSecret.
Qed.

(** ** The Upstash adapter: failures, lifetimes, deletion *)

Section UpstashOperations.
Variable JSON_parse : string -> option Upstash.JsValue.
Variable JSON_stringify : Upstash.JsValue -> string.

Local Abbreviation get := (Upstash.get JSON_parse).
Local Abbreviation set := (Upstash.set JSON_stringify).

(** X9 — over any client: whatever a method of the adapter throws is a
    plain [Error] whose message names the operation and the key, never
    the error of the client itself; [get] and [delete] throw exactly
    when the client rejects the request, and [get] answers [null] for a
    key the client does not know. *)
Theorem upstash_failures_are_wrapped {R : Type} (redis : Upstash.Redis R)
    key v ttlSeconds (s : R) :
  upstash_failure "get" key " from Upstash: " (get redis key s).1
  /\ upstash_failure "set" key " in Upstash: " (set redis key v ttlSeconds s).1
  /\ upstash_failure "delete" key " from Upstash: " (Upstash.delete redis key s).1
  /\ (is_Ok (get redis key s).1 = true
      <-> exists result s', Upstash.redis_get redis key s = (Resolved result, s'))
  /\ (is_Ok (Upstash.delete redis key s).1 = true
      <-> exists n s', Upstash.redis_del redis key s = (Resolved n, s'))
  /\ (forall s', Upstash.redis_get redis key s = (Resolved Upstash.JNull, s') ->
                 get redis key s = (Ok Upstash.JNull, s')).
Proof.
  unfold upstash_failure, Upstash.get, Upstash.set, Upstash.delete, Upstash.failed.
  split; [|split; [|split; [|split; [|split]]]].
  - destruct (Upstash.redis_get redis key s) as [[result|e] s']; simpl; [|eauto].
    destruct result as [| | |text| |]; try done. by destruct (JSON_parse text).
  - destruct (Upstash.redis_set redis key _ _ s) as [[ok|e] s']; simpl; eauto.
  - destruct (Upstash.redis_del redis key s) as [[n|e] s']; simpl; eauto.
  - destruct (Upstash.redis_get redis key s) as [[result|e] s']; simpl.
    + split; [eauto|]. intros _.
      destruct result as [| | |text| |]; try done. by destruct (JSON_parse text).
    + split; [discriminate|]. by intros (? & ? & ?).
  - destruct (Upstash.redis_del redis key s) as [[n|e] s']; simpl.
    + split; eauto.
    + split; [discriminate|]. by intros (? & ? & ?).
  - by intros s' ->.
Qed.

Implicit Types t : gmap string (string * option Z).

(** X10 — over a store that keeps what it is sent: [set] always
    succeeds and stores the text of the value with the lifetime
    [ttlSeconds] when that is positive, and with none when it is
    omitted, zero or negative; it leaves every other key alone.  After
    [delete] the key reads as [null]. *)
Theorem upstash_lifetimes_and_deletion key v ttlSeconds t :
  (exists ex,
     set Upstash.text_store key v ttlSeconds t
     = (Ok tt, <[key := (Upstash.serialized JSON_stringify v, ex)]> t)
     /\ forall seconds, ex = Some seconds
                        <-> ttlSeconds = Some seconds /\ 0 < seconds)
  /\ (forall key', key <> key' ->
        (get Upstash.text_store key'
           (set Upstash.text_store key v ttlSeconds t).2).1
        = (get Upstash.text_store key' t).1)
  /\ (exists t',
        Upstash.delete Upstash.text_store key t = (Ok tt, t')
        /\ get Upstash.text_store key t' = (Ok Upstash.JNull, t')).
Proof.
  split; [|split].
  - unfold Upstash.set. simpl. eexists. split; [reflexivity|].
    intros seconds. destruct ttlSeconds as [ttl|]; simpl.
    + unfold truthy_number.
      destruct (Z.ltb_spec 0 ttl) as [Hpos|Hneg].
      * replace (ttl =? 0) with false by (symmetry; apply Z.eqb_neq; lia).
        simpl. split; [by intros [= <-] | by intros [[= <-] _]].
      * rewrite andb_false_r. split; [done|]. intros [[= <-] ?]. lia.
    + split; [done | by intros [? _]].
  - intros key' Hne. unfold Upstash.set, Upstash.get. simpl.
    rewrite lookup_insert_ne by done.
    destruct (t !! key') as [[text ex]|]; [|done].
    by destruct (JSON_parse text).
  - unfold Upstash.delete, Upstash.get. simpl. eexists. split; [reflexivity|].
    by rewrite lookup_delete_eq.
Qed.

End UpstashOperations.

(** ** The webhook handler: every request is answered, and nothing is
    processed before the signature is accepted *)

Section HandlerOutcomes.
Context {S : Type} (createStripeClient : string -> Stripe).
Implicit Types (options : Webhook.CreateWebhookHandlerOptions (S := S))
  (request : Webhook.NextRequest) (w : World S) (event : WebhookEvent).

Local Abbreviation handler := (Webhook.createWebhookHandler createStripeClient).

(** What [verify] hands over when it returns. *)
Lemma verify_response options payload signature w response w' :
  Webhook.verify options payload signature w = (Ok (inl response), w') ->
  Webhook.status response = 401.
Proof.
  unfold Webhook.verify. rewrite run_try_catch, run_bind, run_invoke.
  destruct (provider_verifyWebhook _ _ _) as [event|e]; [by rewrite run_ret|].
  destruct e; try done.
  rewrite run_bind, run_emit, run_ret. by intros [= <- _].
Qed.

(** X11 — the handler never rejects and never answers with a server
    error: for every request, provider, cache adapter and callbacks it
    returns a response, whose status is 405 exactly when the method is
    not [POST] and otherwise 200 or 401. *)
Theorem webhook_handler_always_answers options request w :
  exists response w',
    handler options request w = (Ok response, w')
    /\ (Webhook.method request <> "POST" -> Webhook.status response = 405)
    /\ (Webhook.method request = "POST" ->
        Webhook.status response = 200 \/ Webhook.status response = 401).
Proof.
  unfold Webhook.createWebhookHandler.
  destruct (Webhook.method request =? "POST")%string eqn:Hmethod; cbn [negb].
  2: { apply String.eqb_neq in Hmethod. rewrite run_ret.
       eexists. eexists. split; [reflexivity|]. split; [done|by intros ?]. }
  apply String.eqb_eq in Hmethod.
  rewrite run_try_catch.
  match goal with
  | |- context [match ?m w with _ => _ end] =>
      destruct (m w) as [[response|error] w1] eqn:Hbody
  end.
  - exists response, w1. split; [done|]. split; [done|]. intros _.
    destruct (Webhook.headers request !! "stripe-signature") as [[|c sig]|];
      try (injection Hbody as <- _; by right).
    rewrite run_bind in Hbody.
    destruct (Webhook.verify options _ _ w) as [[[early|event]|e] w2] eqn:Hverify;
      [| |done].
    + rewrite run_ret in Hbody. injection Hbody as <- _. right.
      by eapply verify_response.
    + rewrite run_bind in Hbody.
      destruct (Webhook.process _ _ _ w2) as [[[]|e] w3]; [|done].
      rewrite run_ret in Hbody. injection Hbody as <- _. by left.
  - rewrite run_bind, run_emit.
    destruct error; rewrite run_ret; eexists; eexists;
      (split; [reflexivity|]); (split; [done|]); intros _; simpl; auto.
Qed.

(** A [POST] whose signature the provider refuses, with whatever
    error. *)
Lemma handler_unverified options request w signature error :
  Webhook.method request = "POST" ->
  Webhook.headers request !! "stripe-signature" = Some signature ->
  signature <> EmptyString ->
  provider_verifyWebhook (Webhook.provider options) (Webhook.text request) signature
  = Throw error ->
  handler options request w
  = (Ok (caught error),
     logged [EvVerifyWebhook (Webhook.text request) signature;
             EvConsoleError (verification_label error) error] w).
Proof.
  intros Hmethod Hheader Hsig Hverify.
  destruct (instanceof_WebhookError error) eqn:Hclass.
  { destruct error; try done.
    by rewrite (handler_rejected _ _ _ _ _ _ _ Hmethod Hheader Hsig Hverify). }
  unfold Webhook.createWebhookHandler.
  rewrite Hmethod, Hheader, String.eqb_refl. cbn [negb].
  destruct signature as [|c sig]; [done|].
  rewrite run_try_catch, run_bind.
  unfold Webhook.verify at 1. rewrite run_try_catch, run_bind, run_invoke, Hverify.
  unfold verification_label. rewrite Hclass.
  destruct error; try done; unfold throw at 1; cbv beta iota;
    rewrite run_bind, run_emit, run_ret; by rewrite logged_logged.
Qed.

(** X12 — nothing is processed before the signature is accepted: when
    [verifyWebhook] of the provider throws, the handler logs the error
    and answers, and that is all; no request goes to the provider, the
    cache is neither read nor written, no callback runs.  The answer
    is 401 with the code and message of the error when it is a
    [WebhookError]; for any other error it is 200 with
    [{received: true, error: 'Handler error logged'}]. *)
Theorem nothing_is_processed_without_verification
    options request w signature error :
  Webhook.method request = "POST" ->
  Webhook.headers request !! "stripe-signature" = Some signature ->
  signature <> EmptyString ->
  provider_verifyWebhook (Webhook.provider options) (Webhook.text request) signature
  = Throw error ->
  exists w',
    handler options request w
    = (Ok match error with
          | WebhookError message code =>
              Webhook.json (Webhook.ErrorBody code (Some message)) 401
          | _ => Webhook.json (Webhook.Received (Some "Handler error logged")) 200
          end, w')
    /\ store w' = store w /\ ticks w' = ticks w
    /\ trace w' = (trace w ++ [EvVerifyWebhook (Webhook.text request) signature;
                               EvConsoleError (verification_label error) error])%list.
Proof.
  intros Hmethod Hheader Hsig Hverify.
  rewrite (handler_unverified _ _ _ _ _ Hmethod Hheader Hsig Hverify).
  eexists. split; [by destruct error|]. done.
Qed.

(** X13 — an accepted event of a type the handler has no branch for is
    logged and acknowledged with 200 [{received: true}]: no request
    goes to the provider, the cache is not touched and no callback
    runs.  (The configuration of the environment must load even so.) *)
Theorem unhandled_event_is_acknowledged
    options request w signature event config :
  Webhook.method request = "POST" ->
  Webhook.headers request !! "stripe-signature" = Some signature ->
  signature <> EmptyString ->
  provider_verifyWebhook (Webhook.provider options) (Webhook.text request) signature
  = Ok event ->
  event_type event ∉ handled_types ->
  Config.loadStripeConfig None (env w) = Ok config ->
  handler options request w
  = (Ok (Webhook.json (Webhook.Received None) 200),
     logged [EvVerifyWebhook (Webhook.text request) signature;
             EvConsoleLog ("Unhandled webhook event type: " +:+ event_type event)]
       w).
Proof.
  intros Hmethod Hheader Hsig Hverify Htype Hconfig.
  rewrite (handler_verified _ _ _ _ _ _ Hmethod Hheader Hsig Hverify).
  rewrite run_process. cbn [env logged]. rewrite Hconfig.
  unfold Webhook.dispatch, handled_types in *.
  repeat match goal with
         | |- context [(event_type event =? ?t)%string] =>
             replace (event_type event =? t)%string with false
               by (symmetry; apply String.eqb_neq; intros Heq; apply Htype;
                   rewrite Heq; set_solver)
         end.
  cbn [orb]. rewrite run_emit. by rewrite logged_logged.
Qed.

(** X14 — the handler reads the secret key from the environment, not
    from the provider it is given: when [STRIPE_SECRET_KEY] is not
    there or does not load, every accepted event, of whatever type, is
    answered 200 with [{received: true, error: 'Handler error
    logged'}] and nothing is fetched, cached or handed to a callback,
    however the provider itself was configured. *)
Theorem webhook_needs_the_key_of_the_environment
    options request w signature event :
  Webhook.method request = "POST" ->
  Webhook.headers request !! "stripe-signature" = Some signature ->
  signature <> EmptyString ->
  provider_verifyWebhook (Webhook.provider options) (Webhook.text request) signature
  = Ok event ->
  well_formed_secret_key (Config.STRIPE_SECRET_KEY (env w)) = false ->
  exists message,
    handler options request w
    = (Ok (Webhook.json (Webhook.Received (Some "Handler error logged")) 200),
       logged [EvVerifyWebhook (Webhook.text request) signature;
               EvConsoleError "Webhook handler error:" (ConfigError message)] w).
Proof.
  intros Hmethod Hheader Hsig Hverify Hkey.
  rewrite (handler_verified _ _ _ _ _ _ Hmethod Hheader Hsig Hverify).
  rewrite run_process. cbn [env logged].
  pose proof (loadStripeConfig_Ok None (env w)) as HOk.
  unfold Config.resolved_secretKey in HOk. simpl in HOk. rewrite Hkey in HOk.
  destruct (Config.loadStripeConfig None (env w)) as [config|e] eqn:Hload;
    [done|].
  destruct (loadStripeConfig_Throw _ _ _ Hload) as [message ->].
  exists message. simpl. by rewrite logged_logged.
Qed.

End HandlerOutcomes.

Lemma nothing_is_processed_without_verification_witness :
  exists w',
    Webhook.createWebhookHandler Sample.createStripeClient
      (Scenario.options Sample.stripe (Some (Scenario.all_sync (@Scenario.succeeds)))
         (Some (Scenario.all_handlers (@Scenario.succeeds))))
      (Scenario.post "deleted" (Some "forged")) Scenario.world
    = (Ok (Webhook.json
             (Webhook.ErrorBody ErrorCodes.WEBHOOK_SIGNATURE_INVALID
                (Some ("Webhook signature verification failed: "
                       +:+ "No signatures found matching the expected signature for payload")))
             401), w')
    /\ store w' = ∅ /\ ticks w' = 0%nat.
Proof.
  edestruct (nothing_is_processed_without_verification Sample.createStripeClient
               (Scenario.options Sample.stripe
                  (Some (Scenario.all_sync (@Scenario.succeeds)))
                  (Some (Scenario.all_handlers (@Scenario.succeeds))))
               (Scenario.post "deleted" (Some "forged")) Scenario.world "forged")
    as (w' & Hrun & Hstore & Hticks & _);
    [reflexivity | reflexivity | discriminate | reflexivity |].
  exists w'. split; [exact Hrun|]. by split.
Defined.

Lemma unhandled_event_is_acknowledged_witness :
  Webhook.createWebhookHandler Sample.createStripeClient
    (Scenario.options Sample.stripe (Some (Scenario.all_sync (@Scenario.succeeds)))
       (Some (Scenario.all_handlers (@Scenario.succeeds))))
    (Scenario.post "other" (Some "valid")) Scenario.world
  = (Ok (Webhook.json (Webhook.Received None) 200),
     logged [EvVerifyWebhook "other" "valid";
             EvConsoleLog "Unhandled webhook event type: payment_intent.succeeded"]
       Scenario.world).
Proof.
  apply (unhandled_event_is_acknowledged Sample.createStripeClient
           (Scenario.options Sample.stripe
              (Some (Scenario.all_sync (@Scenario.succeeds)))
              (Some (Scenario.all_handlers (@Scenario.succeeds))))
           (Scenario.post "other" (Some "valid")) Scenario.world "valid"
           unhandled_event Scenario.provider_config).
  - reflexivity.
  - reflexivity.
  - discriminate.
  - reflexivity.
  - unfold handled_types. intros H.
    repeat (apply elem_of_cons in H as [H|H]; [discriminate|]).
    by apply elem_of_nil in H.
  - reflexivity.
Defined.

Lemma webhook_needs_the_key_of_the_environment_witness :
  exists message,
    Webhook.createWebhookHandler Sample.createStripeClient
      (Scenario.options Sample.stripe None
         (Some (Scenario.all_handlers (@Scenario.succeeds))))
      (Scenario.post "deleted" (Some "valid"))
      (in_environment Sample.no_environment Scenario.world)
    = (Ok (Webhook.json (Webhook.Received (Some "Handler error logged")) 200),
       logged [EvVerifyWebhook "deleted" "valid";
               EvConsoleError "Webhook handler error:" (ConfigError message)]
         (in_environment Sample.no_environment Scenario.world)).
Proof.
  eapply (webhook_needs_the_key_of_the_environment Sample.createStripeClient
            (Scenario.options Sample.stripe None
               (Some (Scenario.all_handlers (@Scenario.succeeds))))
            (Scenario.post "deleted" (Some "valid"))
            (in_environment Sample.no_environment Scenario.world) "valid").
  - reflexivity.
  - reflexivity.
  - discriminate.
  - reflexivity.
  - reflexivity.
Defined.

(** ** The two providers behind the webhook handler *)

Lemma verifyWebhookSignature_Throw stripe payload signature webhookSecret e :
  Webhooks.verifyWebhookSignature stripe payload signature webhookSecret = Throw e ->
  exists message, e = WebhookError message ErrorCodes.WEBHOOK_SIGNATURE_INVALID.
Proof.
  unfold Webhooks.verifyWebhookSignature.
  destruct webhookSecret as [|c1 secret], signature as [|c2 sig];
    try (intros [= <-]; eauto).
  destruct (webhooks_constructEvent stripe payload _ _) as [raw|[]];
    intros [= <-]; eauto.
Qed.

Section ProvidersBehindTheHandler.
Context {S : Type} (createStripeClient : string -> Stripe).
Implicit Types (options : Webhook.CreateWebhookHandlerOptions (S := S))
  (request : Webhook.NextRequest) (w : World S).

Lemma StripeProvider_verifyWebhook_Throw
    (this : StripeProvider.t (S := S)) payload signature e :
  StripeProvider.verifyWebhook this payload signature = Throw e ->
  exists message, e = WebhookError message ErrorCodes.WEBHOOK_SIGNATURE_INVALID.
Proof.
  unfold StripeProvider.verifyWebhook.
  destruct (Config.webhookSecret (StripeProvider.config this)) as [[|c secret]|];
    try (intros [= <-]; eauto).
  apply verifyWebhookSignature_Throw.
Qed.

(** X15 — with an instance of class [StripeProvider] as the provider,
    the handler fails closed: whenever verification does not return an
    event (no webhook secret configured, a signature the client
    refuses, anything the client throws), the answer is 401 with the
    code [WEBHOOK_SIGNATURE_INVALID], and no request goes to the
    provider, the cache is not touched and no callback runs. *)
Theorem stripe_provider_fails_closed
    (this : StripeProvider.t (S := S)) options request w signature :
  Webhook.provider options = StripeProvider.as_PaymentProvider this ->
  Webhook.method request = "POST" ->
  Webhook.headers request !! "stripe-signature" = Some signature ->
  signature <> EmptyString ->
  is_Ok (StripeProvider.verifyWebhook this (Webhook.text request) signature)
  = false ->
  exists message w',
    Webhook.createWebhookHandler createStripeClient options request w
    = (Ok (Webhook.json
             (Webhook.ErrorBody ErrorCodes.WEBHOOK_SIGNATURE_INVALID
                (Some message)) 401), w')
    /\ store w' = store w /\ ticks w' = ticks w
    /\ stripe_calls (trace w') = stripe_calls (trace w)
    /\ sync_calls (trace w') = sync_calls (trace w)
    /\ handler_calls (trace w') = handler_calls (trace w).
Proof.
  intros Hprovider Hmethod Hheader Hsig Hfail.
  destruct (StripeProvider.verifyWebhook this (Webhook.text request) signature)
    as [event|e] eqn:Hverify; [done|].
  destruct (StripeProvider_verifyWebhook_Throw _ _ _ _ Hverify) as [message ->].
  exists message. eexists. split.
  { apply (handler_unverified createStripeClient options request w signature
             (WebhookError message ErrorCodes.WEBHOOK_SIGNATURE_INVALID));
      try done.
    by rewrite Hprovider. }
  cbn [store ticks trace logged].
  unfold stripe_calls, sync_calls, handler_calls. rewrite !omap_app. simpl.
  by rewrite !app_nil_r.
Qed.

Lemma CoreProvider_verifyWebhook_Throw
    (this : CoreProvider.t (S := S)) payload signature :
  is_Ok (Config.validateWebhookSecret (CoreProvider.config this) true) = false ->
  exists message,
    CoreProvider.verifyWebhook this payload signature = Throw (ConfigError message).
Proof.
  unfold CoreProvider.verifyWebhook, Config.validateWebhookSecret.
  destruct (Config.webhookSecret (CoreProvider.config this)) as [[|c secret]|];
    cbn [truthy_string negb andb is_Ok]; eauto.
  destruct (startsWith (String c secret) "whsec_"); cbn [negb is_Ok];
    [done|eauto].
Qed.

(** X16 — with the provider of [createStripeProvider], whose
    [verifyWebhook] first calls [validateWebhookSecret(config, true)]:
    when the webhook secret is missing or does not start with [whsec_],
    the error is a [ConfigError], not a [WebhookError], so every [POST]
    that carries a signature, whatever it is, is answered 200 with
    [{received: true, error: 'Handler error logged'}].  Nothing is
    processed: the world only gains the two log entries.  With a secret
    that passes the validation, a failed verification is a
    [WebhookError] with the code [WEBHOOK_SIGNATURE_INVALID]. *)
Theorem core_provider_acknowledges_what_it_cannot_verify
    (this : CoreProvider.t (S := S)) options request w signature :
  Webhook.provider options = CoreProvider.as_PaymentProvider this ->
  Webhook.method request = "POST" ->
  Webhook.headers request !! "stripe-signature" = Some signature ->
  signature <> EmptyString ->
  (is_Ok (Config.validateWebhookSecret (CoreProvider.config this) true) = false ->
   exists message,
     Webhook.createWebhookHandler createStripeClient options request w
     = (Ok (Webhook.json (Webhook.Received (Some "Handler error logged")) 200),
        logged [EvVerifyWebhook (Webhook.text request) signature;
                EvConsoleError "Webhook handler error:" (ConfigError message)] w))
  /\ (is_Ok (Config.validateWebhookSecret (CoreProvider.config this) true) = true ->
      forall e,
        CoreProvider.verifyWebhook this (Webhook.text request) signature = Throw e ->
        exists message,
          e = WebhookError message ErrorCodes.WEBHOOK_SIGNATURE_INVALID).
Proof.
  intros Hprovider Hmethod Hheader Hsig. split.
  - intros Hinvalid.
    destruct (CoreProvider_verifyWebhook_Throw this (Webhook.text request)
                signature Hinvalid) as [message Hverify].
    exists message.
    apply (handler_unverified createStripeClient options request w signature
             (ConfigError message)); try done.
    by rewrite Hprovider.
  - intros Hvalid e. unfold CoreProvider.verifyWebhook.
    destruct (Config.validateWebhookSecret (CoreProvider.config this) true);
      [|done].
    destruct (webhooks_constructEvent _ _ _ _) as [raw|[]]; intros [= <-]; eauto.
Qed.

End ProvidersBehindTheHandler.

Lemma stripe_provider_fails_closed_witness :
  exists message w',
    Webhook.createWebhookHandler Sample.createStripeClient
      (Scenario.options Sample.stripe None None)
      (Scenario.post "checkout" (Some "forged")) Scenario.world
    = (Ok (Webhook.json
             (Webhook.ErrorBody ErrorCodes.WEBHOOK_SIGNATURE_INVALID (Some message))
             401), w')
    /\ store w' = ∅.
Proof.
  edestruct (stripe_provider_fails_closed Sample.createStripeClient
               {| StripeProvider.stripe := Sample.stripe;
                  StripeProvider.cache := createMemoryAdapter;
                  StripeProvider.config := Scenario.provider_config |}
               (Scenario.options Sample.stripe None None)
               (Scenario.post "checkout" (Some "forged")) Scenario.world "forged")
    as (message & w' & Hrun & Hstore & _);
    [reflexivity | reflexivity | reflexivity | discriminate | reflexivity |].
  exists message, w'. by split.
Defined.

Lemma core_provider_acknowledges_what_it_cannot_verify_witness :
  CoreProvider.createStripeProvider Sample.createStripeClient
    {| CoreProvider.options_cache := createMemoryAdapter;
       CoreProvider.options_sync := None;
       CoreProvider.options_config :=
         Some {| Config.override_secretKey := Some "sk_test_abc";
                 Config.override_webhookSecret := None |} |}
    Sample.no_environment
  = Ok core_provider_without_secret
  /\ exists message,
       Webhook.createWebhookHandler Sample.createStripeClient
         {| Webhook.provider := CoreProvider.as_PaymentProvider
                                  core_provider_without_secret;
            Webhook.cache := createMemoryAdapter;
            Webhook.sync := None;
            Webhook.handlers := None |}
         (Scenario.post "checkout" (Some "forged")) Scenario.world
       = (Ok (Webhook.json (Webhook.Received (Some "Handler error logged")) 200),
          logged [EvVerifyWebhook "checkout" "forged";
                  EvConsoleError "Webhook handler error:" (ConfigError message)]
            Scenario.world).
Proof.
  split; [reflexivity|].
  edestruct (core_provider_acknowledges_what_it_cannot_verify
               Sample.createStripeClient core_provider_without_secret
               {| Webhook.provider := CoreProvider.as_PaymentProvider
                                        core_provider_without_secret;
                  Webhook.cache := createMemoryAdapter;
                  Webhook.sync := None;
                  Webhook.handlers := None |}
               (Scenario.post "checkout" (Some "forged")) Scenario.world "forged")
    as [Hack _]; [reflexivity | reflexivity | reflexivity | discriminate |].
  apply Hack. reflexivity.
Defined.

(** ** [StripeProvider.createCheckout]: what is refused, and what is thrown *)

Section MonadOutcomes.
Context {S : Type}.

(** What a [try]/[catch] throws is what its [catch] clause throws. *)
Lemma try_catch_throws {A : Type} (m : M S A) (h : JsError -> M S A)
    (Q : JsError -> Prop) (w : World S) :
  (forall e w1, match (h e w1).1 with Ok _ => True | Throw e' => Q e' end) ->
  match (try_catch m h w).1 with Ok _ => True | Throw e' => Q e' end.
Proof.
  intros Hh. rewrite run_try_catch.
  destruct (m w) as [[a|e] w1]; [done|]. apply Hh.
Qed.

(** The [catch] clause of the methods of [StripeProvider]. *)
Lemma rethrow_only_PaymentError {A : Type} what e (w : World S) :
  only_PaymentError
    ((if instanceof_PaymentError e then throw e
      else throw (PaymentError (what +:+ message_or_unknown e)
                    ErrorCodes.PAYMENT_FAILED 500) : M S A) w).1.
Proof. unfold only_PaymentError. by destruct (instanceof_PaymentError e) eqn:He. Qed.

Lemma payment_failed_code what e :
  exists message statusCode,
    Api.payment_failed what e
    = PaymentError message ErrorCodes.PAYMENT_FAILED statusCode.
Proof. unfold Api.payment_failed. destruct e as [| | |[]]; eauto. Qed.

End MonadOutcomes.

Section CheckoutRequests.
Context {S : Type}.
Implicit Types (this : StripeProvider.t (S := S)) (w : World S).

(** X17 — [createCheckout] refuses a request without a [userId] in its
    metadata, and one with a [userId] but without a customer email,
    with a [PaymentError] of code [INVALID_REQUEST] and status 400, and
    does so before anything else: the cache is not read and no request
    goes to the provider.  An empty string counts as missing. *)
Theorem createCheckout_requires_userId_and_email this options w :
  let userId := metadata options ≫= (fun m => m !! "userId") in
  (truthy_string userId = false ->
   StripeProvider.createCheckout this options w
   = (Throw (PaymentError "userId is required in metadata for checkout"
               ErrorCodes.INVALID_REQUEST 400), w))
  /\ (truthy_string userId = true ->
      truthy_string (customerEmail options) = false ->
      StripeProvider.createCheckout this options w
      = (Throw (PaymentError "customerEmail is required for checkout"
                  ErrorCodes.INVALID_REQUEST 400), w)).
Proof.
  intros userId. unfold StripeProvider.createCheckout. fold userId.
  split.
  - intros HuserId. by destruct userId as [[|c u]|].
  - intros HuserId Hemail. destruct userId as [[|c u]|]; try done.
    by destruct (customerEmail options) as [[|c' e]|].
Qed.

(** X18 — whatever the cache adapter and the client do, the
    asynchronous methods of [StripeProvider] throw nothing but
    [PaymentError].  The wrappers of [api.ts] throw nothing but a
    [PaymentError] with the code [PAYMENT_FAILED], and
    [createPortalSession] one with [PAYMENT_FAILED] or
    [CUSTOMER_NOT_FOUND]. *)
Theorem provider_throws_PaymentError_only this (billing : StripeBilling) w :
  (forall options, only_PaymentError (StripeProvider.createCheckout this options w).1)
  /\ (forall options,
        only_PaymentError
          (StripeProviderMethods.createSubscription this billing options w).1)
  /\ (forall data,
        only_PaymentError (StripeProviderMethods.createCustomer this data w).1)
  /\ (forall customerId returnUrl,
        only_PaymentError
          (StripeProviderMethods.createPortalSession this billing
             customerId returnUrl w).1)
  /\ (forall stripe options,
        fails_with [ErrorCodes.PAYMENT_FAILED]
          (Api.createCheckoutSession stripe options w).1)
  /\ (forall stripe data,
        fails_with [ErrorCodes.PAYMENT_FAILED] (Api.createCustomer stripe data w).1)
  /\ (forall options,
        fails_with [ErrorCodes.PAYMENT_FAILED]
          (Billing.createSubscription billing options w).1)
  /\ (forall customerId returnUrl,
        fails_with [ErrorCodes.PAYMENT_FAILED; ErrorCodes.CUSTOMER_NOT_FOUND]
          (Billing.createPortalSession billing customerId returnUrl w).1).
Proof.
  assert (Hwrapped : forall what e (w1 : World S),
             exists message code statusCode,
               Api.payment_failed what e = PaymentError message code statusCode
               /\ code ∈ [ErrorCodes.PAYMENT_FAILED]).
  { intros what e w1. destruct (payment_failed_code what e) as (m & st & ->).
    exists m, ErrorCodes.PAYMENT_FAILED, st. split; [done|].
    apply list_elem_of_here. }
  repeat split; intros.
  - apply (try_catch_throws _ _ (fun e => instanceof_PaymentError e = true)).
    intros e w1. apply (rethrow_only_PaymentError "Checkout creation failed: ").
  - apply (try_catch_throws _ _ (fun e => instanceof_PaymentError e = true)).
    intros e w1. apply (rethrow_only_PaymentError "Subscription creation failed: ").
  - apply (try_catch_throws _ _ (fun e => instanceof_PaymentError e = true)).
    intros e w1. apply (rethrow_only_PaymentError "Customer creation failed: ").
  - apply (try_catch_throws _ _ (fun e => instanceof_PaymentError e = true)).
    intros e w1.
    apply (rethrow_only_PaymentError "Portal session creation failed: ").
  - apply (try_catch_throws _ _
             (fun e => exists m c st, e = PaymentError m c st
                                      /\ c ∈ [ErrorCodes.PAYMENT_FAILED])).
    intros e w1. by apply Hwrapped.
  - apply (try_catch_throws _ _
             (fun e => exists m c st, e = PaymentError m c st
                                      /\ c ∈ [ErrorCodes.PAYMENT_FAILED])).
    intros e w1. by apply Hwrapped.
  - apply (try_catch_throws _ _
             (fun e => exists m c st, e = PaymentError m c st
                                      /\ c ∈ [ErrorCodes.PAYMENT_FAILED])).
    intros e w1. by apply Hwrapped.
  - apply (try_catch_throws _ _
             (fun e => exists m c st,
                         e = PaymentError m c st
                         /\ c ∈ [ErrorCodes.PAYMENT_FAILED;
                                 ErrorCodes.CUSTOMER_NOT_FOUND])).
    intros e w1. unfold Billing.portal_failed. simpl.
    assert (Hother : exists m c st,
               Api.payment_failed "Portal session creation failed: " e
               = PaymentError m c st
               /\ c ∈ [ErrorCodes.PAYMENT_FAILED; ErrorCodes.CUSTOMER_NOT_FOUND]).
    { destruct (payment_failed_code "Portal session creation failed: " e)
        as (m & st & ->).
      exists m, ErrorCodes.PAYMENT_FAILED, st. split; [done|].
      apply list_elem_of_here. }
    destruct e as [| | |[m [st|]| | |]]; try exact Hother.
    destruct (decide (st = 404)) as [->|Hne].
    + eexists _, _, _. split; [reflexivity|].
      apply list_elem_of_further, list_elem_of_here.
    + destruct st as [|p|p]; try exact Hother.
      repeat (destruct p as [p|p|]; try exact Hother). done.
Qed.

End CheckoutRequests.


Lemma run_createCustomer_rejected {S : Type} stripe data error (w : World S) :
  customers_create stripe (ticks w) (Api.customerParams data) = Rejected error ->
  Api.createCustomer stripe data w
  = (Throw (Api.payment_failed "Customer creation failed: " (Foreign error)),
     called 1 (logged [EvStripe (CustomersCreate (Api.customerParams data))] w)).
Proof.
  intros Hreply. unfold Api.createCustomer.
  by rewrite run_try_catch, run_bind, run_stripe_call, Hreply.
Qed.

(** What [payment_failed] makes of an error of the client. *)
Lemma payment_failed_Foreign what error :
  Api.payment_failed what (Foreign error)
  = PaymentError (what +:+ message_or_unknown (Foreign error))
      ErrorCodes.PAYMENT_FAILED
      match error with
      | StripeError _ (Some statusCode) => statusCode
      | _ => 500
      end.
Proof. by destruct error as [m [st|]| | |]. Qed.

Section CheckoutFailures.
Implicit Types
  (this : StripeProvider.t (S := gmap string (Memory.StorageEntry Value)))
  (w : World (gmap string (Memory.StorageEntry Value))).

(** X19 — the first checkout of a user when the provider refuses to
    create the customer, over the in-memory adapter: [createCheckout]
    throws a [PaymentError] with the code [PAYMENT_FAILED], the message
    of the provider after [Customer creation failed: ], and the status
    code of the provider when it has one (500 otherwise).  No checkout
    session is requested and nothing is written to the cache, so the
    user still has no customer id there. *)
Theorem checkout_fails_when_the_customer_is_refused
    this options userId email w error :
  StripeProvider.cache this = createMemoryAdapter ->
  metadata options ≫= (fun m => m !! "userId") = Some userId ->
  userId <> EmptyString ->
  customerEmail options = Some email ->
  email <> EmptyString ->
  (Memory.get ("customer:userId:" +:+ userId) (clock w) (store w)).1 = None ->
  customers_create (StripeProvider.stripe this) (ticks w)
    (Api.customerParams (StripeProvider.customerData options userId email))
  = Rejected error ->
  exists w',
    StripeProvider.createCheckout this options w
    = (Throw (PaymentError
                ("Customer creation failed: " +:+ message_or_unknown (Foreign error))
                ErrorCodes.PAYMENT_FAILED
                match error with
                | StripeError _ (Some statusCode) => statusCode
                | _ => 500
                end), w')
    /\ trace w'
       = (trace w
          ++ [EvCacheGet ("customer:userId:" +:+ userId);
              EvStripe (CustomersCreate
                          (Api.customerParams
                             (StripeProvider.customerData options userId email)))])%list
    /\ forall later,
         (Memory.get ("customer:userId:" +:+ userId) later (store w')).1 = None.
Proof.
  intros Hcache Hmeta HuserId Hemail Hemail_ne Hget Hcreate.
  unfold StripeProvider.createCheckout. rewrite Hmeta, Hemail, Hcache.
  destruct userId as [|c1 u]; [done|]. destruct email as [|c2 e]; [done|].
  rewrite run_try_catch, run_bind, run_cache_get_memory, Hget.
  cbn [truthy_value negb].
  rewrite run_bind, run_bind.
  rewrite (run_createCustomer_rejected _ _ error) by exact Hcreate.
  rewrite payment_failed_Foreign. cbn [instanceof_PaymentError].
  eexists. split; [reflexivity|].
  cbn [trace store logged called with_store]. split; [by rewrite <- app_assoc|].
  intros later. revert Hget. unfold Memory.get.
  destruct (store w !! _) as [entry|] eqn:Hk.
  - destruct (Memory.expired (clock w) entry); [|done]. intros _. simpl.
    by rewrite lookup_delete_eq.
  - intros _. simpl. by rewrite Hk.
Qed.

End CheckoutFailures.

Section CheckoutCacheFailure.
Context {S : Type}.
Implicit Types (this : StripeProvider.t (S := S)) (w : World S).

(** X20 — the first checkout of a user when the customer is created
    and the cache then refuses to store its id: [createCheckout] throws
    (the error of the cache when that is a [PaymentError], otherwise a
    [PaymentError] with the code [PAYMENT_FAILED], status 500 and the
    message of the cache after [Checkout creation failed: ]).  The
    customer exists at the provider by then; no checkout session is
    requested. *)
Theorem checkout_fails_when_the_customer_id_is_not_stored
    this options userId email w cached s1 rawCustomer error s2 :
  metadata options ≫= (fun m => m !! "userId") = Some userId ->
  userId <> EmptyString ->
  customerEmail options = Some email ->
  email <> EmptyString ->
  kv_get (StripeProvider.cache this) ("customer:userId:" +:+ userId)
    (clock w) (store w) = (Ok cached, s1) ->
  truthy_value cached = false ->
  customers_create (StripeProvider.stripe this) (ticks w)
    (Api.customerParams (StripeProvider.customerData options userId email))
  = Resolved rawCustomer ->
  kv_set (StripeProvider.cache this) ("customer:userId:" +:+ userId)
    (VString (raw_cus_id rawCustomer)) None (clock w) s1 = (Throw error, s2) ->
  StripeProvider.createCheckout this options w
  = (Throw (if instanceof_PaymentError error then error
            else PaymentError
                   ("Checkout creation failed: " +:+ message_or_unknown error)
                   ErrorCodes.PAYMENT_FAILED 500),
     logged
       [EvCacheGet ("customer:userId:" +:+ userId);
        EvStripe (CustomersCreate
                    (Api.customerParams
                       (StripeProvider.customerData options userId email)));
        EvCacheSet ("customer:userId:" +:+ userId)
          (VString (raw_cus_id rawCustomer)) None]
       (called 1 (with_store s2 w))).
Proof.
  intros Hmeta HuserId Hemail Hemail_ne Hget Hmiss Hcreate Hset.
  unfold StripeProvider.createCheckout. rewrite Hmeta, Hemail.
  destruct userId as [|c1 u]; [done|]. destruct email as [|c2 e]; [done|].
  rewrite run_try_catch, run_bind.
  rewrite (run_cache_get _ _ _ _ _ Hget). rewrite Hmiss. cbn [negb].
  rewrite run_bind, run_bind.
  rewrite (run_createCustomer _ _ rawCustomer) by exact Hcreate.
  rewrite run_bind.
  erewrite run_cache_set by exact Hset.
  unfold throw. cbv beta iota.
  destruct (instanceof_PaymentError error); by normalize_world.
Qed.

End CheckoutCacheFailure.

Lemma checkout_fails_when_the_customer_is_refused_witness :
  exists w',
    StripeProvider.createCheckout
      stripeProvider_rate_limited
      (Scenario.checkout_request "ada@example.com") Scenario.world
    = (Throw (PaymentError "Customer creation failed: Too many requests"
                ErrorCodes.PAYMENT_FAILED 429), w')
    /\ store w' = ∅ /\ ticks w' = 1%nat.
Proof.
  edestruct (checkout_fails_when_the_customer_is_refused
               stripeProvider_rate_limited
               (Scenario.checkout_request "ada@example.com")
               "user_1" "ada@example.com" Scenario.world rate_limited)
    as (w' & Hrun & _ & _);
    [reflexivity | reflexivity | discriminate | reflexivity | discriminate
    | reflexivity | reflexivity |].
  exists w'. split; [exact Hrun|].
  injection Hrun as <-. by split.
Defined.

Lemma checkout_fails_when_the_customer_id_is_not_stored_witness :
  exists w',
    StripeProvider.createCheckout stripeProvider_read_only
      (Scenario.checkout_request "ada@example.com")
      {| clock := 1700000000000; env := Sample.environment; store := tt;
         ticks := 0; trace := [] |}
    = (Throw (PaymentError
                ("Checkout creation failed: "
                 +:+ "READONLY You can't write against a read only replica.")
                ErrorCodes.PAYMENT_FAILED 500), w')
    /\ customers_created (trace w') <> []
    /\ session_customers (trace w') = [].
Proof.
  eexists. split.
  - apply (checkout_fails_when_the_customer_id_is_not_stored
             stripeProvider_read_only
             (Scenario.checkout_request "ada@example.com")
             "user_1" "ada@example.com" _ None tt
             {| raw_cus_id := "cus_new_0";
                raw_cus_email := Some "ada@example.com";
                raw_cus_name := None;
                raw_cus_metadata := Some {["userId" := "user_1"]};
                raw_cus_created := 1700000100;
                raw_cus_deleted := false |}
             read_only tt);
      try reflexivity; discriminate.
  - split; [discriminate|reflexivity].
Defined.

(** ** [StripeProvider.createCustomer] and the entries other code leaves in
    its way *)

Lemma get_absent {V : Type} key now (s : gmap string (Memory.StorageEntry V)) :
  s !! key = None -> Memory.get key now s = (None, s).
Proof. intros Hk. unfold Memory.get. by rewrite Hk. Qed.

Lemma get_live {V : Type} key now (s : gmap string (Memory.StorageEntry V)) v e :
  s !! key = Some {| Memory.value := v; Memory.expiresAt := Some e |} ->
  now <= e ->
  Memory.get key now s = (Some v, s).
Proof.
  intros Hk Hle. unfold Memory.get, Memory.expired. rewrite Hk. simpl.
  replace (e <? now) with false by (symmetry; apply Z.ltb_ge; lia).
  by rewrite andb_false_r.
Qed.

Lemma get_permanent {V : Type} key now (s : gmap string (Memory.StorageEntry V)) v :
  s !! key = Some {| Memory.value := v; Memory.expiresAt := None |} ->
  Memory.get key now s = (Some v, s).
Proof. intros Hk. unfold Memory.get. by rewrite Hk. Qed.

Lemma get_expired {V : Type} key now (s : gmap string (Memory.StorageEntry V)) v e :
  s !! key = Some {| Memory.value := v; Memory.expiresAt := Some e |} ->
  0 < e -> e < now ->
  Memory.get key now s = (None, base.delete key s).
Proof.
  intros Hk Hpos Hlt. unfold Memory.get, Memory.expired, truthy_number.
  rewrite Hk. simpl.
  replace (e =? 0) with false by (symmetry; apply Z.eqb_neq; lia).
  by replace (e <? now) with true by (symmetry; apply Z.ltb_lt; lia).
Qed.

Section CustomerCache.
Implicit Types
  (this : StripeProvider.t (S := gmap string (Memory.StorageEntry Value)))
  (w : World (gmap string (Memory.StorageEntry Value))).

(** X21 — [createCustomer] over the in-memory adapter, from a cache that
    knows neither the email nor the user id: the customer is created
    and cached under its email for 24 hours.  During that time
    [createCustomer] with the same email, whatever the name and the
    metadata, returns that customer after one read of the cache and
    asks the provider for nothing; afterwards the cache has forgotten
    the customer. *)
Theorem created_customer_is_cached_for_a_day this data w rawCustomer :
  StripeProvider.cache this = createMemoryAdapter ->
  store w !! ("customer:email:" +:+ cd_email data) = None ->
  (forall userId, cd_metadata data ≫= (fun m => m !! "userId") = Some userId ->
                  store w !! ("customer:userId:" +:+ userId) = None) ->
  customers_create (StripeProvider.stripe this) (ticks w) (Api.customerParams data)
  = Resolved rawCustomer ->
  exists w1,
    StripeProviderMethods.createCustomer this data w
    = (Ok (VCustomer (Api.createdCustomer rawCustomer)), w1)
    /\ customers_created (trace w1)
       = (customers_created (trace w) ++ [Api.customerParams data])%list
    /\ (forall data' later,
          cd_email data' = cd_email data ->
          later <= clock w + 86400 * 1000 ->
          StripeProviderMethods.createCustomer this data' (at_instant later w1)
          = (Ok (VCustomer (Api.createdCustomer rawCustomer)),
             logged [EvCacheGet ("customer:email:" +:+ cd_email data)]
               (at_instant later w1)))
    /\ (forall later,
          0 <= clock w -> clock w + 86400 * 1000 < later ->
          (Memory.get ("customer:email:" +:+ cd_email data) later (store w1)).1
          = None).
Proof.
  intros Hcache Hemail HuserId Hcreate.
  set (customer := Api.createdCustomer rawCustomer).
  set (emailKey := "customer:email:" +:+ cd_email data) in *.
  assert (Hrun : exists s1,
             StripeProviderMethods.createCustomer this data w
             = (Ok (VCustomer customer),
                logged
                  ([EvCacheGet emailKey]
                   ++ match cd_metadata data ≫= (fun m => m !! "userId") with
                      | Some (String _ _ as userId) =>
                          [EvCacheGet ("customer:userId:" +:+ userId)]
                      | _ => []
                      end
                   ++ [EvStripe (CustomersCreate (Api.customerParams data));
                       EvCacheSet ("customer:" +:+ cus_id customer)
                         (VCustomer customer) (Some 86400);
                       EvCacheSet emailKey (VCustomer customer) (Some 86400)]
                   ++ match cd_metadata data ≫= (fun m => m !! "userId") with
                      | Some (String _ _ as userId) =>
                          [EvCacheSet ("customer:userId:" +:+ userId)
                             (VString (cus_id customer)) (Some 86400)]
                      | _ => []
                      end)
                  (called 1 (with_store s1 w)))
             /\ s1 !! emailKey
                = Some {| Memory.value := VCustomer customer;
                          Memory.expiresAt := Some (clock w + 86400 * 1000) |}).
  { unfold StripeProviderMethods.createCustomer. cbv zeta. rewrite Hcache.
    fold emailKey.
    rewrite run_try_catch, run_bind, run_cache_get_memory.
    rewrite (get_absent emailKey) by exact Hemail. cbn [fst snd].
    destruct (cd_metadata data ≫= (fun m => m !! "userId")) as [[|c u]|] eqn:Hu.
    - rewrite run_bind, (run_createCustomer _ _ rawCustomer)
        by (normalize_world; exact Hcreate).
      rewrite run_bind, run_cache_set_memory, run_bind, run_cache_set_memory.
      rewrite run_bind, run_ret, run_ret. normalize_world.
      eexists. split; [reflexivity|].
      by rewrite (set_lookup_ttl emailKey _ 86400) by lia.
    - rewrite run_bind, run_cache_get_memory.
      rewrite (get_absent ("customer:userId:" +:+ String c u))
        by (normalize_world; by apply HuserId).
      cbn [fst snd].
      rewrite run_bind, (run_createCustomer _ _ rawCustomer)
        by (normalize_world; exact Hcreate).
      rewrite run_bind, run_cache_set_memory, run_bind, run_cache_set_memory.
      rewrite run_bind, run_cache_set_memory, run_ret. normalize_world.
      eexists. split; [reflexivity|].
      rewrite set_lookup_ne by (simpl; intros [=]).
      by rewrite (set_lookup_ttl emailKey _ 86400) by lia.
    - rewrite run_bind, (run_createCustomer _ _ rawCustomer)
        by (normalize_world; exact Hcreate).
      rewrite run_bind, run_cache_set_memory, run_bind, run_cache_set_memory.
      rewrite run_bind, run_ret, run_ret. normalize_world.
      eexists. split; [reflexivity|].
      by rewrite (set_lookup_ttl emailKey _ 86400) by lia. }
  destruct Hrun as (s1 & Hrun & Hentry).
  eexists. split; [exact Hrun|].
  cbn [trace store logged called with_store]. split; [|split].
  - unfold customers_created. rewrite !omap_app.
    by destruct (cd_metadata data ≫= (fun m => m !! "userId")) as [[|c u]|].
  - intros data' later Hsame Hlater.
    unfold StripeProviderMethods.createCustomer. cbv zeta.
    rewrite Hcache, Hsame. fold emailKey.
    rewrite run_try_catch, run_bind, run_cache_get_memory.
    cbn [clock store at_instant logged called with_store].
    rewrite (get_live emailKey later s1 _ _ Hentry Hlater). cbn [fst snd].
    cbn [truthy_value]. rewrite run_ret.
    unfold at_instant, logged, called, with_store. simpl. reflexivity.
  - intros later Hnow Hlater.
    by rewrite (get_expired emailKey later s1 _ _ Hentry) by lia.
Qed.

End CustomerCache.

Lemma created_customer_is_cached_for_a_day_witness :
  exists customer w1,
    StripeProviderMethods.createCustomer Scenario.stripeProvider
      (customer_request "ada@example.com" None) Scenario.world
    = (Ok (VCustomer customer), w1)
    /\ StripeProviderMethods.createCustomer Scenario.stripeProvider
         (customer_request "ada@example.com" (Some "Ada"))
         (at_instant 1700000000001 w1)
       = (Ok (VCustomer customer),
          logged [EvCacheGet "customer:email:ada@example.com"]
            (at_instant 1700000000001 w1)).
Proof.
  destruct (created_customer_is_cached_for_a_day Scenario.stripeProvider
              (customer_request "ada@example.com" None) Scenario.world
              {| raw_cus_id := "cus_new_0";
                 raw_cus_email := Some "ada@example.com";
                 raw_cus_name := None;
                 raw_cus_metadata := Some {["userId" := "user_1"]};
                 raw_cus_created := 1700000100;
                 raw_cus_deleted := false |})
    as (w1 & Hrun & _ & Hagain & _); try reflexivity.
  eexists. exists w1. split; [exact Hrun|].
  apply (Hagain (customer_request "ada@example.com" (Some "Ada")));
    [reflexivity | simpl; lia].
Defined.

Section CustomerCacheInterplay.
Implicit Types
  (this : StripeProvider.t (S := gmap string (Memory.StorageEntry Value)))
  (w : World (gmap string (Memory.StorageEntry Value))).

(** X22 — [createCheckout] leaves the id of the customer, a string,
    under [customer:email:<email>], the key under which [createCustomer]
    expects a customer object.  So after a first checkout,
    [createCustomer] with that email returns the id itself where a
    [Customer] is declared, at any later instant, and asks the provider
    for nothing. *)
Theorem createCustomer_returns_the_id_left_by_createCheckout
    this options userId email w rawCustomer rawSession data later :
  StripeProvider.cache this = createMemoryAdapter ->
  metadata options ≫= (fun m => m !! "userId") = Some userId ->
  userId <> EmptyString ->
  customerEmail options = Some email ->
  email <> EmptyString ->
  (Memory.get ("customer:userId:" +:+ userId) (clock w) (store w)).1 = None ->
  customers_create (StripeProvider.stripe this) (ticks w)
    (Api.customerParams (StripeProvider.customerData options userId email))
  = Resolved rawCustomer ->
  raw_cus_id rawCustomer <> EmptyString ->
  checkout_sessions_create (StripeProvider.stripe this) (1 + ticks w)
    (Api.sessionParams
       (StripeProvider.checkoutOptions options userId
          (Some (VString (raw_cus_id rawCustomer)))))
  = Resolved rawSession ->
  cd_email data = email ->
  exists w1,
    StripeProvider.createCheckout this options w
    = (Ok (Api.createdSession rawSession), w1)
    /\ StripeProviderMethods.createCustomer this data (at_instant later w1)
       = (Ok (VString (raw_cus_id rawCustomer)),
          logged [EvCacheGet ("customer:email:" +:+ email)] (at_instant later w1)).
Proof.
  intros Hcache Hmeta HuserId Hemail Hne Habsent Hcreate Hid Hsession Hdata.
  pose proof (run_first_checkout this options userId email w rawCustomer
                rawSession Hcache Hmeta HuserId Hemail Hne Habsent Hcreate
                Hsession) as Hrun.
  cbv zeta in Hrun. eexists. split; [exact Hrun|].
  unfold StripeProviderMethods.createCustomer. cbv zeta.
  rewrite Hcache, Hdata.
  rewrite run_try_catch, run_bind, run_cache_get_memory.
  cbn [clock store at_instant logged called with_store].
  rewrite (get_permanent ("customer:email:" +:+ email) later _
             (VString (raw_cus_id rawCustomer))).
  2: { rewrite set_lookup_ne by apply checkout_key_not_email_key.
       by apply set_lookup_no_expiry. }
  cbn [fst snd truthy_value].
  destruct (raw_cus_id rawCustomer) as [|c id]; [done|].
  rewrite run_ret. unfold at_instant, logged, called, with_store. simpl.
  reflexivity.
Qed.

(** X23 — the webhook handler gives the entries of a customer a
    lifetime: after it has cached the customer of a completed checkout,
    [customer:userId:<userId>] holds the id of that customer with 24
    hours to live, whatever was there before (the id that
    [createCheckout] stores there without a lifetime, for one), and so
    does [customer:email:<email>] with the customer object.  After
    these 24 hours the cache has no customer id for the user. *)
Theorem webhook_gives_the_customer_entries_a_lifetime
    (options : Webhook.CreateWebhookHandlerOptions
                 (S := gmap string (Memory.StorageEntry Value)))
    customer userId w :
  Webhook.cache options = createMemoryAdapter ->
  cus_metadata customer ≫= (fun m => m !! "userId") = Some userId ->
  userId <> EmptyString ->
  exists w',
    Webhook.cache_customer options customer w = (Ok tt, w')
    /\ store w' !! ("customer:userId:" +:+ userId)
       = Some {| Memory.value := VString (cus_id customer);
                 Memory.expiresAt := Some (clock w + 86400 * 1000) |}
    /\ (cus_email customer <> EmptyString ->
        store w' !! ("customer:email:" +:+ cus_email customer)
        = Some {| Memory.value := VCustomer customer;
                  Memory.expiresAt := Some (clock w + 86400 * 1000) |})
    /\ (forall later,
          0 <= clock w -> clock w + 86400 * 1000 < later ->
          (Memory.get ("customer:userId:" +:+ userId) later (store w')).1 = None).
Proof.
  intros Hcache Hmeta HuserId.
  destruct userId as [|c u]; [done|].
  assert (Hrun : exists s',
             Webhook.cache_customer options customer w
             = (Ok tt,
                logged
                  ([EvCacheSet ("customer:" +:+ cus_id customer)
                      (VCustomer customer) (Some 86400)]
                   ++ match cus_email customer with
                      | String _ _ as email =>
                          [EvCacheSet ("customer:email:" +:+ email)
                             (VCustomer customer) (Some 86400)]
                      | EmptyString => []
                      end
                   ++ [EvCacheSet ("customer:userId:" +:+ String c u)
                         (VString (cus_id customer)) (Some 86400)])
                  (with_store
                     (Memory.set ("customer:userId:" +:+ String c u)
                        (VString (cus_id customer)) (Some 86400) (clock w) s')
                     w))
             /\ (cus_email customer <> EmptyString ->
                 s' !! ("customer:email:" +:+ cus_email customer)
                 = Some {| Memory.value := VCustomer customer;
                           Memory.expiresAt := Some (clock w + 86400 * 1000) |})).
  { unfold Webhook.cache_customer. rewrite Hcache, Hmeta.
    rewrite run_bind, run_cache_set_memory, run_bind.
    destruct (cus_email customer) as [|c' e] eqn:Hemail.
    - rewrite run_ret, run_cache_set_memory. normalize_world.
      eexists. split; [reflexivity|done].
    - rewrite run_cache_set_memory, run_cache_set_memory. normalize_world.
      eexists. split; [reflexivity|]. intros _.
      by rewrite (set_lookup_ttl _ _ 86400) by lia. }
  destruct Hrun as (s' & Hrun & Hemail).
  eexists. split; [exact Hrun|].
  cbn [store logged with_store].
  assert (Huser : Memory.set ("customer:userId:" +:+ String c u)
                    (VString (cus_id customer)) (Some 86400) (clock w) s'
                  !! ("customer:userId:" +:+ String c u)
                  = Some {| Memory.value := VString (cus_id customer);
                            Memory.expiresAt := Some (clock w + 86400 * 1000) |})
    by (by rewrite (set_lookup_ttl _ _ 86400) by lia).
  split; [exact Huser|]. split.
  - intros Hne. rewrite set_lookup_ne by (simpl; intros [=]). by apply Hemail.
  - intros later Hnow Hlater.
    by rewrite (get_expired _ later _ _ _ Huser) by lia.
Qed.

End CustomerCacheInterplay.

Lemma createCustomer_returns_the_id_left_by_createCheckout_witness :
  exists session w1,
    StripeProvider.createCheckout Scenario.stripeProvider
      (Scenario.checkout_request "ada@example.com") Scenario.world
    = (Ok session, w1)
    /\ StripeProviderMethods.createCustomer Scenario.stripeProvider
         (customer_request "ada@example.com" (Some "Ada"))
         (at_instant 1800000000000 w1)
       = (Ok (VString "cus_new_0"),
          logged [EvCacheGet "customer:email:ada@example.com"]
            (at_instant 1800000000000 w1)).
Proof.
  edestruct (createCustomer_returns_the_id_left_by_createCheckout
               Scenario.stripeProvider
               (Scenario.checkout_request "ada@example.com")
               "user_1" "ada@example.com" Scenario.world
               {| raw_cus_id := "cus_new_0";
                  raw_cus_email := Some "ada@example.com";
                  raw_cus_name := None;
                  raw_cus_metadata := Some {["userId" := "user_1"]};
                  raw_cus_created := 1700000100;
                  raw_cus_deleted := false |})
    as (w1 & Hrun & Hcustomer);
    [reflexivity | reflexivity | discriminate | reflexivity | discriminate
    | reflexivity | reflexivity | discriminate | reflexivity | |].
  2: { eexists. exists w1. split; [exact Hrun|exact Hcustomer]. }
  reflexivity.
Defined.

(** The permanent entry of [createCheckout], rewritten by the handler of
    a completed checkout, is gone two days later: the next checkout of
    the user creates a second customer. *)
Lemma webhook_gives_the_customer_entries_a_lifetime_witness :
  let permanent : gmap string (Memory.StorageEntry Value) :=
    {["customer:userId:user_1" :=
        {| Memory.value := VString "cus_1"; Memory.expiresAt := None |}]} in
  exists w',
    Webhook.cache_customer (Scenario.options Sample.stripe None None)
      (Webhook.toCustomer Sample.customer_cus_1)
      (with_store permanent Scenario.world)
    = (Ok tt, w')
    /\ (Memory.get "customer:userId:user_1" 1800000000000 permanent).1
       = Some (VString "cus_1")
    /\ (Memory.get "customer:userId:user_1" 1800000000000 (store w')).1 = None.
Proof.
  intros permanent.
  destruct (webhook_gives_the_customer_entries_a_lifetime
              (Scenario.options Sample.stripe None None)
              (Webhook.toCustomer Sample.customer_cus_1) "user_1"
              (with_store permanent Scenario.world))
    as (w' & Hrun & _ & _ & Hgone);
    [reflexivity | reflexivity | discriminate |].
  exists w'. split; [exact Hrun|]. split; [reflexivity|].
  apply Hgone; simpl; lia.
Defined.

(** ** Subscriptions, the billing portal, and the requests for a session *)

Section BillingRuns.
Context {S : Type}.
Implicit Types w : World S.

Lemma run_billing_call {A : Type} (reply : nat -> Reply A) w :
  billing_call reply w
  = (match reply (ticks w) with
     | Resolved a => Ok a
     | Rejected e => Throw (Foreign e)
     end, called 1 w).
Proof. unfold billing_call. by destruct (reply (ticks w)). Qed.

Lemma run_createPortalSession billing customerId returnUrl w :
  Billing.createPortalSession billing customerId returnUrl w
  = (match billingPortal_sessions_create billing (ticks w) customerId returnUrl with
     | Resolved session => Ok {| ps_url := default "" (raw_ps_url session) |}
     | Rejected e => Throw (Billing.portal_failed customerId (Foreign e))
     end, called 1 w).
Proof.
  unfold Billing.createPortalSession.
  rewrite run_try_catch, run_bind, run_billing_call.
  by destruct (billingPortal_sessions_create billing (ticks w) customerId returnUrl).
Qed.

Lemma run_createSubscription billing options w :
  Billing.createSubscription billing options w
  = (match subscriptions_create billing (ticks w)
             (Billing.subscriptionParams options) with
     | Resolved raw => Ok (Billing.createdSubscription raw)
     | Rejected e =>
         Throw (Api.payment_failed "Subscription creation failed: " (Foreign e))
     end, called 1 w).
Proof.
  unfold Billing.createSubscription.
  rewrite run_try_catch, run_bind, run_billing_call.
  by destruct (subscriptions_create billing (ticks w) _).
Qed.

(** X24 — [createPortalSession]: a rejection with status 404 is
    reported as [CUSTOMER_NOT_FOUND] with status 404 and a message that
    names the customer, whatever the provider said; every other
    rejection is reported as [PAYMENT_FAILED] with the message of the
    provider and its status code (500 when it has none).  The method of
    the class adds nothing to the wrapper of [api.ts]: its own [catch]
    only ever rethrows. *)
Theorem portal_session_outcomes
    (this : StripeProvider.t (S := S)) billing customerId returnUrl w :
  StripeProviderMethods.createPortalSession this billing customerId returnUrl w
  = Billing.createPortalSession billing customerId returnUrl w
  /\ Billing.createPortalSession billing customerId returnUrl w
     = (match billingPortal_sessions_create billing (ticks w)
                customerId returnUrl with
        | Resolved session => Ok {| ps_url := default "" (raw_ps_url session) |}
        | Rejected (StripeError _ (Some 404)) =>
            Throw (PaymentError ("Customer not found: " +:+ customerId)
                     ErrorCodes.CUSTOMER_NOT_FOUND 404)
        | Rejected error =>
            Throw (PaymentError
                     ("Portal session creation failed: "
                      +:+ message_or_unknown (Foreign error))
                     ErrorCodes.PAYMENT_FAILED
                     match error with
                     | StripeError _ (Some statusCode) => statusCode
                     | _ => 500
                     end)
        end, called 1 w).
Proof.
  assert (Hclass : forall error,
             instanceof_PaymentError
               (Billing.portal_failed customerId (Foreign error)) = true).
  { intros error. unfold Billing.portal_failed.
    destruct error as [m [st|]| | |]; try reflexivity.
    destruct st as [|p|p]; try reflexivity.
    repeat (destruct p as [p|p|]; try reflexivity). }
  split.
  - unfold StripeProviderMethods.createPortalSession.
    rewrite run_try_catch, run_createPortalSession.
    destruct (billingPortal_sessions_create billing (ticks w) customerId returnUrl)
      as [session|error]; [done|].
    by rewrite Hclass.
  - rewrite run_createPortalSession.
    destruct (billingPortal_sessions_create billing (ticks w) customerId returnUrl)
      as [session|error]; [done|].
    unfold Billing.portal_failed.
    destruct error as [m [st|]| | |]; try reflexivity.
    destruct st as [|p|p]; try reflexivity.
    repeat (destruct p as [p|p|]; try reflexivity).
Qed.

End BillingRuns.

Section SubscriptionCache.
Implicit Types
  (this : StripeProvider.t (S := gmap string (Memory.StorageEntry Value)))
  (w : World (gmap string (Memory.StorageEntry Value))).

(** X25 — [createSubscription] of the class over the in-memory adapter,
    when the provider creates the subscription.  The request carries a
    quantity (1 when none is given), a metadata object (empty when none
    is given) and a trial period only when [trialDays] is given and not
    zero.  The subscription is returned and cached under
    [subscription:<id>] for one hour, as the object the webhook handler
    would cache for the same reply of the provider. *)
Theorem created_subscription_is_cached_for_an_hour this billing options w raw :
  StripeProvider.cache this = createMemoryAdapter ->
  let params :=
    Billing.subscriptionParams (StripeProviderMethods.subscriptionOptions options) in
  subscriptions_create billing (ticks w) params = Resolved raw ->
  let subscription := Billing.createdSubscription raw in
  let key := "subscription:" +:+ raw_sub_id raw in
  exists w',
    StripeProviderMethods.createSubscription this billing options w
    = (Ok subscription, w')
    /\ trace w' = (trace w ++ [EvCacheSet key (VSubscription subscription)
                                 (Some 3600)])%list
    /\ subscription = Webhook.toSubscription raw
    /\ subp_quantity params = Some (default 1 (so_quantity options))
    /\ subp_metadata params = Some (default ∅ (so_metadata options))
    /\ (forall days, subp_trial_period_days params = Some days
                     <-> so_trialDays options = Some days /\ days <> 0)
    /\ (forall later,
          later <= clock w + 3600 * 1000 ->
          (Memory.get key later (store w')).1 = Some (VSubscription subscription))
    /\ (forall later,
          0 <= clock w -> clock w + 3600 * 1000 < later ->
          (Memory.get key later (store w')).1 = None).
Proof.
  intros Hcache params Hcreate subscription key.
  assert (Hrun : StripeProviderMethods.createSubscription this billing options w
                 = (Ok subscription,
                    logged [EvCacheSet key (VSubscription subscription) (Some 3600)]
                      (called 1
                         (with_store
                            (Memory.set key (VSubscription subscription)
                               (Some 3600) (clock w) (store w)) w)))).
  { unfold StripeProviderMethods.createSubscription. rewrite Hcache.
    rewrite run_try_catch, run_bind, run_createSubscription.
    fold params. rewrite Hcreate. fold subscription.
    rewrite run_bind, run_cache_set_memory, run_ret.
    by normalize_world. }
  eexists. split; [exact Hrun|].
  cbn [trace store logged called with_store].
  assert (Hentry : Memory.set key (VSubscription subscription) (Some 3600)
                     (clock w) (store w) !! key
                   = Some {| Memory.value := VSubscription subscription;
                             Memory.expiresAt := Some (clock w + 3600 * 1000) |})
    by (by rewrite (set_lookup_ttl key _ 3600) by lia).
  split; [done|]. split; [done|]. split; [done|]. split; [done|].
  split; [|split].
  - intros days. unfold params. simpl.
    destruct (so_trialDays options) as [d|]; [|by split; [|intros [? _]]].
    unfold truthy_number. destruct (Z.eqb_spec d 0) as [->|Hne]; simpl.
    + split; [done|]. by intros [[= <-] ?].
    + split; [by intros [= <-] | by intros [[= <-] _]].
  - intros later Hlater. by rewrite (get_live key later _ _ _ Hentry Hlater).
  - intros later Hnow Hlater.
    by rewrite (get_expired key later _ _ _ Hentry) by lia.
Qed.

End SubscriptionCache.

Lemma created_subscription_is_cached_for_an_hour_witness :
  exists subscription w',
    StripeProviderMethods.createSubscription Scenario.stripeProvider sample_billing
      subscription_request Scenario.world
    = (Ok subscription, w')
    /\ sub_id subscription = "sub_new_0"
    /\ (Memory.get "subscription:sub_new_0" 1700003600000 (store w')).1
       = Some (VSubscription subscription)
    /\ (Memory.get "subscription:sub_new_0" 1700003600001 (store w')).1 = None.
Proof.
  edestruct (created_subscription_is_cached_for_an_hour Scenario.stripeProvider
               sample_billing subscription_request Scenario.world)
    as (w' & Hrun & _ & _ & _ & _ & _ & Hlive & Hgone);
    [reflexivity | reflexivity |].
  eexists. exists w'. split; [exact Hrun|]. split; [reflexivity|].
  split; [apply Hlive | apply Hgone]; simpl; lia.
Defined.

(** X26 — the request for a checkout session names the customer by id or
    by email, never both: a customer id wins over an email.  A trial
    period is sent exactly when [mode] is given as [subscription] and
    [trialDays] is given and not zero; when [mode] is left out the
    session is a subscription by default and [trialDays] is not sent.
    The request of [createStripeProvider] is the same except that its
    trial data carries no metadata. *)
Theorem session_request_shape options :
  let request := Api.sessionParams options in
  (scp_customer request = None \/ scp_customer_email request = None)
  /\ (truthy_value (customerId options) = true ->
      scp_customer request = customerId options)
  /\ (forall days meta,
        scp_subscription_data request = Some (days, meta)
        <-> mode options = Some "subscription" /\ trialDays options = Some days
            /\ days <> 0 /\ meta = metadata options)
  /\ (mode options = None ->
      scp_mode request = "subscription" /\ scp_subscription_data request = None)
  /\ scp_quantity request = default 1 (quantity options)
  /\ CoreProvider.sessionParams options
     = {| scp_price := scp_price request;
          scp_quantity := scp_quantity request;
          scp_mode := scp_mode request;
          scp_success_url := scp_success_url request;
          scp_cancel_url := scp_cancel_url request;
          scp_metadata := scp_metadata request;
          scp_customer := scp_customer request;
          scp_customer_email := scp_customer_email request;
          scp_subscription_data :=
            (fun data => (data.1, None)) <$> scp_subscription_data request |}.
Proof.
  intros request. unfold request, Api.sessionParams, CoreProvider.sessionParams.
  cbn [scp_customer scp_customer_email scp_subscription_data scp_mode scp_quantity
       scp_price scp_success_url scp_cancel_url scp_metadata].
  split; [|split; [|split; [|split; [|split]]]].
  - destruct (truthy_value (customerId options)); auto.
  - by intros ->.
  - intros days meta.
    destruct (mode options) as [m|]; [|by split; [|intros [? _]]].
    destruct (trialDays options) as [d|]; [|by split; [|intros (_ & ? & _)]].
    unfold truthy_number.
    destruct (String.eqb_spec m "subscription") as [->|Hm]; simpl.
    + destruct (Z.eqb_spec d 0) as [->|Hd]; simpl.
      * split; [done|]. by intros (_ & [= <-] & ? & _).
      * split; [by intros [= <- <-] | by intros (_ & [= <-] & _ & ->)].
    + split; [done|]. intros ([= ->] & _). done.
  - by intros ->.
  - done.
  - destruct (mode options) as [m|]; [|done].
    destruct (trialDays options) as [d|]; [|done].
    by destruct ((m =? "subscription")%string && truthy_number d).
Qed.

Section CoreCustomer.
Implicit Types
  (this : CoreProvider.t (S := gmap string (Memory.StorageEntry Value)))
  (w : World (gmap string (Memory.StorageEntry Value))).

(** X27 — [createCustomer] of [createStripeProvider] calls the sync
    adapter inside its [try]: when [onCustomerCreated] throws, the call
    throws a [PaymentError] ([Customer creation failed: ] and the
    message of the adapter), although the customer was created and is
    in the cache by then.  A retry with the same email during the next
    24 hours returns the cached customer and calls neither the provider
    nor the sync adapter. *)
Theorem core_createCustomer_fails_with_its_sync_adapter
    this data w rawCustomer onCustomerCreated error :
  CoreProvider.cache this = createMemoryAdapter ->
  store w !! ("customer:email:" +:+ cd_email data) = None ->
  customers_create (CoreProvider.stripe this) (ticks w) (Api.customerParams data)
  = Resolved rawCustomer ->
  CoreProvider.sync this ≫= sync_onCustomerCreated = Some onCustomerCreated ->
  onCustomerCreated (CoreProvider.customerData rawCustomer) = Throw error ->
  let customer := CoreProvider.customerData rawCustomer in
  exists w1,
    CoreProvider.createCustomer this data w
    = (Throw (Api.payment_failed "Customer creation failed: " error), w1)
    /\ instanceof_PaymentError
         (Api.payment_failed "Customer creation failed: " error) = true
    /\ trace w1
       = (trace w
          ++ [EvCacheGet ("customer:email:" +:+ cd_email data);
              EvStripe (CustomersCreate (Api.customerParams data));
              EvCacheSet ("customer:" +:+ raw_cus_id rawCustomer)
                (VCustomer customer) (Some 86400);
              EvCacheSet ("customer:email:" +:+ cd_email data)
                (VCustomer customer) (Some 86400);
              EvSync (SyncCustomerCreated customer)])%list
    /\ (forall later,
          later <= clock w + 86400 * 1000 ->
          CoreProvider.createCustomer this data (at_instant later w1)
          = (Ok (VCustomer customer),
             logged [EvCacheGet ("customer:email:" +:+ cd_email data)]
               (at_instant later w1))).
Proof.
  intros Hcache Hemail Hcreate Hsync Hthrow customer. subst customer.
  set (customer := CoreProvider.customerData rawCustomer) in *.
  set (emailKey := "customer:email:" +:+ cd_email data) in *.
  assert (Hrun : exists s1,
             CoreProvider.createCustomer this data w
             = (Throw (Api.payment_failed "Customer creation failed: " error),
                logged
                  [EvCacheGet emailKey;
                   EvStripe (CustomersCreate (Api.customerParams data));
                   EvCacheSet ("customer:" +:+ raw_cus_id rawCustomer)
                     (VCustomer customer) (Some 86400);
                   EvCacheSet emailKey (VCustomer customer) (Some 86400);
                   EvSync (SyncCustomerCreated customer)]
                  (called 1 (with_store s1 w)))
             /\ s1 !! emailKey
                = Some {| Memory.value := VCustomer customer;
                          Memory.expiresAt := Some (clock w + 86400 * 1000) |}).
  { unfold CoreProvider.createCustomer. cbv zeta. rewrite Hcache.
    fold emailKey.
    rewrite run_try_catch, run_bind, run_cache_get_memory.
    rewrite (get_absent emailKey) by exact Hemail. cbn [fst snd].
    rewrite run_bind, run_stripe_call. normalize_world. rewrite Hcreate.
    rewrite run_bind, run_cache_set_memory, run_bind, run_cache_set_memory.
    rewrite run_bind, run_call_if_configured, Hsync.
    fold customer. rewrite Hthrow. unfold call_events, throw.
    normalize_world.
    eexists. split; [reflexivity|].
    by rewrite (set_lookup_ttl emailKey _ 86400) by lia. }
  destruct Hrun as (s1 & Hrun & Hentry).
  eexists. split; [exact Hrun|]. split.
  { destruct (payment_failed_code "Customer creation failed: " error)
      as (m & st & ->). done. }
  cbn [trace store logged called with_store]. split; [done|].
  intros later Hlater.
  unfold CoreProvider.createCustomer. cbv zeta. rewrite Hcache.
  fold emailKey.
  rewrite run_try_catch, run_bind, run_cache_get_memory.
  cbn [clock store at_instant logged called with_store].
  rewrite (get_live emailKey later s1 _ _ Hentry Hlater).
  cbn [fst snd truthy_value]. rewrite run_ret.
  unfold at_instant, logged, called, with_store. simpl. reflexivity.
Qed.

End CoreCustomer.

Lemma core_createCustomer_fails_with_its_sync_adapter_witness :
  exists customer w1,
    CoreProvider.createCustomer core_provider_failing_sync
      (customer_request "ada@example.com" None) Scenario.world
    = (Throw (PaymentError "Customer creation failed: database unavailable"
                ErrorCodes.PAYMENT_FAILED 500), w1)
    /\ CoreProvider.createCustomer core_provider_failing_sync
         (customer_request "ada@example.com" None) (at_instant 1700000000001 w1)
       = (Ok (VCustomer customer),
          logged [EvCacheGet "customer:email:ada@example.com"]
            (at_instant 1700000000001 w1)).
Proof.
  edestruct (core_createCustomer_fails_with_its_sync_adapter
               core_provider_failing_sync
               (customer_request "ada@example.com" None) Scenario.world
               {| raw_cus_id := "cus_new_0";
                  raw_cus_email := Some "ada@example.com";
                  raw_cus_name := None;
                  raw_cus_metadata := Some {["userId" := "user_1"]};
                  raw_cus_created := 1700000100;
                  raw_cus_deleted := false |}
               (fun A => @Scenario.throws Customer Scenario.database_down A)
               Scenario.database_down)
    as (w1 & Hrun & _ & _ & Hagain); try reflexivity.
  eexists. exists w1. split; [exact Hrun|].
  apply Hagain. simpl. lia.
Defined.

(** ** The checkout handler and the portal handler *)

Lemma run_lift {S A : Type} (r : Result A) (w : World S) : lift r w = (r, w).
Proof. reflexivity. Qed.

(** The statuses [response_status] lets through, and what it returns. *)
Lemma response_status_accepted st :
  response_status st
  = if accepted_status st then Ok (st mod 65536)
    else if (st mod 65536 <? 200) || (599 <? st mod 65536)
         then Throw status_out_of_range
         else Throw (status_without_body (st mod 65536)).
Proof.
  unfold response_status, accepted_status. cbv zeta.
  destruct (st mod 65536 <? 200) eqn:Hlow; destruct (599 <? st mod 65536) eqn:Hhigh;
    cbn [orb]; try (replace (200 <=? st mod 65536) with false by lia; done);
    try (replace (st mod 65536 <=? 599) with false by lia;
         by rewrite andb_false_r).
  replace (200 <=? st mod 65536) with true by lia.
  replace (st mod 65536 <=? 599) with true by lia.
  by destruct ((st mod 65536 =? 204) || (st mod 65536 =? 205)
               || (st mod 65536 =? 304)).
Qed.

Lemma accepted_status_range st :
  accepted_status st = true
  <-> 200 <= st mod 65536 <= 599
      /\ st mod 65536 <> 204 /\ st mod 65536 <> 205 /\ st mod 65536 <> 304.
Proof. unfold accepted_status. cbv zeta. lia. Qed.

Section CheckoutHandlerOutcomes.
Context {S : Type}.
Implicit Types (options : CheckoutHandler.CreateCheckoutHandlerOptions (S := S))
  (request : CheckoutHandler.NextRequest) (w : World S).

Local Abbreviation handler := CheckoutHandler.createCheckoutHandler.

(** The [catch] of the handler. *)
Lemma run_checkout_catch error w :
  (match error with
   | PaymentError message code statusCode =>
       lift (CheckoutHandler.respond
               (CheckoutHandler.ErrorBody code (Some message)) statusCode)
   | _ =>
       emit (EvConsoleLog ("Checkout handler error: "
                           +:+ message_or_unknown error));;
       lift (CheckoutHandler.respond
               (CheckoutHandler.ErrorBody ErrorCodes.PAYMENT_FAILED
                  (Some "Failed to create checkout session")) 500)
   end : M S _) w
  = (checkout_error_response error,
     match error with
     | PaymentError _ _ _ => w
     | _ => logged [EvConsoleLog ("Checkout handler error: "
                                  +:+ message_or_unknown error)] w
     end).
Proof. by destruct error. Qed.

Lemma checkout_error_response_cases error :
  checkout_error_response error
  = match error with
    | PaymentError message code statusCode =>
        if accepted_status statusCode then
          Ok {| CheckoutHandler.body :=
                  CheckoutHandler.ErrorBody code (Some message);
                CheckoutHandler.status := statusCode mod 65536 |}
        else if (statusCode mod 65536 <? 200) || (599 <? statusCode mod 65536)
             then Throw status_out_of_range
             else Throw (status_without_body (statusCode mod 65536))
    | _ =>
        Ok {| CheckoutHandler.body :=
                CheckoutHandler.ErrorBody ErrorCodes.PAYMENT_FAILED
                  (Some "Failed to create checkout session");
              CheckoutHandler.status := 500 |}
    end.
Proof.
  destruct error as [message code statusCode| | |]; try reflexivity.
  unfold checkout_error_response, CheckoutHandler.respond.
  rewrite response_status_accepted.
  destruct (accepted_status statusCode); [done|].
  by destruct ((statusCode mod 65536 <? 200) || (599 <? statusCode mod 65536)).
Qed.

(** X28 — the checkout handler validates before it calls the provider,
    and answers every request but one kind.  Any method but [POST]
    gets 405 and nothing happens.  A [POST] whose body lacks a
    non-empty string for [priceId], [successUrl] or [cancelUrl]
    (absent, empty, or of another type) is answered 400 [Invalid
    request] with a message that names the first of the three that is
    wrong, and the world is the one before the request.  A body with
    the three fields is handed to the provider: its session is
    answered with 200 and the url and id of the session.  Whatever is
    thrown (by the provider, or by the request whose body is no JSON or
    is [null]) ends in the [catch]: an error that is no [PaymentError]
    is answered 500 [PAYMENT_FAILED] with the fixed message [Failed to
    create checkout session], without the message of the error; a
    [PaymentError] is answered with its code and message under its own
    status when [NextResponse.json] accepts that status (200..599 but
    204, 205, 304, modulo 2^16), and otherwise the handler itself
    rejects, with the error of [NextResponse.json]. *)
Theorem checkout_handler_outcomes options request w :
  (CheckoutHandler.method request <> "POST" ->
   handler options request w
   = (Ok {| CheckoutHandler.body :=
              CheckoutHandler.ErrorBody "Method not allowed" None;
            CheckoutHandler.status := 405 |}, w))
  /\ (CheckoutHandler.method request = "POST" ->
      (forall error, CheckoutHandler.json request = Throw error ->
                     (handler options request w).1
                     = checkout_error_response error)
      /\ (CheckoutHandler.json request = Ok None ->
          (handler options request w).1
          = Ok {| CheckoutHandler.body :=
                    CheckoutHandler.ErrorBody ErrorCodes.PAYMENT_FAILED
                      (Some "Failed to create checkout session");
                  CheckoutHandler.status := 500 |})
      /\ (forall body field,
            CheckoutHandler.json request = Ok (Some body) ->
            first_invalid_field body = Some field ->
            handler options request w
            = (Ok {| CheckoutHandler.body :=
                       CheckoutHandler.ErrorBody "Invalid request"
                         (Some (field +:+ " is required and must be a string"));
                     CheckoutHandler.status := 400 |}, w))
      /\ (forall body checkoutOptions,
            CheckoutHandler.json request = Ok (Some body) ->
            requested_checkout body = Some checkoutOptions ->
            match (provider_createCheckout (CheckoutHandler.provider options)
                     checkoutOptions w).1 with
            | Ok session =>
                exists response,
                  (handler options request w).1 = Ok response
                  /\ reports_session session response
            | Throw error =>
                (handler options request w).1 = checkout_error_response error
            end))
  /\ (forall error,
        checkout_error_response error
        = match error with
          | PaymentError message code statusCode =>
              if accepted_status statusCode then
                Ok {| CheckoutHandler.body :=
                        CheckoutHandler.ErrorBody code (Some message);
                      CheckoutHandler.status := statusCode mod 65536 |}
              else if (statusCode mod 65536 <? 200)
                      || (599 <? statusCode mod 65536)
                   then Throw status_out_of_range
                   else Throw (status_without_body (statusCode mod 65536))
          | _ =>
              Ok {| CheckoutHandler.body :=
                      CheckoutHandler.ErrorBody ErrorCodes.PAYMENT_FAILED
                        (Some "Failed to create checkout session");
                    CheckoutHandler.status := 500 |}
          end)
  /\ (forall st,
        accepted_status st = true
        <-> 200 <= st mod 65536 <= 599
            /\ st mod 65536 <> 204 /\ st mod 65536 <> 205
            /\ st mod 65536 <> 304).
Proof.
  split; [|split; [|split; [exact checkout_error_response_cases
                           |exact accepted_status_range]]].
  { intros Hmethod. unfold CheckoutHandler.createCheckoutHandler.
    apply String.eqb_neq in Hmethod. by rewrite Hmethod. }
  intros Hmethod. unfold CheckoutHandler.createCheckoutHandler.
  rewrite Hmethod, String.eqb_refl. cbn [negb].
  rewrite run_try_catch, run_bind, run_lift. cbv beta iota.
  destruct (CheckoutHandler.json request) as [[body|]|error] eqn:Hjson.
  - split; [done|]. split; [done|].
    destruct (nonempty_string (CheckoutHandler.body_priceId body))
      as [price|] eqn:Hprice;
      [destruct (nonempty_string (CheckoutHandler.body_successUrl body))
         as [success|] eqn:Hsuccess;
       [destruct (nonempty_string (CheckoutHandler.body_cancelUrl body))
          as [cancel|] eqn:Hcancel|]|].
    + split.
      { intros body' field [= <-]. unfold first_invalid_field.
        by rewrite Hprice, Hsuccess, Hcancel. }
      intros body' checkoutOptions [= <-].
      unfold requested_checkout. rewrite Hprice, Hsuccess, Hcancel. simpl.
      intros [= <-]. rewrite run_bind.
      match goal with
      | |- context [provider_createCheckout ?p ?o w] =>
          destruct (provider_createCheckout p o w) as [[session|error] w1]
      end; cbn [fst].
      * eexists. split; [reflexivity|]. split; [reflexivity|].
        eexists. split; [reflexivity|done].
      * by rewrite run_checkout_catch.
    + split.
      { intros body' field [= <-]. unfold first_invalid_field.
        rewrite Hprice, Hsuccess, Hcancel. by intros [= <-]. }
      intros body' checkoutOptions [= <-].
      unfold requested_checkout. by rewrite Hprice, Hsuccess, Hcancel.
    + split.
      { intros body' field [= <-]. unfold first_invalid_field.
        rewrite Hprice, Hsuccess. by intros [= <-]. }
      intros body' checkoutOptions [= <-].
      unfold requested_checkout. by rewrite Hprice, Hsuccess.
    + split.
      { intros body' field [= <-]. unfold first_invalid_field.
        rewrite Hprice. by intros [= <-]. }
      intros body' checkoutOptions [= <-].
      unfold requested_checkout. by rewrite Hprice.
  - unfold throw. cbv beta iota. rewrite run_checkout_catch.
    split; [done|]. split; [done|]. split; done.
  - rewrite run_checkout_catch.
    split; [by intros ? [= <-]|]. split; [done|]. split; done.
Qed.

(** X29 — the checkout handler in front of an instance of
    [StripeProvider]: since [createCheckout] throws nothing but
    [PaymentError], the endpoint never answers with the anonymous
    message and logs nothing.  It answers 200 with the session, or it
    hands the code, the message and the status of the [PaymentError] to
    [NextResponse.json]: that is the answer when the status is one
    [NextResponse.json] accepts, and the handler rejects when it is
    not (the provider rethrows a [PaymentError] of its cache adapter
    unchanged, whatever its status).  In particular a body without a
    [userId] in its metadata is answered 400 [INVALID_REQUEST], and
    nothing else happens. *)
Theorem checkout_endpoint_reports_the_provider
    (this : StripeProvider.t (S := S)) options request body checkoutOptions w :
  provider_createCheckout (CheckoutHandler.provider options)
  = StripeProvider.createCheckout this ->
  CheckoutHandler.method request = "POST" ->
  CheckoutHandler.json request = Ok (Some body) ->
  requested_checkout body = Some checkoutOptions ->
  ((exists session response,
      (StripeProvider.createCheckout this checkoutOptions w).1 = Ok session
      /\ handler options request w
         = (Ok response, (StripeProvider.createCheckout this checkoutOptions w).2)
      /\ reports_session session response)
   \/ (exists message code statusCode,
         (StripeProvider.createCheckout this checkoutOptions w).1
         = Throw (PaymentError message code statusCode)
         /\ handler options request w
            = (if accepted_status statusCode then
                 Ok {| CheckoutHandler.body :=
                         CheckoutHandler.ErrorBody code (Some message);
                       CheckoutHandler.status := statusCode mod 65536 |}
               else if (statusCode mod 65536 <? 200)
                       || (599 <? statusCode mod 65536)
                    then Throw status_out_of_range
                    else Throw (status_without_body (statusCode mod 65536)),
               (StripeProvider.createCheckout this checkoutOptions w).2)))
  /\ (truthy_string (CheckoutHandler.body_metadata body
                     ≫= (fun m => m !! "userId")) = false ->
      handler options request w
      = (Ok {| CheckoutHandler.body :=
                 CheckoutHandler.ErrorBody ErrorCodes.INVALID_REQUEST
                   (Some "userId is required in metadata for checkout");
               CheckoutHandler.status := 400 |},
         w)).
Proof.
  intros Hprovider Hmethod Hjson Hoptions.
  assert (Honly : only_PaymentError
                    (StripeProvider.createCheckout this checkoutOptions w).1).
  { apply (try_catch_throws _ _ (fun e => instanceof_PaymentError e = true)).
    intros e w1. apply (rethrow_only_PaymentError "Checkout creation failed: "). }
  assert (Hrun : handler options request w
                 = (match (StripeProvider.createCheckout this checkoutOptions w).1
                    with
                    | Ok session =>
                        Ok {| CheckoutHandler.body :=
                                CheckoutHandler.Created (cs_url session)
                                  (cs_id session);
                              CheckoutHandler.status := 200 |}
                    | Throw error => checkout_error_response error
                    end,
                    (StripeProvider.createCheckout this checkoutOptions w).2)).
  { unfold CheckoutHandler.createCheckoutHandler.
    rewrite Hmethod, String.eqb_refl, Hjson. cbn [negb].
    rewrite run_try_catch, run_bind, run_lift. cbv beta iota.
    revert Hoptions. unfold requested_checkout.
    destruct (nonempty_string (CheckoutHandler.body_priceId body))
      as [price|]; [|done].
    destruct (nonempty_string (CheckoutHandler.body_successUrl body))
      as [success|]; [|done].
    destruct (nonempty_string (CheckoutHandler.body_cancelUrl body))
      as [cancel|]; [|done].
    simpl. intros [= <-]. rewrite run_bind, Hprovider.
    match goal with
    | |- context [StripeProvider.createCheckout this ?o w] =>
        revert Honly;
        destruct (StripeProvider.createCheckout this o w)
          as [[session|error] w1]
    end.
    - intros _. reflexivity.
    - simpl. intros Hclass. rewrite run_checkout_catch. by destruct error. }
  split.
  - rewrite Hrun. revert Honly.
    destruct (StripeProvider.createCheckout this checkoutOptions w)
      as [[session|error] w1]; cbn [fst snd].
    + intros _. left. eexists. eexists. split; [reflexivity|].
      split; [reflexivity|]. split; [reflexivity|].
      eexists. split; [reflexivity|done].
    + simpl. destruct error as [message code statusCode| | |]; try done.
      intros _. right. exists message, code, statusCode.
      split; [reflexivity|].
      by rewrite (checkout_error_response_cases
                    (PaymentError message code statusCode)).
  - intros HuserId. rewrite Hrun.
    assert (Hmeta : metadata checkoutOptions = CheckoutHandler.body_metadata body).
    { revert Hoptions. unfold requested_checkout.
      destruct (nonempty_string (CheckoutHandler.body_priceId body)); [|done].
      destruct (nonempty_string (CheckoutHandler.body_successUrl body)); [|done].
      destruct (nonempty_string (CheckoutHandler.body_cancelUrl body)); [|done].
      simpl. by intros [= <-]. }
    unfold StripeProvider.createCheckout. rewrite Hmeta.
    by destruct (CheckoutHandler.body_metadata body ≫= (fun m => m !! "userId"))
      as [[|c u]|].
Qed.

End CheckoutHandlerOutcomes.

(** A provider whose [PaymentError] carries the status 204, which allows
    no body: the checkout handler rejects. *)
Lemma checkout_handler_outcomes_witness :
  (CheckoutHandler.createCheckoutHandler
     {| CheckoutHandler.provider :=
          {| provider_createCheckout checkoutOptions :=
               throw (PaymentError "Nothing to pay" ErrorCodes.PAYMENT_FAILED 204);
             provider_createPortalSession :=
               StripeProviderMethods.createPortalSession
                 stripeProvider_rate_limited sample_billing |};
        CheckoutHandler.cache := None |}
     {| CheckoutHandler.method := "POST";
        CheckoutHandler.json := Ok (Some checkout_body) |}
     Scenario.world).1
  = Throw (status_without_body 204).
Proof.
  destruct (checkout_handler_outcomes
              {| CheckoutHandler.provider :=
                   {| provider_createCheckout checkoutOptions :=
                        throw (PaymentError "Nothing to pay"
                                 ErrorCodes.PAYMENT_FAILED 204);
                      provider_createPortalSession :=
                        StripeProviderMethods.createPortalSession
                          stripeProvider_rate_limited sample_billing |};
                 CheckoutHandler.cache := None |}
              {| CheckoutHandler.method := "POST";
                 CheckoutHandler.json := Ok (Some checkout_body) |}
              Scenario.world)
    as (_ & Hpost & _ & _).
  destruct (Hpost eq_refl) as (_ & _ & _ & Hbody).
  exact (Hbody checkout_body (Scenario.checkout_request "ada@example.com")
           eq_refl eq_refl).
Defined.

(** The provider refuses to create the customer with status 429, and the
    endpoint answers 429; the cache adapter throws a [PaymentError] with
    the status 42, and the handler rejects with a [RangeError]. *)
Lemma checkout_endpoint_reports_the_provider_witness :
  (CheckoutHandler.createCheckoutHandler
     {| CheckoutHandler.provider := rate_limited_provider;
        CheckoutHandler.cache := None |}
     {| CheckoutHandler.method := "POST";
        CheckoutHandler.json := Ok (Some checkout_body) |}
     Scenario.world).1
  = Ok {| CheckoutHandler.body :=
            CheckoutHandler.ErrorBody ErrorCodes.PAYMENT_FAILED
              (Some "Customer creation failed: Too many requests");
          CheckoutHandler.status := 429 |}
  /\ (CheckoutHandler.createCheckoutHandler
        {| CheckoutHandler.provider :=
             {| provider_createCheckout :=
                  StripeProvider.createCheckout stripeProvider_out_of_quota;
                provider_createPortalSession :=
                  StripeProviderMethods.createPortalSession
                    stripeProvider_out_of_quota sample_billing |};
           CheckoutHandler.cache := None |}
        {| CheckoutHandler.method := "POST";
           CheckoutHandler.json := Ok (Some checkout_body) |}
        unit_world).1
     = Throw status_out_of_range.
Proof.
  split.
  - destruct (checkout_endpoint_reports_the_provider
                stripeProvider_rate_limited
                {| CheckoutHandler.provider := rate_limited_provider;
                   CheckoutHandler.cache := None |}
                {| CheckoutHandler.method := "POST";
                   CheckoutHandler.json := Ok (Some checkout_body) |}
                checkout_body (Scenario.checkout_request "ada@example.com")
                Scenario.world eq_refl eq_refl eq_refl eq_refl)
      as [[(session & response & Hprovider & _)
          |(message & code & statusCode & Hprovider & Hrun)] _].
    + discriminate Hprovider.
    + rewrite Hrun. injection Hprovider as <- <- <-. reflexivity.
  - destruct (checkout_endpoint_reports_the_provider
                stripeProvider_out_of_quota
                {| CheckoutHandler.provider :=
                     {| provider_createCheckout :=
                          StripeProvider.createCheckout stripeProvider_out_of_quota;
                        provider_createPortalSession :=
                          StripeProviderMethods.createPortalSession
                            stripeProvider_out_of_quota sample_billing |};
                   CheckoutHandler.cache := None |}
                {| CheckoutHandler.method := "POST";
                   CheckoutHandler.json := Ok (Some checkout_body) |}
                checkout_body (Scenario.checkout_request "ada@example.com")
                unit_world eq_refl eq_refl eq_refl eq_refl)
      as [[(session & response & Hprovider & _)
          |(message & code & statusCode & Hprovider & Hrun)] _].
    + discriminate Hprovider.
    + rewrite Hrun. injection Hprovider as <- <- <-. reflexivity.
Defined.

Section PortalHandlerOutcomes.
Context {S : Type} (URL_parses : string -> bool).
Implicit Types (provider : PaymentProviderAsync S)
  (request : PortalHandler.NextRequest) (w : World S).

Local Abbreviation handler := (PortalHandler.createPortalHandler URL_parses).

Lemma run_portal_catch error w :
  (match error with
   | PaymentError message code statusCode =>
       lift (PortalHandler.respond
               (PortalHandler.ErrorBody code (Some message)) statusCode)
   | _ =>
       emit (EvConsoleLog ("Portal handler error: "
                           +:+ message_or_unknown error));;
       lift (PortalHandler.respond
               (PortalHandler.ErrorBody ErrorCodes.PAYMENT_FAILED
                  (Some "Failed to create portal session")) 500)
   end : M S _) w
  = (portal_error_response error,
     match error with
     | PaymentError _ _ _ => w
     | _ => logged [EvConsoleLog ("Portal handler error: "
                                  +:+ message_or_unknown error)] w
     end).
Proof. by destruct error. Qed.

Lemma portal_error_response_cases error :
  portal_error_response error
  = match error with
    | PaymentError message code statusCode =>
        if accepted_status statusCode then
          Ok {| PortalHandler.body := PortalHandler.ErrorBody code (Some message);
                PortalHandler.status := statusCode mod 65536 |}
        else if (statusCode mod 65536 <? 200) || (599 <? statusCode mod 65536)
             then Throw status_out_of_range
             else Throw (status_without_body (statusCode mod 65536))
    | _ =>
        Ok {| PortalHandler.body :=
                PortalHandler.ErrorBody ErrorCodes.PAYMENT_FAILED
                  (Some "Failed to create portal session");
              PortalHandler.status := 500 |}
    end.
Proof.
  destruct error as [message code statusCode| | |]; try reflexivity.
  unfold portal_error_response, PortalHandler.respond.
  rewrite response_status_accepted.
  destruct (accepted_status statusCode); [done|].
  by destruct ((statusCode mod 65536 <? 200) || (599 <? statusCode mod 65536)).
Qed.

(** X30 — the portal handler validates before it calls the provider,
    and answers every request but one kind.  Any method but [POST]
    gets 405.  A [POST] whose [customerId] is no non-empty string gets
    400; so does one whose [returnUrl] is no non-empty string, and one
    whose [returnUrl] does not parse as a URL; in these cases the
    provider is not called and the world is the one before the
    request.  Otherwise the provider is asked for a portal session for
    exactly that customer and URL, and its session is answered 200 with
    the url.  Whatever is thrown ends in the [catch]: an error that is
    no [PaymentError] is answered 500 with the fixed message [Failed to
    create portal session]; a [PaymentError] is answered with its code
    and message under its own status when [NextResponse.json] accepts
    that status (200..599 but 204, 205, 304, modulo 2^16), and
    otherwise the handler itself rejects, with the error of
    [NextResponse.json]. *)
Theorem portal_handler_outcomes provider request w :
  (PortalHandler.method request <> "POST" ->
   handler provider request w
   = (Ok {| PortalHandler.body := PortalHandler.ErrorBody "Method not allowed" None;
            PortalHandler.status := 405 |}, w))
  /\ (PortalHandler.method request = "POST" ->
      (forall error, PortalHandler.json request = Throw error ->
                     (handler provider request w).1 = portal_error_response error)
      /\ (PortalHandler.json request = Ok None ->
          (handler provider request w).1
          = Ok {| PortalHandler.body :=
                    PortalHandler.ErrorBody ErrorCodes.PAYMENT_FAILED
                      (Some "Failed to create portal session");
                  PortalHandler.status := 500 |})
      /\ (forall body,
            PortalHandler.json request = Ok (Some body) ->
            match nonempty_string (PortalHandler.body_customerId body),
                  nonempty_string (PortalHandler.body_returnUrl body) with
            | None, _ =>
                handler provider request w
                = (Ok {| PortalHandler.body :=
                           PortalHandler.ErrorBody "Invalid request"
                             (Some "customerId is required and must be a string");
                         PortalHandler.status := 400 |}, w)
            | Some _, None =>
                handler provider request w
                = (Ok {| PortalHandler.body :=
                           PortalHandler.ErrorBody "Invalid request"
                             (Some "returnUrl is required and must be a string");
                         PortalHandler.status := 400 |}, w)
            | Some customerId, Some returnUrl =>
                if URL_parses returnUrl then
                  (handler provider request w).1
                  = match (provider_createPortalSession provider
                             customerId returnUrl w).1 with
                    | Ok session =>
                        Ok {| PortalHandler.body :=
                                PortalHandler.Portal (ps_url session);
                              PortalHandler.status := 200 |}
                    | Throw error => portal_error_response error
                    end
                else
                  handler provider request w
                  = (Ok {| PortalHandler.body :=
                             PortalHandler.ErrorBody "Invalid request"
                               (Some "returnUrl must be a valid URL");
                           PortalHandler.status := 400 |}, w)
            end))
  /\ (forall error,
        portal_error_response error
        = match error with
          | PaymentError message code statusCode =>
              if accepted_status statusCode then
                Ok {| PortalHandler.body :=
                        PortalHandler.ErrorBody code (Some message);
                      PortalHandler.status := statusCode mod 65536 |}
              else if (statusCode mod 65536 <? 200)
                      || (599 <? statusCode mod 65536)
                   then Throw status_out_of_range
                   else Throw (status_without_body (statusCode mod 65536))
          | _ =>
              Ok {| PortalHandler.body :=
                      PortalHandler.ErrorBody ErrorCodes.PAYMENT_FAILED
                        (Some "Failed to create portal session");
                    PortalHandler.status := 500 |}
          end)
  /\ (forall st,
        accepted_status st = true
        <-> 200 <= st mod 65536 <= 599
            /\ st mod 65536 <> 204 /\ st mod 65536 <> 205
            /\ st mod 65536 <> 304).
Proof.
  split; [|split; [|split; [exact portal_error_response_cases
                           |exact accepted_status_range]]].
  { intros Hmethod. unfold PortalHandler.createPortalHandler.
    apply String.eqb_neq in Hmethod. by rewrite Hmethod. }
  intros Hmethod. unfold PortalHandler.createPortalHandler.
  rewrite Hmethod, String.eqb_refl. cbn [negb].
  rewrite run_try_catch, run_bind, run_lift. cbv beta iota.
  destruct (PortalHandler.json request) as [[body|]|error] eqn:Hjson.
  - split; [done|]. split; [done|]. intros body' [= <-].
    destruct (nonempty_string (PortalHandler.body_customerId body))
      as [customerId|] eqn:Hcustomer;
      [destruct (nonempty_string (PortalHandler.body_returnUrl body))
         as [returnUrl|] eqn:Hreturn;
       [destruct (URL_parses returnUrl) eqn:Hurl|]|]; cbn [negb];
      try reflexivity.
    rewrite run_bind.
    destruct (provider_createPortalSession provider customerId returnUrl w)
      as [[session|error] w1]; cbn [fst]; [reflexivity|].
    by rewrite run_portal_catch.
  - unfold throw. cbv beta iota. rewrite run_portal_catch.
    split; [done|]. split; done.
  - rewrite run_portal_catch.
    split; [by intros ? [= <-]|]. split; done.
Qed.

End PortalHandlerOutcomes.

(** A provider whose [PaymentError] carries the status 1000: the portal
    handler rejects. *)
Lemma portal_handler_outcomes_witness :
  (PortalHandler.createPortalHandler (fun _ => true)
     {| provider_createCheckout :=
          StripeProvider.createCheckout stripeProvider_rate_limited;
        provider_createPortalSession customerId returnUrl :=
          throw (PaymentError "Portal unavailable" ErrorCodes.PAYMENT_FAILED 1000) |}
     {| PortalHandler.method := "POST";
        PortalHandler.json :=
          Ok (Some {| PortalHandler.body_customerId := Some (Upstash.JString "cus_1");
                      PortalHandler.body_returnUrl :=
                        Some (Upstash.JString "https://example.com/account") |}) |}
     Scenario.world).1
  = Throw status_out_of_range.
Proof.
  destruct (portal_handler_outcomes (fun _ => true)
              {| provider_createCheckout :=
                   StripeProvider.createCheckout stripeProvider_rate_limited;
                 provider_createPortalSession customerId returnUrl :=
                   throw (PaymentError "Portal unavailable"
                            ErrorCodes.PAYMENT_FAILED 1000) |}
              {| PortalHandler.method := "POST";
                 PortalHandler.json :=
                   Ok (Some {| PortalHandler.body_customerId :=
                                 Some (Upstash.JString "cus_1");
                               PortalHandler.body_returnUrl :=
                                 Some (Upstash.JString
                                         "https://example.com/account") |}) |}
              Scenario.world)
    as (_ & Hpost & _ & _).
  destruct (Hpost eq_refl) as (_ & _ & Hbody).
  exact (Hbody _ eq_refl).
Defined.
